(** * Oracle: absorption-profile fitting of atomic transitions

    A shallow embedding of [oracle/utils.py], [oracle/models/transitions.py]
    and the entry checks of [oracle/solvers/profiles.py].

    Python floats are IEEE-754 binary64 numbers and are modelled by Rocq's
    primitive floats, which compute with the same arithmetic.  Python
    exceptions are modelled by the [result] monad.  Code of numpy, scipy and
    of the modules of this repository that are not part of the sources at hand
    ([oracle.specutils], [oracle.synthesis], [oracle.models.profiles]) enters
    the development as section variables. *)

From Stdlib Require Import ZArith List String Ascii Bool Lia DecimalString.
From Stdlib Require Import Floats Uint63.
From Stdlib Require Reals Lra DecimalZ.
Import ListNotations.

Set Warnings "-inexact-float".
Local Open Scope Z_scope.

(* ================================================================== *)
(** * The Python run time                                               *)
(* ================================================================== *)

Module Py.

(** ** Exceptions and the error monad *)

Inductive exn : Type :=
| TypeError (msg : string)
| ValueError (msg : string)
| KeyError (key : string)
| IndexError (msg : string)
| AttributeError (msg : string)
| UnboundLocalError (name : string)
| OverflowError (msg : string)
| NotImplementedError (msg : string)
| AssertionError (msg : string).

Inductive result (A : Type) : Type :=
| Return (a : A)
| Raise (e : exn).

Arguments Return {A} a.
Arguments Raise {A} e.

Definition bind {A B : Type} (m : result A) (k : A -> result B) : result B :=
  match m with
  | Return a => k a
  | Raise e => Raise e
  end.

Definition is_return {A : Type} (m : result A) : bool :=
  match m with Return _ => true | Raise _ => false end.

(** The value of a computation that returns, and [d] for one that raises. *)
Definition value_or {A : Type} (d : A) (m : result A) : A :=
  match m with Return a => a | Raise _ => d end.

Fixpoint mapM {A B : Type} (f : A -> result B) (l : list A) : result (list B) :=
  match l with
  | [] => Return []
  | a :: l' =>
      bind (f a) (fun b => bind (mapM f l') (fun bs => Return (b :: bs)))
  end.

(** [for x in l: st = body x st] *)
Fixpoint foldM {A S : Type} (body : A -> S -> result S) (l : list A) (st : S)
  : result S :=
  match l with
  | [] => Return st
  | a :: l' => bind (body a st) (foldM body l')
  end.

(** ** Strings *)

Definition is_space (c : ascii) : bool :=
  let n := nat_of_ascii c in
  (Nat.eqb n 32 || (Nat.leb 9 n && Nat.leb n 13))%bool.

Definition is_digit (c : ascii) : bool :=
  let n := nat_of_ascii c in (Nat.leb 48 n && Nat.leb n 57)%bool.

Definition lower_char (c : ascii) : ascii :=
  let n := nat_of_ascii c in
  if (Nat.leb 65 n && Nat.leb n 90)%bool then ascii_of_nat (n + 32) else c.

Definition upper_char (c : ascii) : ascii :=
  let n := nat_of_ascii c in
  if (Nat.leb 97 n && Nat.leb n 122)%bool then ascii_of_nat (n - 32) else c.

Fixpoint str_map (f : ascii -> ascii) (s : string) : string :=
  match s with
  | EmptyString => EmptyString
  | String c s' => String (f c) (str_map f s')
  end.

(** [s.lower()] and [s.upper()] *)
Definition lower : string -> string := str_map lower_char.
Definition upper : string -> string := str_map upper_char.

(** [s.startswith(p)] *)
Definition startswith (s p : string) : bool := String.prefix p s.

(** [sub in s], for a substring [sub] *)
Fixpoint contains (s sub : string) : bool :=
  match s with
  | EmptyString => String.prefix sub EmptyString
  | String _ s' => (String.prefix sub s || contains s' sub)%bool
  end.

(** [s.count(c)] for a one-character [c] *)
Fixpoint count_char (s : string) (c : ascii) : Z :=
  match s with
  | EmptyString => 0
  | String d s' => (if Ascii.eqb c d then 1 else 0) + count_char s' c
  end.

(** [s.split()]: the maximal runs of characters that are not white space. *)
Fixpoint split_aux (s : string) (word : string) : list string :=
  match s with
  | EmptyString =>
      match word with EmptyString => [] | _ => [word] end
  | String c s' =>
      if is_space c
      then match word with
           | EmptyString => split_aux s' EmptyString
           | _ => word :: split_aux s' EmptyString
           end
      else split_aux s' (String.append word (String c EmptyString))
  end.

Definition split (s : string) : list string := split_aux s EmptyString.

(** [s.replace(old, new)] for a non-empty [old]: the occurrences of [old] are
    replaced from left to right and do not overlap; [skip] counts the
    characters of a replaced occurrence that are still to be dropped. *)
Fixpoint replace_aux (old new s : string) (skip : nat) : string :=
  match s with
  | EmptyString => EmptyString
  | String c s' =>
      match skip with
      | S k => replace_aux old new s' k
      | O =>
          if String.prefix old s
          then String.append new (replace_aux old new s' (String.length old - 1))
          else String c (replace_aux old new s' 0)
      end
  end.

Definition replace (s old new : string) : string := replace_aux old new s 0.

(** [s.strip()] *)
Fixpoint lstrip (s : string) : string :=
  match s with
  | String c s' => if is_space c then lstrip s' else s
  | EmptyString => EmptyString
  end.

Fixpoint rstrip (s : string) : string :=
  match s with
  | EmptyString => EmptyString
  | String c s' =>
      match rstrip s' with
      | EmptyString => if is_space c then EmptyString else String c EmptyString
      | r => String c r
      end
  end.

Definition strip (s : string) : string := rstrip (lstrip s).

(** ** Lists *)

(** [l[i]] with Python's negative indices *)
Definition getitem {A : Type} (l : list A) (i : Z) : result A :=
  let n := Z.of_nat (List.length l) in
  let j := if i <? 0 then i + n else i in
  if (j <? 0) || (n <=? j) then Raise (IndexError "list index out of range")
  else match nth_error l (Z.to_nat j) with
       | Some a => Return a
       | None => Raise (IndexError "list index out of range")
       end.

(** [l.index(x) + 1 - 1]: the position of the first occurrence *)
Fixpoint index_of (l : list string) (x : string) : option Z :=
  match l with
  | [] => None
  | y :: l' =>
      if String.eqb x y then Some 0
      else match index_of l' x with Some i => Some (i + 1) | None => None end
  end.

Definition str_in (x : string) (l : list string) : bool :=
  existsb (String.eqb x) l.

(** [range(n)] *)
Definition range (n : Z) : list Z := map Z.of_nat (seq 0 (Z.to_nat n)).

(** ** Dictionaries with string keys, in iteration order *)

(** A dictionary is the list of its items, a new key going to the end.  The
    dictionaries of the source keep no order of insertion: what is stated of
    a dictionary is what a lookup finds, which keys it has and how many; the
    order of the list is that in which a loop over the dictionary is followed
    here. *)

Definition dict (V : Type) : Type := list (string * V).

Fixpoint dict_get {V : Type} (d : dict V) (k : string) : option V :=
  match d with
  | [] => None
  | (k', v) :: d' => if String.eqb k k' then Some v else dict_get d' k
  end.

(** [d.keys()] *)
Definition keys {V : Type} (d : dict V) : list string := map fst d.

(** [d[k]] *)
Definition dict_item {V : Type} (d : dict V) (k : string) : result V :=
  match dict_get d k with
  | Some v => Return v
  | None => Raise (KeyError k)
  end.

(** [k in d] *)
Definition dict_mem {V : Type} (d : dict V) (k : string) : bool :=
  match dict_get d k with Some _ => true | None => false end.

(** [d[k] = v] *)
Fixpoint dict_set {V : Type} (d : dict V) (k : string) (v : V) : dict V :=
  match d with
  | [] => [(k, v)]
  | (k', v') :: d' =>
      if String.eqb k k' then (k', v) :: d' else (k', v') :: dict_set d' k v
  end.

(** [d.update(dict(pairs))] and [dict(pairs)] *)
Definition dict_update {V : Type} (d : dict V) (pairs : list (string * V))
  : dict V :=
  fold_left (fun acc kv => dict_set acc (fst kv) (snd kv)) pairs d.

Definition dict_of {V : Type} (pairs : list (string * V)) : dict V :=
  dict_update [] pairs.

(** [d.setdefault(k, v)], for the dictionary it leaves *)
Definition dict_setdefault {V : Type} (d : dict V) (k : string) (v : V)
  : dict V :=
  if dict_mem d k then d else dict_set d k v.

(** [d.get(k, v)] *)
Definition dict_get_default {V : Type} (d : dict V) (k : string) (v : V) : V :=
  match dict_get d k with Some x => x | None => v end.

(** [d.pop(k, v)]: the value and the dictionary it leaves *)
Definition dict_remove {V : Type} (d : dict V) (k : string) : dict V :=
  filter (fun kv => negb (String.eqb k (fst kv))) d.

Definition dict_pop {V : Type} (d : dict V) (k : string) (v : V) : V * dict V :=
  (dict_get_default d k v, dict_remove d k).

(** ** Numbers *)

(** [float(z)] for an integer of fewer than 64 bits *)
Definition of_Z (z : Z) : float :=
  match z with
  | Z0 => PrimFloat.zero
  | Zpos _ => PrimFloat.of_uint63 (Uint63.of_Z z)
  | Zneg _ => PrimFloat.opp (PrimFloat.of_uint63 (Uint63.of_Z (- z)))
  end.

(** [int(f)]: truncation towards zero; [None] for infinities and NaN. *)
Definition trunc (f : float) : option Z :=
  match Prim2SF f with
  | S754_zero _ => Some 0
  | S754_finite s m e =>
      let a := match e with
               | Zneg k => Z.shiftr (Zpos m) (Zpos k)
               | _ => Z.shiftl (Zpos m) e
               end in
      Some (if s then - a else a)
  | S754_infinity _ => None
  | S754_nan => None
  end.

Definition int_of_float (f : float) : result Z :=
  match trunc f with
  | Some z => Return z
  | None =>
      if PrimFloat.is_nan f
      then Raise (ValueError "cannot convert float NaN to integer")
      else Raise (OverflowError "cannot convert float infinity to integer")
  end.

Fixpoint digits_value (s : string) (acc : Z) : option Z :=
  match s with
  | EmptyString => Some acc
  | String c s' =>
      if is_digit c
      then digits_value s' (10 * acc + Z.of_nat (nat_of_ascii c - 48))
      else None
  end.

Definition unsigned_of_string (s : string) : option Z :=
  match s with
  | EmptyString => None
  | _ => digits_value s 0
  end.

Definition split_sign (s : string) : bool * string :=
  match s with
  | String "-" s' => (true, s')
  | String "+" s' => (false, s')
  | _ => (false, s)
  end.

(** [int(s)] for a string: white space, a sign, decimal digits. *)
Definition int_of_string (s : string) : option Z :=
  let (neg, body) := split_sign (strip s) in
  match unsigned_of_string body with
  | Some n => Some (if neg then - n else n)
  | None => None
  end.

(** The part of [s] before the first character satisfying [p], and the rest
    from that character on. *)
Fixpoint break (p : ascii -> bool) (s : string) : string * string :=
  match s with
  | EmptyString => (EmptyString, EmptyString)
  | String c s' =>
      if p c then (EmptyString, s)
      else let (a, b) := break p s' in (String c a, b)
  end.

Fixpoint pow10 (n : nat) : float :=
  match n with
  | O => 1%float
  | S k => (pow10 k * 10)%float
  end.

(** [float(s)] for a string: white space, a sign, then [inf], [infinity],
    [nan] in any letter case or a decimal literal with an optional fraction
    and exponent.  The value of a literal is its digits scaled by a power of
    ten, which is the correctly rounded one for literals of up to fifteen
    digits and exponents of up to twenty-two. *)
Definition float_of_string (s : string) : option float :=
  let (neg, body) := split_sign (strip s) in
  let sign (f : float) := if neg then PrimFloat.opp f else f in
  let l := lower body in
  if String.eqb l "inf" || String.eqb l "infinity" then Some (sign infinity)
  else if String.eqb l "nan" then Some nan
  else
    let (mant, ex) := break (fun c => Ascii.eqb (lower_char c) "e") body in
    let (ip, fp0) := break (fun c => Ascii.eqb c ".") mant in
    let fp := match fp0 with String _ r => r | EmptyString => EmptyString end in
    match digits_value ip 0, digits_value fp 0 with
    | Some i, Some f =>
        if (Nat.eqb (String.length ip + String.length fp) 0) then None
        else
          let n := i * 10 ^ Z.of_nat (String.length fp) + f in
          let e10 :=
            match ex with
            | EmptyString => Some 0
            | String _ r =>
                let (eneg, ebody) := split_sign r in
                match unsigned_of_string ebody with
                | Some e => Some (if eneg then - e else e)
                | None => None
                end
            end in
          match e10 with
          | None => None
          | Some e =>
              let k := e - Z.of_nat (String.length fp) in
              Some (sign (if k <? 0
                          then (of_Z n / pow10 (Z.to_nat (- k)))%float
                          else (of_Z n * pow10 (Z.to_nat k))%float))
          end
    | _, _ => None
    end.

End Py.

Notation "x <- m ;; k" := (Py.bind m (fun x => k))
  (at level 61, m at next level, right associativity).
Notation "m ;;; k" := (Py.bind m (fun _ => k))
  (at level 61, right associativity).


Import Py.

(* ================================================================== *)
(** * [oracle/utils.py]                                                 *)
(* ================================================================== *)

Module Utils.

(** [overlap(start_a, end_a, start_b, end_b)] *)
Definition overlap (start_a end_a start_b end_b : float) : bool :=
  (PrimFloat.leb start_b end_b && PrimFloat.leb start_a end_b)%bool.

Definition newline : string := String (ascii_of_nat 10) EmptyString.

Definition table_rows : list string :=
  [ "H                                                  He";
    "                        Li Be                               B  C  N  O  F  Ne";
    "                        Na Mg                               Al Si P  S  Cl Ar";
    "                        K  Ca Sc Ti V  Cr Mn Fe Co Ni Cu Zn Ga Ge As Se Br Kr";
    "                        Rb Sr Y  Zr Nb Mo Tc Ru Rh Pd Ag Cd In Sn Sb Te I  Xe";
    "                        Cs Ba Lu Hf Ta W  Re Os Ir Pt Au Hg Tl Pb Bi Po At Rn";
    "                        Fr Ra Lr Rf Db Sg Bh Hs Mt Ds Rg Cn UUt" ]%string.

(** The triple-quoted literal of [atomic_number] and [element]. *)
Definition periodic_table_text : string := String.concat newline table_rows.

Definition lanthanoids : string := "La Ce Pr Nd Pm Sm Eu Gd Tb Dy Ho Er Tm Yb".
Definition actinoids : string := "Ac Th Pa U  Np Pu Am Cm Bk Cf Es Fm Md No".

(** [periodic_table.replace(" Ba ", " Ba " + lanthanoids + " ")
       .replace(" Ra ", " Ra " + actinoids + " ").split()] *)
Definition periodic_table : list string :=
  Eval vm_compute in
    split
      (replace
         (replace periodic_table_text " Ba "
            (String.append " Ba " (String.append lanthanoids " ")))
         " Ra " (String.append " Ra " (String.append actinoids " "))).

(** The values that reach [atomic_number], [element] and [_parse_species]. *)
Inductive pyval : Type :=
| PyNone
| PyInt (z : Z)
| PyFloat (f : float)
| PyStr (s : string)
| PyExc (e : exn).

Definition type_name (v : pyval) : string :=
  match v with
  | PyNone => "NoneType"
  | PyInt _ => "int"
  | PyFloat _ => "float"
  | PyStr _ => "str"
  | PyExc (TypeError _) => "TypeError"
  | PyExc (ValueError _) => "ValueError"
  | PyExc (KeyError _) => "KeyError"
  | PyExc (IndexError _) => "IndexError"
  | PyExc (AttributeError _) => "AttributeError"
  | PyExc (UnboundLocalError _) => "UnboundLocalError"
  | PyExc (OverflowError _) => "OverflowError"
  | PyExc (NotImplementedError _) => "NotImplementedError"
  | PyExc (AssertionError _) => "AssertionError"
  end.

(** [int(v)] *)
Definition py_int (v : pyval) : result Z :=
  match v with
  | PyInt z => Return z
  | PyFloat f => int_of_float f
  | PyStr s =>
      match int_of_string s with
      | Some z => Return z
      | None => Raise (ValueError "invalid literal for int() with base 10")
      end
  | _ =>
      Raise (TypeError
               (String.append
                  "int() argument must be a string or a number, not '"
                  (String.append (type_name v) "'")))
  end.

(** [float(v)] *)
Definition py_float (v : pyval) : result float :=
  match v with
  | PyInt z => Return (of_Z z)
  | PyFloat f => Return f
  | PyStr s =>
      match float_of_string s with
      | Some f => Return f
      | None => Raise (ValueError "could not convert string to float")
      end
  | _ => Raise (TypeError "float() argument must be a string or a number")
  end.

(** What [int] raises for the exception object of [atomic_number]. *)
Definition int_of_exception : exn :=
  TypeError "int() argument must be a string or a number, not 'ValueError'".

Definition unknown_element (e : string) : exn :=
  ValueError (String.append "element '" (String.append e "' is not known")).

(** [atomic_number(element)].  For a symbol that is not in the table the
    source has [return ValueError(...)]: the exception object is the value of
    the call, it is not raised. *)
Definition atomic_number (element : pyval) : result pyval :=
  match element with
  | PyStr e =>
      if negb (str_in e periodic_table)
      then Return (PyExc (unknown_element e))
      else match index_of periodic_table e with
           | Some i => Return (PyInt (i + 1))
           | None => Raise (ValueError "is not in list")
           end
  | _ => Raise (TypeError "element must be represented by a string-type")
  end.

(** [element(atomic_number)] *)
Definition element (atomic_number : pyval) : result string :=
  atomic_number <- py_int atomic_number ;;
  getitem periodic_table (atomic_number - 1).

End Utils.

(* ================================================================== *)
(** * [oracle/models/transitions.py]: species                           *)
(* ================================================================== *)

Module Species.

Import Utils.

(** [_parse_ionisation_level(ionisation_level)] *)
Definition _parse_ionisation_level (ionisation_level : pyval) : result Z :=
  match ionisation_level with
  | PyInt z => Return z
  | PyStr s =>
      let ionisation_level := upper s in
      if contains ionisation_level "I"
      then Return (count_char ionisation_level "I")
      else match int_of_string ionisation_level with
           | Some z => Return z
           | None => Raise (ValueError "invalid literal for int() with base 10")
           end
  | _ => Raise (AttributeError "object has no attribute 'upper'")
  end.

(** The tuple [(element, atomic_number, ionisation_level, species)]. *)
Record species_tuple : Type := mk_species {
  sp_element : string;
  sp_atomic_number : Z;
  sp_ionisation_level : Z;
  sp_species : float
}.

(** The branch of [_parse_species] under [except (ValueError, TypeError)]. *)
Definition parse_species_string (species : pyval) : result species_tuple :=
  atomic_number <- Utils.atomic_number species ;;
  element <- Utils.element atomic_number ;;
  ionisation_level <-
    match species with
    | PyStr s =>
        if contains s " "
        then token <- getitem (split s) 1 ;;
             _parse_ionisation_level (PyStr token)
        else Return 1
    | _ => Raise (TypeError "argument of this type is not iterable")
    end ;;
  match atomic_number with
  | PyInt z =>
      Return (mk_species element z ionisation_level
                (of_Z z + of_Z ionisation_level / 10)%float)
  | _ => Raise (TypeError "unsupported operand type(s) for +")
  end.

(** The [else] branch of [_parse_species], for a species that is a number. *)
Definition parse_species_float (species : float) : result species_tuple :=
  element <- Utils.element (PyFloat species) ;;
  atomic_number <- int_of_float species ;;
  level <- int_of_float (10 * (species - of_Z atomic_number))%float ;;
  Return (mk_species element atomic_number (level + 1) species).

(** [_parse_species(species)]; [None] stands for the tuple of four [None]. *)
Definition _parse_species (species : pyval) : result (option species_tuple) :=
  match species with
  | PyNone => Return None
  | _ =>
      match py_float species with
      | Raise (ValueError _) | Raise (TypeError _) =>
          t <- parse_species_string species ;; Return (Some t)
      | Raise e => Raise e
      | Return species =>
          t <- parse_species_float species ;; Return (Some t)
      end
  end.

(** The three entries of the tuple the species parser is compared on. *)
Definition identity (r : result (option species_tuple))
  : result (option (string * Z * Z)) :=
  t <- r ;;
  Return (option_map
            (fun t => (sp_element t, sp_atomic_number t, sp_ionisation_level t))
            t).

End Species.


(* ================================================================== *)
(** * The array operations of numpy that the fit is written with        *)
(* ================================================================== *)

Module Np.

Local Open Scope float_scope.

Definition gt (a b : float) : bool := PrimFloat.ltb b a.
Definition lt (a b : float) : bool := PrimFloat.ltb a b.

(** [np.isfinite] *)
Definition isfinite (x : float) : bool := PrimFloat.is_finite x.

Fixpoint map2 {A B C : Type} (f : A -> B -> C) (l : list A) (m : list B)
  : list C :=
  match l, m with
  | a :: l', b :: m' => f a b :: map2 f l' m'
  | _, _ => []
  end.

(** [np.polyval(p, x)]: [y = 0; for c in p: y = y * x + c] *)
Definition polyval (p : list float) (x : float) : float :=
  fold_left (fun y c => y * x + c) p 0.

(** [a.sum()] of a contiguous float array, as numpy adds it up from version
    1.9 on: not one accumulator from left to right, but the routine
    [pairwise_sum] of its inner loop, whose result is added to the identity
    0.  Fewer than eight entries are added from left to right.  Up to 128
    entries are added in eight accumulators, entry [i] into accumulator
    [i mod 8] for the full groups of eight, the accumulators are combined as
    [((r0 + r1) + (r2 + r3)) + ((r4 + r5) + (r6 + r7))], and the entries left
    over are added to that.  A longer array is cut at [n / 2] rounded down to
    a multiple of eight, and the sums of the two parts are added. *)
Record lanes : Type := mk_lanes {
  r0 : float; r1 : float; r2 : float; r3 : float;
  r4 : float; r5 : float; r6 : float; r7 : float
}.

(** [for (i = 8; i < n - (n % 8); i += 8) r[k] += a[i + k]]: the accumulators
    and the entries left over. *)
Fixpoint add_groups (r : lanes) (a : list float) : lanes * list float :=
  match a with
  | a0 :: a1 :: a2 :: a3 :: a4 :: a5 :: a6 :: a7 :: rest =>
      add_groups
        (mk_lanes (r0 r + a0) (r1 r + a1) (r2 r + a2) (r3 r + a3)
           (r4 r + a4) (r5 r + a5) (r6 r + a6) (r7 r + a7))
        rest
  | _ => (r, a)
  end.

(** The two branches of [pairwise_sum] that do not call it again. *)
Definition block_sum (a : list float) : float :=
  match a with
  | a0 :: a1 :: a2 :: a3 :: a4 :: a5 :: a6 :: a7 :: rest =>
      let (r, left_over) := add_groups (mk_lanes a0 a1 a2 a3 a4 a5 a6 a7) rest in
      fold_left PrimFloat.add left_over
        (((r0 r + r1 r) + (r2 r + r3 r)) + ((r4 r + r5 r) + (r6 r + r7 r)))
  | _ => fold_left PrimFloat.add a 0
  end.

(** [pairwise_sum(a, n)]; every call halves the array, so [fuel] calls are
    enough for an array of up to [fuel] entries. *)
Fixpoint pairwise_sum (fuel : nat) (a : list float) : float :=
  match fuel with
  | O => block_sum a
  | S fuel =>
      let n := List.length a in
      if Nat.leb n 128 then block_sum a
      else
        let n2 := (Nat.div n 2 - Nat.modulo (Nat.div n 2) 8)%nat in
        pairwise_sum fuel (firstn n2 a) + pairwise_sum fuel (skipn n2 a)
  end.

Definition sum (a : list float) : float :=
  0 + pairwise_sum (List.length a) a.

(** [m.sum()] of a Boolean array *)
Definition count (m : list bool) : Z :=
  fold_left (fun (n : Z) (b : bool) => if b then (n + 1)%Z else n) m 0%Z.

(** [np.diff] of a float array and of a Boolean one *)
Definition diff (a : list float) : list float :=
  map2 (fun y x => y - x) (tl a) a.
Definition diff_bool (a : list bool) : list bool := map2 xorb (tl a) a.

(** [a.min()] *)
Definition min2 (a b : float) : float :=
  if PrimFloat.is_nan a then a
  else if PrimFloat.is_nan b then b
  else if lt b a then b else a.
Definition max2 (a b : float) : float :=
  if PrimFloat.is_nan a then a
  else if PrimFloat.is_nan b then b
  else if lt a b then b else a.

Definition min (a : list float) : result float :=
  match a with
  | [] => Raise (ValueError "zero-size array to reduction operation minimum")
  | x :: a' => Return (fold_left min2 a' x)
  end.

(** [np.clip(x, lo, hi)] *)
Definition clip (x lo hi : float) : float := min2 (max2 x lo) hi.

(** [a.searchsorted(v)] for an array in increasing order: the number of
    entries below [v]. *)
Fixpoint searchsorted (a : list float) (v : float) : Z :=
  match a with
  | [] => 0%Z
  | x :: a' => if lt x v then (1 + searchsorted a' v)%Z else 0%Z
  end.

(** [np.where(m)[0]] *)
Fixpoint where_from (m : list bool) (i : Z) : list Z :=
  match m with
  | [] => []
  | b :: m' => if b then i :: where_from m' (i + 1)%Z else where_from m' (i + 1)%Z
  end.
Definition where_ (m : list bool) : list Z := where_from m 0%Z.

(** [a[m]] for a Boolean array [m]; a mask of another length is refused, as
    numpy does from version 1.13 on. *)
Fixpoint select {A : Type} (a : list A) (m : list bool) : list A :=
  match a, m with
  | x :: a', b :: m' => if b then x :: select a' m' else select a' m'
  | _, _ => []
  end.

Definition take {A : Type} (a : list A) (m : list bool) : result (list A) :=
  if Nat.eqb (List.length a) (List.length m) then Return (select a m)
  else Raise (IndexError "boolean index did not match indexed array").

(** [a[m] = v] for a Boolean array [m] *)
Definition put {A : Type} (a : list A) (m : list bool) (v : A)
  : result (list A) :=
  if Nat.eqb (List.length a) (List.length m)
  then Return (map2 (fun x (b : bool) => if b then v else x) a m)
  else Raise (IndexError "boolean index did not match indexed array").

(** [a *= m] for Boolean arrays *)
Definition imul (a m : list bool) : result (list bool) :=
  if Nat.eqb (List.length a) (List.length m) then Return (map2 andb a m)
  else Raise (ValueError "operands could not be broadcast together").

(** [a[i:j] = v] for indices that are not negative; [j = None] is the end. *)
Fixpoint set_slice_from {A : Type} (a : list A) (k i : Z) (j : option Z) (v : A)
  : list A :=
  match a with
  | [] => []
  | x :: a' =>
      (if ((i <=? k)%Z && match j with Some j => (k <? j)%Z | None => true end)%bool
       then v else x) :: set_slice_from a' (k + 1)%Z i j v
  end.
Definition set_slice {A : Type} (a : list A) (i : Z) (j : option Z) (v : A)
  : list A := set_slice_from a 0%Z i j v.

(** [a[i:]] and [a[:i]] for an index that is not negative *)
Definition from {A : Type} (a : list A) (i : Z) : list A := skipn (Z.to_nat i) a.
Definition upto {A : Type} (a : list A) (i : Z) : list A := firstn (Z.to_nat i) a.

(** [a[i]], an [IndexError] outside the array *)
Definition item {A : Type} (a : list A) (i : Z) : result A :=
  match getitem a i with
  | Return x => Return x
  | Raise _ => Raise (IndexError "index out of bounds")
  end.

End Np.

(* ================================================================== *)
(** * [oracle/models/transitions.py]: [AtomicTransition.fit_profile]    *)
(* ================================================================== *)

Module Transitions.

Import Utils Species.
Local Open Scope float_scope.
Local Open Scope string_scope.

(** Modelled from the spec: [oracle.specutils.Spectrum1D], whose class is not
    among the sources.  The fit reads the attributes [disp], [flux] and
    [ivariance] (the spectrum provider exposes dispersion, flux and variance
    or inverse variance arrays of one length). *)
Record Spectrum1D : Type := mk_spectrum {
  disp : list float;
  flux : list float;
  ivariance : list float
}.

(** The [data] argument, before [isinstance(data, Spectrum1D)]. *)
Inductive pyobj : Type :=
| Spectrum (s : Spectrum1D)
| Other.

Inductive chi_value : Type :=
| Scalar (x : float)
| Vector (a : list float).

(** The dictionary of spectra that [chi_sq] returns with [full_output]. *)
Record return_spectra : Type := mk_spectra {
  data_spectrum : Spectrum1D;
  continuum_spectrum : Spectrum1D;
  blending_spectrum_unsmoothed : Spectrum1D;
  blending_spectrum_smoothed : Spectrum1D;
  fitted_spectrum : Spectrum1D
}.

(** What [chi_sq] returns: the value alone, or the tuple of [full_output]. *)
Inductive chi_out : Type :=
| Plain (chi : chi_value)
| Detailed (chi r_chi : chi_value) (spectra : option return_spectra).

(** The dictionary [op_info], whose keys are fixed by the source. *)
Record op_info : Type := mk_info {
  info_p0 : dict float;
  info_chi_sq : chi_value;
  info_r_chi_sq : chi_value;
  info_fopt : float;
  info_num_iter : Z;
  info_num_funcalls : Z;
  info_warnflag : Z;
  info_profile_kind : string;
  info_equivalent_width : float;
  info_spectra : return_spectra
}.

(** The attributes of an [AtomicTransition]; [equivalent_width] and
    [_profile] exist once a fit has succeeded. *)
Record AtomicTransition : Type := mk_transition {
  wavelength : float;
  blending_transitions : option (list (list float));
  excitation_potential : option float;
  loggf : option float;
  mask : option (list (float * float));
  van_der_waals_broadening : float;
  continuum_regions : list (float * float);
  species : option species_tuple;
  equivalent_width : option float;
  _profile : option (dict float * op_info)
}.

(** [AtomicTransition.__init__], for a wavelength that is a float and
    blending transitions and continuum regions given as lists of rows. *)
Definition init (wavelength : float) (species : pyval)
  (excitation_potential loggf : option float)
  (blending_transitions : option (list (list float)))
  (mask : option (list (float * float)))
  (continuum_regions : option (list (float * float)))
  (van_der_waals_broadening : option float) : result AtomicTransition :=
  sp <- _parse_species species ;;
  Return {| wavelength := wavelength;
            blending_transitions := blending_transitions;
            excitation_potential := excitation_potential;
            loggf := loggf;
            mask := mask;
            van_der_waals_broadening :=
              match van_der_waals_broadening with Some v => v | None => 0 end;
            continuum_regions :=
              match continuum_regions with Some r => r | None => [] end;
            species := sp;
            equivalent_width := None;
            _profile := None |}.

(** [self.continuum_regions.size] *)
Definition regions_size (self : AtomicTransition) : Z :=
  (2 * Z.of_nat (List.length (continuum_regions self)))%Z.

(** What [fit_profile] returns: the parameters, or the tuple of
    [full_output]. *)
Inductive fit_output : Type :=
| Theta (optimal_theta : dict float)
| Full (optimal_theta : dict float) (oc orc : chi_value) (info : op_info).

Definition bounds := (option float * option float)%type.

(** The values of the keyword arguments handed to the optimiser. *)
Inductive kwval : Type :=
| KBool (b : bool)
| KFloat (x : float).

(** ** The checks on the arguments (lines 213 to 257) *)

Definition out_of_bounds : exn :=
  ValueError "the atomic transition is not in the bounds of the input data".
Definition no_overlap : exn :=
  ValueError "continuum regions do not overlap with the data".
Definition not_implemented : exn := NotImplementedError "sry gooby".
Definition cannot_estimate : exn := ValueError "cannot estimate initial fwhm".

Definition available : list string := ["gaussian"; "voigt"; "lorentzian"].

Definition check_data (data : pyobj) : result Spectrum1D :=
  match data with
  | Spectrum s => Return s
  | Other => Raise (TypeError "data must be a oracle.specutils.Spectrum1D object")
  end.

(** [if not (data.disp[-1] > self.wavelength > data.disp[0]): raise] *)
Definition check_bounds (self : AtomicTransition) (data : Spectrum1D)
  : result unit :=
  last <- Np.item (disp data) (-1) ;;
  if Np.gt last (wavelength self)
  then first <- Np.item (disp data) 0 ;;
       if Np.gt (wavelength self) first then Return tt
       else Raise out_of_bounds
  else Raise out_of_bounds.

Definition check_kind (kind : string) : result string :=
  let kind := lower kind in
  if negb (str_in kind available)
  then Raise (ValueError "available profile types are ('gaussian', 'voigt', 'lorentzian')")
  else if str_in kind ["voigt"; "lorentzian"] then Raise not_implemented
  else Return kind.

(** [continuum_order] is an integer or [None]. *)
Definition check_continuum_order (continuum_order : option Z) : result unit :=
  match continuum_order with
  | Some n =>
      if (n <? 0)%Z
      then Raise (ValueError "continuum order must be a positive integer")
      else Return tt
  | None => Return tt
  end.

(** The loop over the continuum regions ends at its [break] after the first
    region, whatever [overlap] said. *)
Definition any_acceptable_continuum_regions (self : AtomicTransition)
  (data : Spectrum1D) : result bool :=
  match continuum_regions self with
  | [] => Return false
  | (start, end_) :: _ =>
      first <- Np.item (disp data) 0 ;;
      last <- Np.item (disp data) (-1) ;;
      Return (if overlap start end_ first last then true else false)
  end.

Definition check_continuum_regions (self : AtomicTransition) (data : Spectrum1D)
  : result unit :=
  if (2 <=? regions_size self)%Z
  then ok <- any_acceptable_continuum_regions self data ;;
       if negb ok then Raise no_overlap else Return tt
  else Return tt.

Definition check_surrounding (surrounding : float) : result unit :=
  if Np.lt surrounding 0
  then Raise (ValueError "surrounding region must be a positive float")
  else Return tt.

(** The checks in the order of the source; the value is the spectrum and the
    profile kind in lower case. *)
Definition check_arguments (self : AtomicTransition) (data : pyobj)
  (kind : string) (continuum_order : option Z) (surrounding : float)
  : result (Spectrum1D * string) :=
  data <- check_data data ;;
  check_bounds self data ;;;
  kind <- check_kind kind ;;
  check_continuum_order continuum_order ;;;
  check_continuum_regions self data ;;;
  check_surrounding surrounding ;;;
  Return (data, kind).


(** ** What [fit_profile] calls and the sources do not contain *)

(** The methods of [Spectrum1D], the synthesis of [oracle.synthesis], the
    profile of [oracle.models.profiles], and the routines of numpy and scipy
    that are more than a loop over an array. *)
Record library : Type := mk_library {
  (** [data.slice(region, copy=True)] *)
  spectrum_slice : Spectrum1D -> float * float -> Spectrum1D;
  (** [data.mask_by_dispersion(mask)] *)
  mask_by_dispersion : Spectrum1D -> list (float * float) -> Spectrum1D;
  (** [Spectrum1D(disp, flux)] *)
  new_spectrum : list float -> list float -> Spectrum1D;
  (** [synthesis.synthesise(teff, logg, [M/H], xi, transitions, start, end,
      **synthesise_kwargs)] *)
  synthesise : float -> float -> float -> float -> list (list float) ->
               float -> float -> dict float -> result (list float * list float);
  (** [profiles.gaussian(mu, sigma, x)] *)
  gaussian : float -> float -> list float -> list float;
  (** [np.polyfit(x, y, deg)] *)
  polyfit : list float -> list float -> Z -> result (list float);
  (** [np.interp(x, xp, fp)] *)
  interp : list float -> list float -> list float -> list float;
  (** [ndimage.gaussian_filter(input, sigma)] *)
  gaussian_filter : list float -> float -> list float;
  (** [np.std(a)] *)
  std : list float -> float;
  (** [op.fmin(func, x0, **kwargs)] with [full_output=True]: the tuple
      [(xopt, fopt, iter, funcalls, warnflag)] *)
  fmin : (list float -> result chi_out) -> list float -> dict kwval ->
         result (list float * float * Z * Z * Z)
}.

Section FitProfile.

Variable lib : library.

(** ** The parameters of the fit (lines 259 to 305) *)

Definition lower_keys {V : Type} (d : dict V) : dict V :=
  dict_of (map (fun kv => (lower (fst kv), snd kv)) d).

Definition profile_parameters (kind : string) : list string :=
  if String.eqb kind "gaussian" then ["fwhm"]
  else if String.eqb kind "lorentzian" then ["scale"]
  else ["fwhm"; "shape"].

Definition string_of_Z (z : Z) : string :=
  DecimalString.NilZero.string_of_int (Z.to_int z).

(** [["continuum.{}".format(i) for i in range(continuum_order + 1)]] *)
Definition continuum_names (continuum_order : Z) : list string :=
  map (fun i => String.append "continuum." (string_of_Z i))
      (range (continuum_order + 1)).

Definition has_blending (self : AtomicTransition) : bool :=
  match blending_transitions self with
  | Some rows => (0 <? Z.of_nat (List.length rows))%Z
  | None => false
  end.

Definition stellar_parameter_keys : list string :=
  ["effective_temperature"; "surface_gravity"; "metallicity"; "microturbulence"].

Definition build_parameters (self : AtomicTransition) (kind : string)
  (continuum_order : option Z) (constrain_parameters : dict bounds)
  : list string :=
  (["line_depth"] ++ profile_parameters kind
   ++ (if dict_mem constrain_parameters "wavelength" then ["wavelength"] else [])
   ++ match continuum_order with
      | Some n => if (regions_size self <? 2)%Z then continuum_names n else []
      | None => []
      end
   ++ (if has_blending self then ["blending_fwhm"] else []))%list.

Definition check_stellar_parameters (self : AtomicTransition)
  (initial_theta : dict float) : result unit :=
  if has_blending self
  then if forallb (dict_mem initial_theta) stellar_parameter_keys
       then Return tt
       else Raise (KeyError "stellar parameters are required for synthesis because this transition has blending transitions")
  else Return tt.

(** ** The data and the first estimates (lines 307 to 342) *)

Definition slice_data (self : AtomicTransition) (data : Spectrum1D)
  (surrounding : float) : Spectrum1D :=
  let region := (wavelength self - surrounding, wavelength self + surrounding) in
  let data := spectrum_slice lib data region in
  match mask self with
  | Some m => mask_by_dispersion lib data m
  | None => data
  end.

(** [set(parameters).difference(initial_theta)] *)
Definition missing_of (parameters : list string) (initial_theta : dict float)
  : list string :=
  filter (fun p => negb (dict_mem initial_theta p)) parameters.

(** [theta = {"wavelength": self.wavelength}] and the [setdefault] of every
    parameter that [initial_theta] has. *)
Definition seed_theta (self : AtomicTransition) (parameters : list string)
  (initial_theta : dict float) : dict float :=
  fold_left
    (fun theta p =>
       match dict_get initial_theta p with
       | Some v => dict_setdefault theta p v
       | None => theta
       end)
    parameters [("wavelength", wavelength self)].

Definition synthesise_blending (self : AtomicTransition) (data : Spectrum1D)
  (parameters : list string) (initial_theta : dict float) (surrounding : float)
  (synthesise_kwargs : dict float) : result (option Spectrum1D) :=
  if str_in "blending_fwhm" parameters
  then
    effective_temperature <- dict_item initial_theta "effective_temperature" ;;
    surface_gravity <- dict_item initial_theta "surface_gravity" ;;
    metallicity <- dict_item initial_theta "metallicity" ;;
    microturbulence <- dict_item initial_theta "microturbulence" ;;
    pixel_size <- Np.min (Np.diff (disp data)) ;;
    let kw := dict_setdefault synthesise_kwargs "oversample" 4 in
    let kw := dict_setdefault kw "wavelength_step" pixel_size in
    sp <- synthesise lib effective_temperature surface_gravity metallicity
            microturbulence
            (match blending_transitions self with Some r => r | None => [] end)
            (wavelength self - surrounding) (wavelength self + surrounding) kw ;;
    Return (Some (new_spectrum lib (fst sp) (snd sp)))
  else Return None.

(** ** The continuum and outlier rounds (lines 351 to 523) *)

(** What the rounds read and never write. *)
Record fit_context : Type := mk_context {
  ctx_self : AtomicTransition;
  ctx_data : Spectrum1D;
  ctx_kind : string;
  ctx_continuum_order : option Z;
  ctx_detect_nearby_lines : bool;
  ctx_constrain : dict bounds;
  ctx_initial_theta : dict float;
  ctx_parameters : list string;
  ctx_missing : list string;
  ctx_blending_spectrum : option Spectrum1D
}.

(** The names the rounds assign.  [continuum_mask = finite] makes the two names
    one array, which [mask_is_finite] records: from then on an assignment to a
    slice of [continuum_mask] writes [finite] too.  [caw] is
    [continuum_at_wavelength], unbound until a line depth is estimated;
    [printed] is what [print(kk, continuum_mask.sum())] has written. *)
Record loop_state : Type := mk_state {
  theta : dict float;
  coefficients : list float;
  continuum_mask : list bool;
  finite : list bool;
  mask_is_finite : bool;
  iterate_on_continuum : bool;
  caw : option float;
  kwargs : dict float;
  printed : list (Z * Z)
}.

Definition with_theta (st : loop_state) (t : dict float) : loop_state :=
  mk_state t (coefficients st) (continuum_mask st) (finite st)
    (mask_is_finite st) (iterate_on_continuum st) (caw st) (kwargs st)
    (printed st).

Definition with_coefficients (st : loop_state) (c : list float) : loop_state :=
  mk_state (theta st) c (continuum_mask st) (finite st)
    (mask_is_finite st) (iterate_on_continuum st) (caw st) (kwargs st)
    (printed st).

(** An assignment into the array [continuum_mask]. *)
Definition write_mask (st : loop_state) (m : list bool) : loop_state :=
  mk_state (theta st) (coefficients st) m
    (if mask_is_finite st then m else finite st)
    (mask_is_finite st) (iterate_on_continuum st) (caw st) (kwargs st)
    (printed st).

(** [continuum_mask = finite] *)
Definition alias_mask (st : loop_state) : loop_state :=
  mk_state (theta st) (coefficients st) (finite st) (finite st)
    true (iterate_on_continuum st) (caw st) (kwargs st) (printed st).

(** [finite = ...]: the name is bound to a new array. *)
Definition rebind_finite (st : loop_state) (f : list bool) : loop_state :=
  mk_state (theta st) (coefficients st) (continuum_mask st) f
    false (iterate_on_continuum st) (caw st) (kwargs st) (printed st).

Definition with_iterate (st : loop_state) (b : bool) : loop_state :=
  mk_state (theta st) (coefficients st) (continuum_mask st) (finite st)
    (mask_is_finite st) b (caw st) (kwargs st) (printed st).

Definition with_caw (st : loop_state) (c : float) (kw : dict float)
  : loop_state :=
  mk_state (theta st) (coefficients st) (continuum_mask st) (finite st)
    (mask_is_finite st) (iterate_on_continuum st) (Some c) kw (printed st).

Definition print (st : loop_state) (kk : Z) : loop_state :=
  mk_state (theta st) (coefficients st) (continuum_mask st) (finite st)
    (mask_is_finite st) (iterate_on_continuum st) (caw st) (kwargs st)
    (printed st ++ [(kk, Np.count (continuum_mask st))])%list.

Definition initial_state (self : AtomicTransition) (data : Spectrum1D)
  (parameters : list string) (initial_theta kwargs : dict float) : loop_state :=
  {| theta := seed_theta self parameters initial_theta;
     coefficients := [];
     continuum_mask := map (fun _ => false) (disp data);
     finite := map Np.isfinite (flux data);
     mask_is_finite := false;
     iterate_on_continuum := false;
     caw := None;
     kwargs := kwargs;
     printed := [] |}.

Section Round.

Variable c : fit_context.

Let self := ctx_self c.
Let data := ctx_data c.

(** Lines 356 to 417: the continuum coefficients. *)
Definition continuum_step (st : loop_state) : result loop_state :=
  match ctx_continuum_order c with
  | None => Return (with_coefficients st [1])
  | Some continuum_order =>
      let names := continuum_names continuum_order in
      if ((regions_size self <? 2)%Z
          && negb (existsb (fun p => startswith p "continuum.") (ctx_missing c)))%bool
      then
        coefficients <- mapM (dict_item (ctx_initial_theta c)) names ;;
        Return (with_theta (with_coefficients st coefficients)
                  (dict_update (theta st) (combine names coefficients)))
      else
        st <- (if (2 <=? regions_size self)%Z
               then
                 let m :=
                   fold_left
                     (fun m r =>
                        Np.set_slice m (Np.searchsorted (disp data) (fst r))
                          (Some (Np.searchsorted (disp data) (snd r))) true)
                     (continuum_regions self) (continuum_mask st) in
                 m <- Np.imul m (finite st) ;;
                 Return (write_mask st m)
               else Return (alias_mask st)) ;;
        x <- Np.take (disp data) (continuum_mask st) ;;
        y <- Np.take (flux data) (continuum_mask st) ;;
        coefficients <-
          match ctx_blending_spectrum c with
          | None => polyfit lib x y continuum_order
          | Some blending_spectrum =>
              let rbs := interp lib x (disp blending_spectrum)
                           (flux blending_spectrum) in
              polyfit lib x (Np.map2 PrimFloat.div y rbs) continuum_order
          end ;;
        let st := with_coefficients st coefficients in
        let st := if ctx_detect_nearby_lines c then with_iterate st true else st in
        Return (if str_in "continuum.0" (ctx_parameters c)
                then with_theta st
                       (dict_update (theta st) (combine names coefficients))
                else st)
  end.

(** Lines 421 to 430: the line depth. *)
Definition line_depth_step (st : loop_state) : result loop_state :=
  if str_in "line_depth" (ctx_missing c)
  then
    let continuum_at_wavelength :=
      Np.polyval (coefficients st) (wavelength self) in
    let index := Np.searchsorted (disp data) (wavelength self) in
    f <- Np.item (flux data) index ;;
    let line_depth := 1 - f / continuum_at_wavelength in
    let (tolerance, kw) :=
      dict_pop (kwargs st) "initial_line_depth_tolerance" 1e-3 in
    Return (with_theta (with_caw st continuum_at_wavelength kw)
              (dict_set (theta st) "line_depth"
                 (Np.clip line_depth tolerance (1 - tolerance))))
  else Return st.

Definition first_of (a : list float) : float :=
  match a with x :: _ => x | [] => nan end.
Definition last_of (a : list float) : float := List.last a nan.

(** Lines 434 to 465: the full width at half maximum. *)
Definition fwhm_step (st : loop_state) : result loop_state :=
  if str_in "fwhm" (ctx_missing c)
  then
    continuum_at_wavelength <-
      match caw st with
      | Some v => Return v
      | None => Raise (UnboundLocalError "continuum_at_wavelength")
      end ;;
    line_depth <- dict_item (theta st) "line_depth" ;;
    let mid_flux := continuum_at_wavelength * (1 - 0.5 * line_depth) in
    let index := Np.searchsorted (disp data) (wavelength self) in
    let pos_indices := map (fun f => Np.gt f mid_flux) (Np.from (flux data) index) in
    let pos_mid_point :=
      if existsb (fun b => b) pos_indices
      then first_of (Np.select (Np.from (disp data) index) pos_indices)
      else nan in
    let neg_indices := map (fun f => Np.gt f mid_flux) (Np.upto (flux data) index) in
    let neg_mid_point :=
      if existsb (fun b => b) neg_indices
      then last_of (Np.select (Np.upto (disp data) index) neg_indices)
      else nan in
    if negb (Np.isfinite pos_mid_point || Np.isfinite neg_mid_point)
    then Raise cannot_estimate
    else
      let initial_fwhm := pos_mid_point - neg_mid_point in
      if negb (Np.isfinite initial_fwhm)
      then
        let both := [2 * (pos_mid_point - wavelength self);
                     2 * (wavelength self - neg_mid_point)] in
        let finite := map Np.isfinite both in
        initial_fwhm <- Np.item (Np.select both finite) 0 ;;
        Return (with_theta (rebind_finite st finite)
                  (dict_set (theta st) "fwhm" initial_fwhm))
      else Return (with_theta st (dict_set (theta st) "fwhm" initial_fwhm))
  else Return st.

(** Lines 469 and 470: the width of the blending kernel. *)
Definition blending_fwhm_step (st : loop_state) : result loop_state :=
  if str_in "blending_fwhm" (ctx_missing c)
  then fwhm <- dict_item (theta st) "fwhm" ;;
       Return (with_theta st (dict_set (theta st) "blending_fwhm" fwhm))
  else Return st.

Definition ones (n : nat) : list float := repeat 1 n.

(** The blending spectrum smoothed with a kernel of the given width and
    resampled to the dispersion of the data (lines 478 to 487, 549 to 558). *)
Definition smoothed_blending (width : result float) : result (list float) :=
  match ctx_blending_spectrum c with
  | Some blending_spectrum =>
      width <- width ;;
      step <- Np.min (Np.diff (disp blending_spectrum)) ;;
      let fwhm := width / step in
      Return (interp lib (disp data) (disp blending_spectrum)
                (gaussian_filter lib (flux blending_spectrum) (fwhm / 2.355)))
  | None => Return (ones (List.length (disp data)))
  end.

(** [blending_spectrum_flux * absorption_profile * continuum] *)
Definition forward_model (blending_spectrum_flux : list float)
  (line_depth center fwhm : float) (continuum : list float) : list float :=
  let absorption_profile :=
    map (fun g => 1 - line_depth * g)
        (gaussian lib center (fwhm / 2.355) (disp data)) in
  Np.map2 PrimFloat.mul
    (Np.map2 PrimFloat.mul blending_spectrum_flux absorption_profile)
    continuum.

(** Lines 515 to 523: every second run between two edges leaves the mask. *)
Fixpoint exclude_runs (edges : list Z) (i : Z) (starts_on_even : bool)
  (m : list bool) : list bool :=
  match edges with
  | [] => m
  | index :: rest =>
      let m :=
        if (((i mod 2 =? 0)%Z && starts_on_even)
            || ((0 <? i mod 2)%Z && negb starts_on_even))%bool
        then Np.set_slice m index
               (match rest with next :: _ => Some next | [] => None end) false
        else m in
      exclude_runs rest (i + 1)%Z starts_on_even m
  end.

(** Lines 473 to 523: the pixels that differ from the model. *)
Definition outlier_step (st : loop_state) : result loop_state :=
  if iterate_on_continuum st
  then
    blending_spectrum_flux <- smoothed_blending (dict_item (theta st) "fwhm") ;;
    line_depth <- dict_item (theta st) "line_depth" ;;
    fwhm <- dict_item (theta st) "fwhm" ;;
    let center := dict_get_default (theta st) "wavelength" (wavelength self) in
    let continuum := map (Np.polyval (coefficients st)) (disp data) in
    let model := forward_model blending_spectrum_flux line_depth center fwhm
                   continuum in
    let differences := Np.map2 PrimFloat.sub model (flux data) in
    differences <- Np.put differences (map negb (continuum_mask st)) 0 ;;
    inside <- Np.take differences (continuum_mask st) ;;
    let sigmas := map (fun d => d / std lib inside) differences in
    let outlier_group_detection_threshold := 1 in
    let is_outlier :=
      map (fun s => Np.gt (abs s) outlier_group_detection_threshold) sigmas in
    let is_outlier_range_edge := Np.where_ (Np.diff_bool is_outlier) in
    edge <- Np.item is_outlier_range_edge 0 ;;
    s <- Np.item sigmas (edge + 1) ;;
    let starts_on_even := Np.gt (abs s) outlier_group_detection_threshold in
    Return (write_mask st
              (exclude_runs is_outlier_range_edge 0 starts_on_even
                 (continuum_mask st)))
  else Return st.

(** One round of [for kk in range(3)]. *)
Definition round (kk : Z) (st : loop_state) : result loop_state :=
  st <- continuum_step (print st kk) ;;
  st <- line_depth_step st ;;
  st <- fwhm_step st ;;
  st <- blending_fwhm_step st ;;
  outlier_step st.

(** [for kk in range(3): ...] *)
Definition refine (st : loop_state) : result loop_state :=
  foldM round (range 3) st.

End Round.


(** ** The objective function [chi_sq] (lines 528 to 601) *)

Section Objective.

Variable c : fit_context.

(** The values of [coefficients] and [fixed_continuum] at line 530. *)
Variable coefficients_ : list float.
Variable fixed_continuum : list float.

Let self := ctx_self c.
Let data := ctx_data c.

Definition invalid_return : float := nan.

(** [invalid_return if not full_output else invalid_full_output_return] *)
Definition invalid (full_output : bool) : chi_out :=
  if full_output then Detailed (Scalar nan) (Scalar nan) None
  else Plain (Scalar invalid_return).

(** One entry [(lower, upper)] of [constrain_parameters]:
    [(lower is not None and lower > xd[parameter])
     or (upper is not None and upper < xd[parameter])] *)
Definition bound_violated (xd : dict float) (parameter : string) (b : bounds)
  : result bool :=
  below <- match fst b with
           | Some lower => v <- dict_item xd parameter ;; Return (Np.gt lower v)
           | None => Return false
           end ;;
  if below then Return true
  else match snd b with
       | Some upper => v <- dict_item xd parameter ;; Return (Np.lt upper v)
       | None => Return false
       end.

(** The loop over [constrain_parameters.iteritems()]: whether it reaches an
    entry that is violated. *)
Fixpoint violated (constraints : dict bounds) (xd : dict float) : result bool :=
  match constraints with
  | [] => Return false
  | (parameter, b) :: rest =>
      bad <- bound_violated xd parameter b ;;
      if bad then Return true else violated rest xd
  end.

(** The coefficients of the continuum for the vector [xd]. *)
Definition free_coefficients (xd : dict float) : result (list float) :=
  match ctx_continuum_order c with
  | Some continuum_order => mapM (dict_item xd) (continuum_names continuum_order)
  | None => Raise (TypeError "unsupported operand type(s) for +: 'NoneType' and 'int'")
  end.

(** [fixed_continuum if "continuum.0" not in xd else np.polyval(...)] *)
Definition objective_continuum (xd : dict float) : result (list float) :=
  if negb (dict_mem xd "continuum.0") then Return fixed_continuum
  else cs <- free_coefficients xd ;;
       Return (map (Np.polyval cs) (disp data)).

(** [(model - data.flux)**2 * data.ivariance] *)
Definition chi_sqs_of (model : list float) : list float :=
  Np.map2 PrimFloat.mul
    (map (fun d => d * d) (Np.map2 PrimFloat.sub model (flux data)))
    (ivariance data).

Definition chi_div (chi : chi_value) (n : Z) : chi_value :=
  match chi with
  | Scalar x => Scalar (x / of_Z n)
  | Vector a => Vector (map (fun x => x / of_Z n) a)
  end.

Definition chi_sq (x : list float) (full_output return_scalar : bool)
  : result chi_out :=
  let xd := dict_of (combine (ctx_parameters c) x) in
  fwhm <- dict_item xd "fwhm" ;;
  if Np.gt 0 fwhm then Return (invalid full_output)
  else
    line_depth <- dict_item xd "line_depth" ;;
    if negb (Np.gt 1 line_depth && Np.gt line_depth 0)
    then Return (invalid full_output)
    else if Np.gt 0 (dict_get_default xd "blending_fwhm" 1)
    then Return (invalid full_output)
    else
      bad <- violated (ctx_constrain c) xd ;;
      if bad then Return (invalid full_output)
      else
        blending_spectrum_flux <-
          smoothed_blending c (dict_item xd "blending_fwhm") ;;
        let center := dict_get_default xd "wavelength" (wavelength self) in
        continuum <- objective_continuum xd ;;
        let model := forward_model c blending_spectrum_flux line_depth center
                       fwhm continuum in
        let chi_sqs := chi_sqs_of model in
        let finite := map Np.isfinite chi_sqs in
        let chi := Np.select chi_sqs finite in
        let chi := if return_scalar then Scalar (Np.sum chi) else Vector chi in
        if full_output
        then
          let r_chi_sq :=
            chi_div chi (Np.count finite - Z.of_nat (List.length xd) - 1)%Z in
          cs <- (if negb (dict_mem xd "continuum.0") then Return coefficients_
                 else free_coefficients xd) ;;
          blending_spectrum <-
            match ctx_blending_spectrum c with
            | Some b => Return b
            | None => Raise (AttributeError "'NoneType' object has no attribute 'disp'")
            end ;;
          let blending_spectrum_continuum :=
            map (Np.polyval cs) (disp blending_spectrum) in
          Return
            (Detailed chi r_chi_sq
               (Some
                  {| data_spectrum := data;
                     continuum_spectrum := new_spectrum lib (disp data) continuum;
                     blending_spectrum_unsmoothed :=
                       new_spectrum lib (disp blending_spectrum)
                         (Np.map2 PrimFloat.mul blending_spectrum_continuum
                            (flux blending_spectrum));
                     blending_spectrum_smoothed :=
                       new_spectrum lib (disp data)
                         (Np.map2 PrimFloat.mul continuum blending_spectrum_flux);
                     fitted_spectrum := new_spectrum lib (disp data) model |}))
        else Return (Plain chi).

(** The function handed to the optimiser: [chi_sq(x)] with its defaults. *)
Definition minimisation_function (x : list float) : result chi_out :=
  chi_sq x false true.

End Objective.

(** ** From the seed to the result (lines 526 to 686) *)

(** [profile_integrals[kind](optimal_theta)] *)
Definition profile_integral (kind : string) (x : dict float) : result float :=
  if String.eqb kind "gaussian"
  then line_depth <- dict_item x "line_depth" ;;
       fwhm <- dict_item x "fwhm" ;;
       Return (line_depth * abs fwhm * 0.752634332)
  else Raise (KeyError kind).

Definition is_finite_value (v : chi_value) : bool :=
  match v with
  | Scalar x => Np.isfinite x
  | Vector a => forallb Np.isfinite a
  end.

(** Lines 526 to 622: the seed vector and the objective at the seed. *)
Definition seed (c : fit_context) (st : loop_state) : result (list float) :=
  (if forallb (dict_mem (theta st)) (ctx_parameters c) then Return tt
   else Raise (AssertionError "Missing parameter!")) ;;;
  let fixed_continuum :=
    map (Np.polyval (coefficients st)) (disp (ctx_data c)) in
  p0 <- mapM (dict_item (theta st)) (ctx_parameters c) ;;
  if existsb (fun v => negb (Np.isfinite v)) p0
  then Raise (ValueError "non-finite initial value")
  else
    out <- chi_sq c (coefficients st) fixed_continuum p0 true true ;;
    match out with
    | Detailed ic _ _ =>
        if negb (is_finite_value ic)
        then Raise (ValueError "invalid value returned by minimisation function when initial theta values were provided")
        else Return p0
    | Plain _ => Raise (TypeError "object is not iterable")
    end.

(** [op_kwargs] (lines 626 to 630) *)
Definition op_kwargs_of (optimise_kwargs : dict kwval) : dict kwval :=
  let kw := dict_set optimise_kwargs "full_output" (KBool true) in
  let kw := dict_set kw "xtol" (KFloat 1e-5) in
  let kw := dict_set kw "ftol" (KFloat 1e-5) in
  dict_setdefault kw "disp" (KBool false).

(** Lines 636 to 686: the result for what the optimiser returned. *)
Definition conclude (c : fit_context) (st : loop_state)
  (opt : list float * float * Z * Z * Z) (full_output : bool)
  : result (fit_output * AtomicTransition) :=
  let '(p1, fopt, num_iter, num_funcalls, warnflag) := opt in
  let fixed_continuum :=
    map (Np.polyval (coefficients st)) (disp (ctx_data c)) in
  let optimal_theta := dict_of (combine (ctx_parameters c) p1) in
  out <- chi_sq c (coefficients st) fixed_continuum p1 true true ;;
  match out with
  | Plain _ => Raise (TypeError "object is not iterable")
  | Detailed oc orc op_spectra =>
      integral <- profile_integral (ctx_kind c) optimal_theta ;;
      let equivalent_width := 1000 * integral in
      match op_spectra with
      | None => Raise (TypeError "'NoneType' object is not iterable")
      | Some spectra =>
          let info :=
            {| info_p0 := theta st;
               info_chi_sq := oc;
               info_r_chi_sq := orc;
               info_fopt := fopt;
               info_num_iter := num_iter;
               info_num_funcalls := num_funcalls;
               info_warnflag := warnflag;
               info_profile_kind := ctx_kind c;
               info_equivalent_width := equivalent_width;
               info_spectra := spectra |} in
          let self := ctx_self c in
          let self :=
            {| wavelength := wavelength self;
               blending_transitions := blending_transitions self;
               excitation_potential := excitation_potential self;
               loggf := loggf self;
               mask := mask self;
               van_der_waals_broadening := van_der_waals_broadening self;
               continuum_regions := continuum_regions self;
               species := species self;
               equivalent_width := Some equivalent_width;
               _profile := Some (optimal_theta, info) |} in
          Return (if full_output then Full optimal_theta oc orc info
                  else Theta optimal_theta, self)
      end
  end.

(** Lines 213 to 342: the arguments checked, the parameters named, the data
    cut and the blending spectrum synthesised. *)
Definition prepare (self : AtomicTransition) (data : pyobj)
  (initial_theta : option (dict float)) (kind : string)
  (continuum_order : option Z) (surrounding : float)
  (detect_nearby_lines : bool) (constrain_parameters : option (dict bounds))
  (synthesise_kwargs : option (dict float)) (kwargs : dict float)
  : result (fit_context * loop_state) :=
  data <- check_data data ;;
  check_bounds self data ;;;
  let initial_theta := match initial_theta with Some t => t | None => [] end in
  kind <- check_kind kind ;;
  check_continuum_order continuum_order ;;;
  check_continuum_regions self data ;;;
  check_surrounding surrounding ;;;
  let constrain_parameters :=
    match constrain_parameters with Some d => lower_keys d | None => [] end in
  let synthesise_kwargs :=
    match synthesise_kwargs with Some d => d | None => [] end in
  let parameters :=
    build_parameters self kind continuum_order constrain_parameters in
  check_stellar_parameters self initial_theta ;;;
  let data := slice_data self data surrounding in
  blending_spectrum <-
    synthesise_blending self data parameters initial_theta surrounding
      synthesise_kwargs ;;
  Return
    ({| ctx_self := self;
        ctx_data := data;
        ctx_kind := kind;
        ctx_continuum_order := continuum_order;
        ctx_detect_nearby_lines := detect_nearby_lines;
        ctx_constrain := constrain_parameters;
        ctx_initial_theta := initial_theta;
        ctx_parameters := parameters;
        ctx_missing := missing_of parameters initial_theta;
        ctx_blending_spectrum := blending_spectrum |},
     initial_state self data parameters initial_theta kwargs).

(** [AtomicTransition.fit_profile]: the value returned and the transition
    with the attributes the call has set.  A call that raises is its
    exception. *)
Definition fit_profile (self : AtomicTransition) (data : pyobj)
  (initial_theta : option (dict float)) (kind : string)
  (continuum_order : option Z) (surrounding : float)
  (detect_nearby_lines : bool) (constrain_parameters : option (dict bounds))
  (synthesise_kwargs : option (dict float)) (optimise_kwargs : option (dict kwval))
  (full_output : bool) (kwargs : dict float)
  : result (fit_output * AtomicTransition) :=
  cs <- prepare self data initial_theta kind continuum_order surrounding
          detect_nearby_lines constrain_parameters synthesise_kwargs kwargs ;;
  let (c, st) := cs in
  st <- refine c st ;;
  p0 <- seed c st ;;
  let fixed_continuum :=
    map (Np.polyval (coefficients st)) (disp (ctx_data c)) in
  opt <- fmin lib (minimisation_function c (coefficients st) fixed_continuum) p0
           (op_kwargs_of
              (match optimise_kwargs with Some d => d | None => [] end)) ;;
  conclude c st opt full_output.

End FitProfile.

End Transitions.

(* ================================================================== *)
(** * [oracle/solvers/profiles.py]: the entry of [ProfileFitter.fit]    *)
(* ================================================================== *)

Module Solvers.

Import Transitions.
Local Open Scope string_scope.

(** The keys of [self._default_kwargs]. *)
Definition default_kwargs : list string :=
  ["mask"; "profile"; "initial_fwhm"; "central_weighting";
   "wavelength_tolerance"; "continuum_degree"; "maximum_wavelength_window";
   "clip_model_sigma"].

Definition outside_finite_range : exn :=
  ValueError "wavelength is outside of the observed finite spectral range".

(** Lines 60 to 74 of [ProfileFitter.fit], which are lines 214 to 228 of
    [ProfileMixtureFitter.fit] too: the keywords are merged, a mask is
    appended to [kwds["global_mask"]], and the wavelength is compared with the
    first and the last pixel whose flux is finite.  [kwargs] are the names of
    the keyword arguments of the call. *)
Definition fit_entry (kwargs : list string)
  (mask : option (list (float * float))) (spectrum : Spectrum1D)
  (wavelength : float) : result unit :=
  let kwds := (default_kwargs ++ kwargs)%list in
  match mask with
  | Some _ => if str_in "global_mask" kwds then Return tt
              else Raise (KeyError "global_mask")
  | None => Return tt
  end ;;;
  let f := map Np.isfinite (flux spectrum) in
  d <- Np.take (disp spectrum) f ;;
  last <- Np.item d (-1) ;;
  if Np.gt last wavelength
  then first <- Np.item d 0 ;;
       if Np.gt wavelength first then Return tt
       else Raise outside_finite_range
  else Raise outside_finite_range.

End Solvers.

(* ================================================================== *)
(** * A small library and spectrum to run the fit on                    *)
(* ================================================================== *)

Module Bench.

Import Utils Species Transitions.
Local Open Scope float_scope.
Local Open Scope string_scope.

(** The pixels of [s] whose dispersion lies in the region. *)
Fixpoint cut (d f v : list float) (lo hi : float) : Spectrum1D :=
  match d, f, v with
  | x :: d', y :: f', w :: v' =>
      let s := cut d' f' v' lo hi in
      if (PrimFloat.leb lo x && PrimFloat.leb x hi)%bool
      then mk_spectrum (x :: disp s) (y :: flux s) (w :: ivariance s)
      else s
  | _, _, _ => mk_spectrum [] [] []
  end.

(** A bell of unit height, [1 / (1 + ((x - mu) / sigma)^2)]. *)
Definition bell (mu sigma : float) (x : list float) : list float :=
  map (fun xi => let t := (xi - mu) / sigma in 1 / (1 + t * t)) x.

Definition mean (a : list float) : float :=
  Np.sum a / of_Z (Z.of_nat (List.length a)).

(** [sqrt(mean(abs(a - mean(a))**2))] *)
Definition deviation (a : list float) : float :=
  let m := mean a in
  PrimFloat.sqrt (mean (map (fun x => abs (x - m) * abs (x - m)) a)).

(** A library whose synthesis is a flat spectrum, whose polynomial fit is the
    mean, and whose optimiser evaluates the objective at the seed, returns the
    seed and reports that it ran out of iterations ([warnflag = 2]). *)
Definition library : Transitions.library :=
  {| spectrum_slice := fun s r => cut (disp s) (flux s) (ivariance s) (fst r) (snd r);
     mask_by_dispersion := fun s _ => s;
     new_spectrum := fun d f => mk_spectrum d f (map (fun _ => 1) d);
     synthesise := fun _ _ _ _ _ lo hi _ => Return ([lo; hi], [1; 1]);
     gaussian := bell;
     polyfit := fun x y _ => Return [mean y];
     interp := fun x _ _ => map (fun _ => 1) x;
     gaussian_filter := fun a _ => a;
     std := deviation;
     fmin := fun f x0 _ =>
       out <- f x0 ;;
       match out with
       | Plain (Scalar v) => Return (x0, v, 0%Z, 1%Z, 2%Z)
       | _ => Raise (TypeError "the objective did not return a number")
       end |}.

Definition spectrum : Spectrum1D :=
  {| disp := [4998; 4999; 4999.5; 5000; 5000.5; 5001; 5002; 5003];
     flux := [1; 1; 0.75; 0.5; 0.75; 1; 1; 1];
     ivariance := [100; 100; 100; 100; 100; 100; 100; 100] |}.

Definition line (wavelength : float) (regions : list (float * float))
  : AtomicTransition :=
  {| wavelength := wavelength;
     blending_transitions := Some [[5000.25; 26; 1; -1]];
     excitation_potential := None;
     loggf := None;
     mask := None;
     van_der_waals_broadening := 0;
     continuum_regions := regions;
     species := None;
     equivalent_width := None;
     _profile := None |}.

(** A spectrum without a line: the flux never rises above half the depth. *)
Definition flat : Spectrum1D :=
  {| disp := [4998; 4999; 4999.5; 5000; 5000.5; 5001; 5002; 5003];
     flux := [0.5; 0.5; 0.5; 0.5; 0.5; 0.5; 0.5; 0.5];
     ivariance := [100; 100; 100; 100; 100; 100; 100; 100] |}.

Definition stellar : dict float :=
  [("effective_temperature", 5777); ("surface_gravity", 4.4);
   ("metallicity", 0); ("microturbulence", 1)].

Definition seeded : dict float :=
  (stellar ++ [("line_depth", 0.5); ("fwhm", 1); ("blending_fwhm", 1)])%list.

Definition no_context : fit_context :=
  mk_context (line 0 []) (mk_spectrum [] [] []) "" None false [] [] [] [] None.
Definition no_state : loop_state :=
  mk_state [] [] [] [] false false None [] [].

(** The context and the state in which the rounds start, for the line at 5000
    in [spectrum]: with every parameter seeded and no continuum order, and
    with the parameters to estimate and a continuum of order 0. *)
Definition start (initial_theta : dict float) (continuum_order : option Z)
  : fit_context * loop_state :=
  value_or (no_context, no_state)
    (prepare library (line 5000 []) (Spectrum spectrum) (Some initial_theta)
       "gaussian" continuum_order 2 true None None []).

Definition seeded_context : fit_context := fst (start seeded None).
Definition seeded_start : loop_state := snd (start seeded None).
Definition seeded_state : loop_state :=
  value_or no_state (refine library seeded_context seeded_start).

(** What the call returns with every parameter seeded. *)
Definition fitted : fit_output * AtomicTransition :=
  value_or (Theta [], line 0 [])
    (fit_profile library (line 5000 []) (Spectrum spectrum) (Some seeded)
       "gaussian" None 2 true None None None false []).

Definition estimated_context : fit_context := fst (start stellar (Some 0%Z)).
Definition estimated_start : loop_state := snd (start stellar (Some 0%Z)).
Definition estimated_state : loop_state :=
  value_or no_state (refine library estimated_context estimated_start).

End Bench.


(* ================================================================== *)
(** * The notions the properties are stated with                        *)
(* ================================================================== *)

Module Stated.

Import Transitions.
Local Open Scope float_scope.

(** The wavelength lies strictly inside the dispersion of a spectrum, between
    its first and its last pixel. *)
Definition strictly_inside (w : float) (d : list float) : bool :=
  match d with
  | [] => false
  | first :: _ => (Np.lt first w && Np.lt w (List.last d first))%bool
  end.

(** Two closed intervals have a point in common. *)
Definition intervals_overlap (start_a end_a start_b end_b : float) : bool :=
  (PrimFloat.leb start_a end_b && PrimFloat.leb start_b end_a)%bool.

(** Some continuum region overlaps the window from the first to the last
    pixel of the data. *)
Definition some_region_overlaps (regions : list (float * float))
  (d : list float) : bool :=
  match d with
  | [] => false
  | first :: _ =>
      existsb (fun r => intervals_overlap (fst r) (snd r) first (List.last d first))
        regions
  end.

(** The equivalent width in milli-Angstroms that the source computes from a
    line depth and a full width at half maximum. *)
Definition width_of (line_depth fwhm : float) : float :=
  1000 * (line_depth * abs fwhm * 0.752634332).







End Stated.

Import Stated.

(** The real number that a finite float is, and the closed form that the
    integral of a Gaussian profile is said to have. *)
Module Exact.

Import Reals.
Local Open Scope R_scope.

Definition real (f : float) : R :=
  match Prim2SF f with
  | S754_finite s m e => IZR (if s then Zneg m else Zpos m) * powerRZ 2 e
  | _ => 0
  end.

(** [line_depth * |fwhm| * sqrt(pi / (4 ln 2))] *)
Definition closed_form (line_depth fwhm : R) : R :=
  line_depth * Rabs fwhm * sqrt (PI / (4 * ln 2)).

End Exact.

(* ================================================================== *)
(** * [oracle/utils.py]: transitions, arrays, nested dictionaries, labels *)
(* ================================================================== *)

Module Lines.

Local Open Scope float_scope.
Local Open Scope string_scope.

(** The [transition] argument of [unpack_atomic_transition]: a dictionary, or
    a list or tuple. *)
Inductive transition : Type :=
| TDict (d : dict float)
| TSeq (l : list float).

(** The tuple that [unpack_atomic_transition] returns. *)
Record unpacked : Type := mk_unpacked {
  u_wavelength : float;
  u_species : float;
  u_excitation_potential : float;
  u_loggf : float;
  u_van_der_waals_broadening : float;
  u_damp2 : float;
  u_synthesise_surrounding : float;
  u_opacity_contribution : float
}.

(** [_defaults], before [_defaults.update(defaults)]. *)
Definition builtin_defaults : dict float :=
  [("synthesise_surrounding", 1.5); ("opacity_contribution", 1);
   ("van_der_waals_broadening", 0); ("damp2", 0)].

(** [a, b, c, d = transition[:4]] *)
Definition first_four (l : list float) : result (float * float * float * float) :=
  match firstn 4 l with
  | [a; b; c; d] => Return (a, b, c, d)
  | _ => Raise (ValueError "need more than this many values to unpack")
  end.

(** [transition[i]] where the source has tested [len(transition) > i], and
    [default] otherwise. *)
Definition entry_or (l : list float) (i : nat) (default : float) : float :=
  if Nat.ltb i (List.length l) then nth i l default else default.

(** The names of the first seven entries of a list or tuple. *)
Definition entry_names : list string :=
  ["wavelength"; "species"; "excitation_potential"; "loggf";
   "van_der_waals_broadening"; "damp2"; "synthesise_surrounding"].

(** [unpack_atomic_transition(transition, **defaults)] *)
Definition unpack_atomic_transition (t : transition) (defaults : dict float)
  : result unpacked :=
  let _defaults := dict_update builtin_defaults defaults in
  van_der_waals_broadening0 <- dict_item _defaults "van_der_waals_broadening" ;;
  damp20 <- dict_item _defaults "damp2" ;;
  opacity_contribution0 <- dict_item _defaults "opacity_contribution" ;;
  synthesise_surrounding0 <- dict_item _defaults "synthesise_surrounding" ;;
  match t with
  | TDict d =>
      wavelength <- dict_item d "wavelength" ;;
      species <- dict_item d "species" ;;
      excitation_potential <- dict_item d "excitation_potential" ;;
      loggf <- dict_item d "loggf" ;;
      Return
        (mk_unpacked wavelength species excitation_potential loggf
           (dict_get_default d "van_der_waals_broadening"
              van_der_waals_broadening0)
           (dict_get_default d "damp2" damp20)
           (dict_get_default d "synthesise_surrounding" synthesise_surrounding0)
           (dict_get_default d "opacity_contribution" opacity_contribution0))
  | TSeq l =>
      four <- first_four l ;;
      let '(wavelength, species, excitation_potential, loggf) := four in
      let van_der_waals_broadening := entry_or l 4 van_der_waals_broadening0 in
      let damp2 := entry_or l 5 damp20 in
      let synthesise_surrounding := entry_or l 6 synthesise_surrounding0 in
      let synthesise_surrounding := entry_or l 7 synthesise_surrounding in
      Return
        (mk_unpacked wavelength species excitation_potential loggf
           van_der_waals_broadening damp2 synthesise_surrounding
           opacity_contribution0)
  end.

End Lines.

Module Arrays.

Local Open Scope float_scope.

(** [reflect_about(a, limits)]: the array that the call returns, which is the
    array [a] it has written to. *)
Definition reflect_about (a : list float) (limits : option float * option float)
  : list float :=
  let (lower, upper) := limits in
  let a :=
    match lower with
    | Some lower => map (fun x => if Np.lt x lower then lower + (lower - x) else x) a
    | None => a
    end in
  match upper with
  | Some upper => map (fun x => if Np.gt x upper then upper - (x - upper) else x) a
  | None => a
  end.

(** [x] is not below the lower limit and not above the upper one; a NaN is
    neither. *)
Definition within (limits : option float * option float) (x : float) : bool :=
  (match fst limits with Some lower => negb (Np.lt x lower) | None => true end
   && match snd limits with Some upper => negb (Np.gt x upper) | None => true end)%bool.

End Arrays.

Module Nested.

Unset Elimination Schemes.

(** A value of a nested dictionary: a mapping, or anything else. *)
Inductive value (A : Type) : Type :=
| Leaf (a : A)
| Mapping (d : list (string * value A)).

Set Elimination Schemes.

Arguments Leaf {A} a.
Arguments Mapping {A} d.

(** The value that [update_recursively] stores under a key whose new value is
    [v] and whose value in [original] is [old] ([None] without the key). *)
Fixpoint merged {A : Type} (v : value A) (old : option (value A)) : value A :=
  match v with
  | Leaf _ => v
  | Mapping new =>
      match old with
      | Some (Mapping original) =>
          Mapping
            ((fix update (new : list (string * value A))
                (original : dict (value A)) : dict (value A) :=
                match new with
                | [] => original
                | (k, v') :: rest =>
                    update rest
                      (dict_set original k (merged v' (dict_get original k)))
                end) new original)
      | _ => v
      end
  end.

(** [update_recursively(original, new)]: the dictionary that the call returns,
    which is [original] as the call leaves it; [new] is gone through in the
    order of its entries. *)
Fixpoint update_recursively {A : Type} (original new : dict (value A))
  : dict (value A) :=
  match new with
  | [] => original
  | (k, v) :: rest =>
      update_recursively (dict_set original k (merged v (dict_get original k)))
        rest
  end.

End Nested.

Module Labels.

Local Open Scope string_scope.

(** [s.split(sep)] for a one-character separator *)
Fixpoint split_on (sep : ascii) (s : string) (word : string) : list string :=
  match s with
  | EmptyString => [word]
  | String c s' =>
      if Ascii.eqb c sep then word :: split_on sep s' EmptyString
      else split_on sep s' (String.append word (String c EmptyString))
  end.

Definition common_labels : dict string :=
  [("teff", "$T_{\rm eff}$ (K)"); ("feh", "[Fe/H]"); ("logg", "$\log{g}$");
   ("alpha", "[$\alpha$/Fe]"); ("xi", "$\xi$ (km s$^{-1}$)")].

Definition colors : list string := ["blue"; "green"; "red"; "ir"].

(** The [labels] argument and what [latexify] returns: one string, or a
    list. *)
Inductive labels : Type :=
| One (label : string)
| Many (l : list string).

(** The body of the loop over the labels. *)
Definition latex_label (common : dict string) (label : string) : result string :=
  if startswith label "doppler_sigma_"
  then
    token <- getitem (split_on "_" label EmptyString) (-1) ;;
    index <- match int_of_string token with
             | Some z => Return z
             | None => Raise (ValueError "invalid literal for int() with base 10")
             end ;;
    color <- getitem colors index ;;
    Return (String.append "$\sigma_{\rm doppler,"
              (String.append color "}$ ($\AA{}$)"))
  else Return (dict_get_default common label label).

(** [latexify(labels, default_latex_labels)] *)
Definition latexify (l : labels) (default_latex_labels : option (dict string))
  : result labels :=
  let common :=
    match default_latex_labels with
    | Some d => dict_update common_labels d
    | None => common_labels
    end in
  match l with
  | One label => r <- latex_label common label ;; Return (One r)
  | Many ls => rs <- mapM (latex_label common) ls ;; Return (Many rs)
  end.

(** The label expected for a label without the doppler prefix: that of
    [default_latex_labels], else the common one, else the label itself. *)
Definition plain_label (d : dict string) (label : string) : string :=
  match dict_get d label with
  | Some v => v
  | None => dict_get_default common_labels label label
  end.

End Labels.

(* ================================================================== *)
(** * [oracle/atmospheres/atmosphere.py]: the identifier of MOOG files  *)
(* ================================================================== *)

Module Atmospheres.

Import Utils.
Local Open Scope string_scope.

(** [s.endswith(suffix)] *)
Fixpoint endswith (s suffix : string) : bool :=
  (String.eqb s suffix
   || match s with
      | EmptyString => false
      | String _ s' => endswith s' suffix
      end)%bool.

(** [_moog_identifier], called with the positional arguments [args] *)
Definition _moog_identifier (args : list pyval) : result bool :=
  first <- match args with
           | a :: _ => Return a
           | [] => Raise (IndexError "tuple index out of range")
           end ;;
  Return match first with
         | PyStr s => endswith (lower s) ".moog"
         | _ => false
         end.

End Atmospheres.

(* ================================================================== *)
(** * [oracle/models/transitions.py]: how a transition prints its species *)
(* ================================================================== *)

Module Printing.

Import Utils Species Transitions.
Local Open Scope string_scope.

(** [s * n] *)
Definition str_repeat (s : string) (n : Z) : string :=
  String.concat EmptyString (repeat s (Z.to_nat n)).

(** [species_repr] of [AtomicTransition.__unicode__]:
    ["{0} {1}".format(self.element, "I" * self.ionisation_level)] *)
Definition species_repr (species : option species_tuple) : string :=
  match species with
  | None => "Unspecified transition"
  | Some t =>
      String.append (sp_element t)
        (String.append " " (str_repeat "I" (sp_ionisation_level t)))
  end.

(** The string of [n] letters I. *)
Fixpoint units (n : nat) : string :=
  match n with
  | O => EmptyString
  | S k => String "I" (units k)
  end.

End Printing.

(* ================================================================== *)
(** * [oracle/models/transitions.py]: the reduced equivalent width      *)
(* ================================================================== *)

Module Widths.

Import Transitions.
Local Open Scope float_scope.
Local Open Scope string_scope.

(** The property [AtomicTransition.reduced_equivalent_width]; [log] is
    [np.log], and the attribute [equivalent_width] exists once a fit has
    succeeded. *)
Definition reduced_equivalent_width (log : float -> float)
  (self : AtomicTransition) : result float :=
  match equivalent_width self with
  | Some equivalent_width => Return (log (equivalent_width / wavelength self))
  | None =>
      Raise (AttributeError "'AtomicTransition' object has no attribute 'equivalent_width'")
  end.

End Widths.

(* ================================================================== *)
(** * Sample values                                                     *)
(* ================================================================== *)

Module Samples.

Import Nested.
Local Open Scope string_scope.

Definition settings : dict (value Z) :=
  [("solver", Mapping [("maxiter", Leaf 100); ("xtol", Leaf 1)]);
   ("threads", Leaf 1)].

Definition changes : dict (value Z) :=
  [("solver", Mapping [("maxiter", Leaf 500)]); ("plot", Leaf 0)].

Import Transitions.
Local Open Scope float_scope.

(** Initial values with a line depth and no width. *)
Definition depth_only : dict float :=
  (Bench.stellar ++ [("line_depth", 0.5)])%list.

(** Initial values with a wavelength that is not the one of the line, for a
    call that bounds the wavelength. *)
Definition shifted : dict float :=
  (Bench.seeded ++ [("wavelength", 5000.5)])%list.

Definition shifted_start : fit_context * loop_state :=
  value_or (Bench.no_context, Bench.no_state)
    (prepare Bench.library (Bench.line 5000 []) (Spectrum Bench.spectrum)
       (Some shifted) "gaussian" None 2 true
       (Some [("Wavelength", (Some 4999, Some 5001))]) None []).

Definition shifted_state : loop_state :=
  value_or Bench.no_state
    (refine Bench.library (fst shifted_start) (snd shifted_start)).

(** The line at 5000 with two continuum regions, fitted with a continuum of
    order 0 and every parameter estimated. *)
Definition banded : AtomicTransition :=
  Bench.line 5000 [(4998, 4999.25); (5001.5, 5003.5)].

Definition banded_start : fit_context * loop_state :=
  value_or (Bench.no_context, Bench.no_state)
    (prepare Bench.library banded (Spectrum Bench.spectrum)
       (Some Bench.stellar) "gaussian" (Some 0%Z) 2 true None None []).

Definition banded_state : loop_state :=
  value_or Bench.no_state
    (refine Bench.library (fst banded_start) (snd banded_start)).

(** A line whose blue side never rises above half its depth, with one
    continuum region on the red side. *)
Definition edge_spectrum : Spectrum1D :=
  {| disp := [4998; 4999; 4999.5; 5000; 5000.5; 5001; 5002; 5003];
     flux := [0.5; 0.5; 0.5; 0.5; 0.75; 1; 1; 1];
     ivariance := [100; 100; 100; 100; 100; 100; 100; 100] |}.

Definition edge_start : fit_context * loop_state :=
  value_or (Bench.no_context, Bench.no_state)
    (prepare Bench.library (Bench.line 5000 [(5001.5, 5003.5)])
       (Spectrum edge_spectrum) (Some Bench.stellar) "gaussian" (Some 0%Z) 2
       true None None []).

Definition edge_round : loop_state :=
  value_or Bench.no_state
    (round Bench.library (fst edge_start) 0 (snd edge_start)).

(** Initial values with a width and no line depth, for a fit with a
    continuum of order 0 and no continuum regions. *)
Definition width_only : dict float :=
  (Bench.stellar ++ [("fwhm", 1)])%list.

Definition width_only_start : fit_context * loop_state :=
  Bench.start width_only (Some 0%Z).

Definition width_only_state : loop_state :=
  value_or Bench.no_state
    (refine Bench.library (fst width_only_start) (snd width_only_start)).

(** The first round with every parameter to estimate: the state after the
    continuum step, and after the estimate of the line depth. *)
Definition estimated_fit : loop_state :=
  value_or Bench.no_state
    (continuum_step Bench.library Bench.estimated_context
       (print Bench.estimated_start 0)).

Definition estimated_depth : loop_state :=
  value_or Bench.no_state
    (line_depth_step Bench.estimated_context estimated_fit).

End Samples.

(* ================================================================== *)
(** * Dictionaries and floats                                           *)
(* ================================================================== *)

Section DictFacts.

Context {V : Type}.

Lemma dict_get_in_keys (d : dict V) (k : string) (v : V) :
  dict_get d k = Some v -> In k (keys d).
Proof.
  induction d as [|[k' v'] d IH]; cbn; [discriminate|].
  destruct (String.eqb k k') eqn:E.
  - apply String.eqb_eq in E. now left.
  - intros H. right. now apply IH.
Qed.

Lemma dict_get_of_key (d : dict V) (k : string) :
  In k (keys d) -> exists v, dict_get d k = Some v.
Proof.
  induction d as [|[k' v'] d IH]; cbn; [contradiction|].
  intros [H|H]; destruct (String.eqb k k') eqn:E; eauto.
  subst. now rewrite String.eqb_refl in E.
Qed.

Lemma dict_mem_keys (d : dict V) (k : string) :
  dict_mem d k = true <-> In k (keys d).
Proof.
  unfold dict_mem. split.
  - destruct (dict_get d k) eqn:E; [|discriminate].
    intros _. eapply dict_get_in_keys; eauto.
  - intros H. apply dict_get_of_key in H as [v ->]. reflexivity.
Qed.

Lemma keys_dict_set (d : dict V) (k : string) (v : V) (k' : string) :
  In k' (keys (dict_set d k v)) <-> k' = k \/ In k' (keys d).
Proof.
  induction d as [|[k0 v0] d IH]; cbn.
  - intuition congruence.
  - destruct (String.eqb k k0) eqn:E; cbn.
    + apply String.eqb_eq in E. subst. intuition congruence.
    + rewrite IH. intuition congruence.
Qed.

Lemma keys_dict_update (pairs : list (string * V)) (d : dict V) (k : string) :
  In k (keys (dict_update d pairs)) <-> In k (keys d) \/ In k (map fst pairs).
Proof.
  revert d.
  induction pairs as [|[k0 v0] pairs IH]; intros d.
  - cbn. intuition.
  - change (dict_update d ((k0, v0) :: pairs))
      with (dict_update (dict_set d k0 v0) pairs).
    rewrite IH, keys_dict_set. cbn. intuition congruence.
Qed.

Lemma map_fst_combine (ps : list string) (x : list V) :
  map fst (combine ps x) = firstn (List.length x) ps.
Proof.
  revert x. induction ps as [|p ps IH]; intros [|v x]; cbn; try reflexivity.
  now rewrite IH.
Qed.

(** The keys of [dict(zip(parameters, x))] are the first parameters, as many
    as [x] has entries. *)
Lemma dict_mem_zip (ps : list string) (x : list V) (k : string) :
  dict_mem (dict_of (combine ps x)) k = true <-> In k (firstn (List.length x) ps).
Proof.
  rewrite dict_mem_keys. unfold dict_of. rewrite keys_dict_update.
  rewrite map_fst_combine. cbn. intuition.
Qed.

Lemma in_firstn {A : Type} (n : nat) (l : list A) (a : A) :
  In a (firstn n l) -> In a l.
Proof.
  revert l. induction n as [|n IH]; intros [|b l]; cbn; try contradiction.
  intros [H|H]; [now left | right; now apply IH].
Qed.

Lemma dict_mem_zip_in (ps : list string) (x : list V) (k : string) :
  dict_mem (dict_of (combine ps x)) k = true -> In k ps.
Proof.
  rewrite dict_mem_zip. apply in_firstn.
Qed.


Lemma dict_item_mem (d : dict V) (k : string) :
  dict_mem d k = true -> exists v, dict_item d k = Return v /\ dict_get d k = Some v.
Proof.
  unfold dict_mem, dict_item. destruct (dict_get d k); [eauto|discriminate].
Qed.

Lemma dict_item_returned (d : dict V) (k : string) (v : V) :
  dict_item d k = Return v -> dict_get d k = Some v /\ dict_mem d k = true.
Proof.
  unfold dict_item, dict_mem. destruct (dict_get d k); [|discriminate].
  intros H. injection H as ->. auto.
Qed.

End DictFacts.

Section FloatFacts.

Local Open Scope float_scope.

(** A finite float times zero, plus one, is one: the value of the polynomial
    with the one coefficient 1. *)
Lemma polyval_one (x : float) :
  Np.isfinite x = true -> Np.polyval [1] x = 1.
Proof.
  intros H. unfold Np.polyval. cbn [fold_left].
  apply Prim2SF_inj. rewrite FloatAxioms.add_spec, FloatAxioms.mul_spec.
  unfold Np.isfinite, is_finite, is_nan, is_infinity in H.
  rewrite !FloatAxioms.eqb_spec, FloatAxioms.abs_spec in H.
  destruct (Prim2SF x) as [s|s| |s m e] eqn:E; try reflexivity.
  - destruct s; cbn in H; discriminate.
  - cbn in H; discriminate.
Qed.

Lemma nan_is_not_finite : Np.isfinite nan = false.
Proof. reflexivity. Qed.

End FloatFacts.

(* ================================================================== *)
(** * Species                                                           *)
(* ================================================================== *)

Section SpeciesFacts.

Import Utils Species.

Lemma str_in_spec (x : string) (l : list string) :
  str_in x l = true -> In x l.
Proof.
  unfold str_in. rewrite existsb_exists.
  intros [y [Hy Heq]]. apply String.eqb_eq in Heq. now subst.
Qed.

(** No symbol of the periodic table holds a blank. *)
Lemma symbols_have_no_blank (x : string) :
  In x periodic_table -> contains x " " = false.
Proof.
  intros H.
  assert (A : forallb (fun y => negb (contains y " ")) periodic_table = true)
    by (vm_compute; reflexivity).
  rewrite forallb_forall in A. specialize (A x H).
  now destruct (contains x " ").
Qed.

(** A string that is not a symbol of the table and not a number: the lookup
    returns the exception object and [int] refuses it. *)
Lemma unknown_symbol_is_type_error (s : string) :
  str_in s periodic_table = false ->
  float_of_string s = None ->
  _parse_species (PyStr s) = Raise int_of_exception.
Proof.
  intros Hin Hfloat.
  unfold _parse_species, py_float. rewrite Hfloat.
  unfold parse_species_string, atomic_number. rewrite Hin. reflexivity.
Qed.

(** The lookup of a string that is no number and holds a blank. *)
Lemma blank_is_not_looked_up (s : string) :
  contains s " " = true ->
  float_of_string s = None ->
  _parse_species (PyStr s) = Raise int_of_exception.
Proof.
  intros Hblank Hfloat.
  assert (Hin : str_in s periodic_table = false).
  { destruct (str_in s periodic_table) eqn:E; [|reflexivity].
    apply str_in_spec, symbols_have_no_blank in E. congruence. }
  unfold _parse_species, py_float. rewrite Hfloat.
  unfold parse_species_string, atomic_number. rewrite Hin. reflexivity.
Qed.

(** A specifier with an ionisation token, such as [Fe I], is looked up whole
    and so is never found. *)
Lemma specifier_with_blank_is_type_error (s : string) :
  contains s " " = true ->
  float_of_string s = None ->
  _parse_species (PyStr s) = Raise int_of_exception.
Proof.
  intros Hblank Hfloat.
  unfold _parse_species, py_float. rewrite Hfloat.
  unfold parse_species_string, atomic_number.
  destruct (str_in s periodic_table) eqn:E; [|reflexivity].
  apply str_in_spec, symbols_have_no_blank in E. congruence.
Qed.

(** C2, at the specifiers the claim names: the strings [Fe I] and [Fe II]
    raise a [TypeError] where the codes 26.0 and 26.1 give iron at levels 1
    and 2; [Fe] and [Ca] agree with 26.0 and 20.0; and 12.1, the code of
    Mg II, is decoded by truncation to level 1. *)
Theorem species_strings_and_codes :
  identity (_parse_species (PyStr "Fe I")) = Raise int_of_exception
  /\ identity (_parse_species (PyFloat 26.0)) = Return (Some ("Fe"%string, 26, 1))
  /\ identity (_parse_species (PyStr "Fe II")) = Raise int_of_exception
  /\ identity (_parse_species (PyFloat 26.1)) = Return (Some ("Fe"%string, 26, 2))
  /\ identity (_parse_species (PyStr "Fe")) = Return (Some ("Fe"%string, 26, 1))
  /\ identity (_parse_species (PyStr "Ca")) = Return (Some ("Ca"%string, 20, 1))
  /\ identity (_parse_species (PyFloat 20.0)) = Return (Some ("Ca"%string, 20, 1))
  /\ identity (_parse_species (PyFloat 12.1)) = Return (Some ("Mg"%string, 12, 1)).
Proof.
  repeat split; vm_compute; reflexivity.
Qed.

(** C6, at a symbol that no element has: [atomic_number] returns the
    exception that says so, and the caller of [_parse_species] receives the
    [TypeError] of [int] instead. *)
Theorem unknown_element_is_returned_not_raised :
  atomic_number (PyStr "Xx") = Return (PyExc (unknown_element "Xx"))
  /\ _parse_species (PyStr "Xx") = Raise int_of_exception.
Proof.
  split; vm_compute; reflexivity.
Qed.

End SpeciesFacts.

(* ================================================================== *)
(** * The checks on the arguments of [fit_profile]                      *)
(* ================================================================== *)

Section ArgumentFacts.

Import Transitions.
Local Open Scope float_scope.

Lemma nth_error_last {A : Type} (l : list A) (d : A) :
  l <> [] -> nth_error l (List.length l - 1) = Some (List.last l d).
Proof.
  induction l as [|x l IH]; [congruence|]. intros _.
  destruct l as [|y l].
  - reflexivity.
  - specialize (IH ltac:(congruence)).
    change (List.last (x :: y :: l) d) with (List.last (y :: l) d).
    rewrite <- IH. simpl. now rewrite Nat.sub_0_r.
Qed.

Lemma item_first {A : Type} (x : A) (l : list A) :
  Np.item (x :: l) 0 = Return x.
Proof.
  unfold Np.item, getitem.
  change (0 <? 0)%Z with false. cbv iota.
  replace (0 <? 0)%Z with false by reflexivity.
  assert (H : (Z.of_nat (List.length (x :: l)) <=? 0)%Z = false).
  { apply Z.leb_gt. simpl List.length. lia. }
  rewrite H. reflexivity.
Qed.

Lemma item_last {A : Type} (x : A) (l : list A) :
  Np.item (x :: l) (-1) = Return (List.last (x :: l) x).
Proof.
  unfold Np.item, getitem.
  change (-1 <? 0)%Z with true. cbv iota.
  set (n := Z.of_nat (List.length (x :: l))).
  assert (Hn : (1 <= n)%Z) by (subst n; simpl List.length; lia).
  assert (H1 : (-1 + n <? 0)%Z = false) by (apply Z.ltb_ge; lia).
  assert (H2 : (n <=? -1 + n)%Z = false) by (apply Z.leb_gt; lia).
  rewrite H1, H2. cbv [orb].
  replace (Z.to_nat (-1 + n)) with (List.length (x :: l) - 1)%nat by (subst n; lia).
  rewrite (nth_error_last (x :: l) x) by congruence.
  reflexivity.
Qed.

Lemma check_bounds_spec (self : AtomicTransition) (s : Spectrum1D) :
  disp s <> [] ->
  check_bounds self s =
  if strictly_inside (wavelength self) (disp s) then Return tt
  else Raise out_of_bounds.
Proof.
  intros Hne. unfold check_bounds, strictly_inside.
  destruct (disp s) as [|first rest]; [congruence|].
  rewrite item_last, item_first. unfold bind, Np.gt, Np.lt.
  destruct (PrimFloat.ltb (wavelength self) (List.last (first :: rest) first));
    destruct (PrimFloat.ltb first (wavelength self)); reflexivity.
Qed.

Variable lib : library.

(** C7: a spectrum with at least one pixel whose dispersion does not hold the
    wavelength of the transition strictly inside makes [fit_profile] raise the
    error of the bounds check, whatever the other arguments are; it returns
    no fit. *)
Theorem fit_profile_out_of_bounds
  (self : AtomicTransition) (s : Spectrum1D)
  (initial_theta : option (dict float)) (kind : string)
  (continuum_order : option Z) (surrounding : float)
  (detect_nearby_lines : bool) (constrain_parameters : option (dict bounds))
  (synthesise_kwargs : option (dict float))
  (optimise_kwargs : option (dict kwval)) (full_output : bool)
  (kwargs : dict float) :
  disp s <> [] ->
  strictly_inside (wavelength self) (disp s) = false ->
  fit_profile lib self (Spectrum s) initial_theta kind continuum_order
    surrounding detect_nearby_lines constrain_parameters synthesise_kwargs
    optimise_kwargs full_output kwargs
  = Raise out_of_bounds.
Proof.
  intros Hne Hout. unfold fit_profile, prepare, check_data.
  cbn [bind]. rewrite (check_bounds_spec self s Hne), Hout. reflexivity.
Qed.

Lemma check_kind_not_implemented (kind : string) :
  lower kind = "voigt"%string \/ lower kind = "lorentzian"%string ->
  check_kind kind = Raise not_implemented.
Proof.
  unfold check_kind. intros [H|H]; rewrite H; reflexivity.
Qed.

(** C8, as the code has it: once the data is a spectrum that holds the
    wavelength strictly inside its dispersion, a kind that is [voigt] or
    [lorentzian] in any letter case makes [fit_profile] raise
    [NotImplementedError]; nothing is fitted and no Gaussian is used. *)
Theorem fit_profile_kind_not_implemented
  (self : AtomicTransition) (s : Spectrum1D)
  (initial_theta : option (dict float)) (kind : string)
  (continuum_order : option Z) (surrounding : float)
  (detect_nearby_lines : bool) (constrain_parameters : option (dict bounds))
  (synthesise_kwargs : option (dict float))
  (optimise_kwargs : option (dict kwval)) (full_output : bool)
  (kwargs : dict float) :
  strictly_inside (wavelength self) (disp s) = true ->
  lower kind = "voigt"%string \/ lower kind = "lorentzian"%string ->
  fit_profile lib self (Spectrum s) initial_theta kind continuum_order
    surrounding detect_nearby_lines constrain_parameters synthesise_kwargs
    optimise_kwargs full_output kwargs
  = Raise not_implemented.
Proof.
  intros Hin Hkind. unfold fit_profile, prepare, check_data.
  cbn [bind].
  assert (Hne : disp s <> []).
  { destruct (disp s); [discriminate Hin | congruence]. }
  rewrite (check_bounds_spec self s Hne), Hin. cbn [bind].
  rewrite (check_kind_not_implemented kind Hkind). reflexivity.
Qed.

End ArgumentFacts.

Section ArgumentExamples.

Import Transitions.
Local Open Scope float_scope.

Lemma fit_profile_out_of_bounds_witness :
  strictly_inside 6000 (disp Bench.spectrum) = false
  /\ fit_profile Bench.library (Bench.line 6000 []) (Spectrum Bench.spectrum)
       (Some Bench.seeded) "gaussian" None 2 true None None None false []
     = Raise out_of_bounds.
Proof.
  split; [vm_compute; reflexivity|].
  apply fit_profile_out_of_bounds;
    [cbn; discriminate | vm_compute; reflexivity].
Defined.

(** C8 as the claim states it fails for a call whose wavelength is outside the
    data: the check of the bounds comes first and the call raises its
    [ValueError], not [NotImplementedError]. *)
Lemma voigt_outside_the_data_is_out_of_bounds :
  fit_profile Bench.library (Bench.line 6000 []) (Spectrum Bench.spectrum)
    (Some Bench.seeded) "voigt" None 2 true None None None false []
  = Raise out_of_bounds.
Proof. vm_compute; reflexivity. Qed.

Lemma fit_profile_kind_not_implemented_witness :
  fit_profile Bench.library (Bench.line 5000 []) (Spectrum Bench.spectrum)
    (Some Bench.seeded) "Voigt" None 2 true None None None false []
  = Raise not_implemented.
Proof.
  apply fit_profile_kind_not_implemented;
    [vm_compute; reflexivity | left; vm_compute; reflexivity].
Defined.

(** C5, at a transition whose one continuum region, 4000 to 4001, lies below
    data that start at 4998: no region overlaps the data, the check of the
    regions passes all the same, and the call goes on to return a fit. *)
Theorem region_below_the_data_is_accepted :
  some_region_overlaps [(4000, 4001)] (disp Bench.spectrum) = false
  /\ check_continuum_regions (Bench.line 5000 [(4000, 4001)]) Bench.spectrum
     = Return tt
  /\ is_return
       (fit_profile Bench.library (Bench.line 5000 [(4000, 4001)])
          (Spectrum Bench.spectrum) (Some Bench.seeded) "gaussian" None 2 true
          None None None false [])
     = true.
Proof.
  repeat split; vm_compute; reflexivity.
Qed.

(** The loop over the continuum regions breaks after the first one: a second
    region that overlaps the data is never looked at, and the call raises. *)
Theorem later_region_is_never_tested :
  some_region_overlaps [(6000, 6001); (4999, 5001)] (disp Bench.spectrum) = true
  /\ check_continuum_regions (Bench.line 5000 [(6000, 6001); (4999, 5001)])
       Bench.spectrum
     = Raise no_overlap.
Proof. split; vm_compute; reflexivity. Qed.

Lemma specifier_with_blank_witness :
  Species._parse_species (Utils.PyStr "Fe II") = Raise Utils.int_of_exception.
Proof.
  apply specifier_with_blank_is_type_error; vm_compute; reflexivity.
Defined.

Lemma unknown_symbol_witness :
  Species._parse_species (Utils.PyStr "Xx") = Raise Utils.int_of_exception.
Proof.
  apply unknown_symbol_is_type_error; vm_compute; reflexivity.
Defined.

End ArgumentExamples.

(* ================================================================== *)
(** * The rounds of the continuum and outlier refinement               *)
(* ================================================================== *)

(** Case analysis along a computation in the error monad that is known to
    return. *)
Ltac returned H :=
  repeat
    (cbn [bind] in H;
     match type of H with
     | Return _ = Return _ => injection H as H; try subst
     | Raise _ = Return _ => discriminate H
     | bind ?m _ = Return _ =>
         let E := fresh "E" in destruct m eqn:E; [|discriminate H]
     | (if ?b then _ else _) = Return _ =>
         let E := fresh "E" in destruct b eqn:E
     | (let (_, _) := ?p in _) = Return _ =>
         let E := fresh "E" in destruct p eqn:E
     | match ?x with _ => _ end = Return _ =>
         let E := fresh "E" in destruct x eqn:E
     end).

(** The same along every computation among the hypotheses, then by cases on
    the conditionals of the goal. *)
Ltac framed :=
  repeat match goal with
         | H : _ = Return _ |- _ => progress (returned H)
         end;
  repeat match goal with
         | |- context [if ?b then _ else _] => destruct b
         end;
  cbn; try reflexivity; try congruence.

Section RoundFacts.

Import Transitions.
Local Open Scope float_scope.

Variable lib : library.
Variable c : fit_context.

Lemma continuum_step_printed (st st' : loop_state) :
  continuum_step lib c st = Return st' -> printed st' = printed st.
Proof. unfold continuum_step. intros H. framed. Qed.

Lemma line_depth_step_printed (st st' : loop_state) :
  line_depth_step c st = Return st' -> printed st' = printed st.
Proof. unfold line_depth_step, dict_pop. intros H. framed. Qed.

Lemma fwhm_step_printed (st st' : loop_state) :
  fwhm_step c st = Return st' -> printed st' = printed st.
Proof. unfold fwhm_step. intros H. framed. Qed.

Lemma blending_fwhm_step_printed (st st' : loop_state) :
  blending_fwhm_step c st = Return st' -> printed st' = printed st.
Proof. unfold blending_fwhm_step. intros H. framed. Qed.

Lemma outlier_step_printed (st st' : loop_state) :
  outlier_step lib c st = Return st' -> printed st' = printed st.
Proof. unfold outlier_step. intros H. framed. Qed.

(** A round that returns has printed its number once, first of all. *)
Lemma round_printed (kk : Z) (st st' : loop_state) :
  round lib c kk st = Return st' ->
  printed st' = (printed st ++ [(kk, Np.count (continuum_mask st))])%list.
Proof.
  unfold round. intros H. returned H.
  apply continuum_step_printed in E.
  apply line_depth_step_printed in E0.
  apply fwhm_step_printed in E1.
  apply blending_fwhm_step_printed in E2.
  apply outlier_step_printed in H.
  rewrite H, E2, E1, E0, E. reflexivity.
Qed.

(** The loop is its three rounds in sequence: nothing is tested between two
    rounds. *)
Lemma refine_unfold (st : loop_state) :
  refine lib c st =
  (st1 <- round lib c 0 st ;; st2 <- round lib c 1 st1 ;; round lib c 2 st2).
Proof.
  unfold refine. change (range 3) with [0; 1; 2]%Z. cbn [foldM].
  destruct (round lib c 0 st) as [st1|]; [|reflexivity]. cbn [bind].
  destruct (round lib c 1 st1) as [st2|]; [|reflexivity]. cbn [bind].
  destruct (round lib c 2 st2); reflexivity.
Qed.

(** C4, as the code has it: the loop runs the rounds 0, 1 and 2 in this order
    with no test between them.  When it returns, exactly these three rounds
    have run, each printing its number; it ends before the third round only
    in that a round raises an exception, which is then the outcome of the
    loop. *)
Theorem refine_runs_three_rounds (st : loop_state) :
  refine lib c st =
    (st1 <- round lib c 0 st ;; st2 <- round lib c 1 st1 ;; round lib c 2 st2)
  /\ (forall st', refine lib c st = Return st' ->
        map fst (printed st') = (map fst (printed st) ++ [0; 1; 2])%Z%list)
  /\ (forall e, refine lib c st = Raise e ->
        round lib c 0 st = Raise e
        \/ exists st1, round lib c 0 st = Return st1
           /\ (round lib c 1 st1 = Raise e
               \/ exists st2, round lib c 1 st1 = Return st2
                  /\ round lib c 2 st2 = Raise e)).
Proof.
  split; [apply refine_unfold|]. rewrite refine_unfold. split.
  - intros st' H. returned H.
    apply round_printed in E, E0, H. rewrite H, E0, E.
    rewrite !map_app, <- !app_assoc. reflexivity.
  - intros e H.
    destruct (round lib c 0 st) as [st1|e0] eqn:E0; cbn [bind] in H;
      [|left; exact H].
    right. exists st1. split; [reflexivity|].
    destruct (round lib c 1 st1) as [st2|e1] eqn:E1; cbn [bind] in H;
      [|left; exact H].
    right. exists st2. split; [reflexivity | exact H].
Qed.

End RoundFacts.

Section ContinuumFacts.

Import Transitions.
Local Open Scope float_scope.

Variable lib : library.

Lemma check_kind_returned (kind kind' : string) :
  check_kind kind = Return kind' -> kind' = "gaussian"%string.
Proof.
  unfold check_kind. intros H. returned H.
  cbn in E, E0.
  destruct (String.eqb_spec (lower kind) "gaussian"); [assumption|].
  cbn in E. rewrite E0 in E. discriminate.
Qed.

(** What a call that reaches the rounds has fixed. *)
Lemma prepare_returned
  (self : AtomicTransition) (data : pyobj)
  (initial_theta : option (dict float)) (kind : string)
  (continuum_order : option Z) (surrounding : float)
  (detect_nearby_lines : bool) (constrain_parameters : option (dict bounds))
  (synthesise_kwargs : option (dict float)) (kwargs : dict float)
  (c : fit_context) (st : loop_state) :
  prepare lib self data initial_theta kind continuum_order surrounding
    detect_nearby_lines constrain_parameters synthesise_kwargs kwargs
  = Return (c, st) ->
  ctx_self c = self
  /\ ctx_kind c = "gaussian"%string
  /\ ctx_continuum_order c = continuum_order
  /\ ctx_parameters c
     = build_parameters self "gaussian" continuum_order (ctx_constrain c).
Proof.
  unfold prepare. intros H. returned H.
  apply check_kind_returned in E1. subst. cbn. auto.
Qed.

Section Rounds.

Variable c : fit_context.

Lemma line_depth_step_coefficients (st st' : loop_state) :
  line_depth_step c st = Return st' -> coefficients st' = coefficients st.
Proof. unfold line_depth_step, dict_pop. intros H. framed. Qed.

Lemma fwhm_step_coefficients (st st' : loop_state) :
  fwhm_step c st = Return st' -> coefficients st' = coefficients st.
Proof. unfold fwhm_step. intros H. framed. Qed.

Lemma blending_fwhm_step_coefficients (st st' : loop_state) :
  blending_fwhm_step c st = Return st' -> coefficients st' = coefficients st.
Proof. unfold blending_fwhm_step. intros H. framed. Qed.

Lemma outlier_step_coefficients (st st' : loop_state) :
  outlier_step lib c st = Return st' -> coefficients st' = coefficients st.
Proof. unfold outlier_step. intros H. framed. Qed.

Hypothesis no_order : ctx_continuum_order c = None.

(** Without a continuum order every round sets the coefficients to [[1]]. *)
Lemma round_unit_coefficients (kk : Z) (st st' : loop_state) :
  round lib c kk st = Return st' -> coefficients st' = [1].
Proof.
  unfold round. intros H. returned H.
  apply line_depth_step_coefficients in E0.
  apply fwhm_step_coefficients in E1.
  apply blending_fwhm_step_coefficients in E2.
  apply outlier_step_coefficients in H.
  rewrite H, E2, E1, E0.
  unfold continuum_step in E. rewrite no_order in E.
  injection E as <-. reflexivity.
Qed.

Lemma refine_unit_coefficients (st st' : loop_state) :
  refine lib c st = Return st' -> coefficients st' = [1].
Proof.
  rewrite refine_unfold. intros H. returned H.
  eapply round_unit_coefficients; eauto.
Qed.

End Rounds.

Lemma unit_continuum (d : list float) :
  forallb Np.isfinite d = true ->
  map (Np.polyval [1]) d = ones (List.length d).
Proof.
  induction d as [|x d IH]; cbn [forallb map List.length]; [reflexivity|].
  intros H. apply andb_prop in H as [Hx Hd].
  rewrite (polyval_one x Hx), (IH Hd). reflexivity.
Qed.

Lemma parameters_without_order (self : AtomicTransition) (kind : string)
  (constrain : dict bounds) (p : string) :
  In p (build_parameters self "gaussian" None constrain) ->
  startswith p "continuum." = false.
Proof.
  unfold build_parameters.
  destruct (dict_mem constrain "wavelength"); destruct (has_blending self);
    cbn; intuition (subst; reflexivity).
Qed.

(** C10: in a call without a continuum order that reaches the rounds, every
    round sets the coefficients to [[1]], and so they stand after the rounds;
    no parameter is a continuum coefficient; and when the dispersion of the
    data is finite, the continuum of the objective is 1 at every pixel, for
    every vector the objective is evaluated at. *)
Theorem no_continuum_order_unit_continuum
  (self : AtomicTransition) (data : pyobj)
  (initial_theta : option (dict float)) (kind : string) (surrounding : float)
  (detect_nearby_lines : bool) (constrain_parameters : option (dict bounds))
  (synthesise_kwargs : option (dict float)) (kwargs : dict float)
  (c : fit_context) (st0 st : loop_state) :
  prepare lib self data initial_theta kind None surrounding
    detect_nearby_lines constrain_parameters synthesise_kwargs kwargs
  = Return (c, st0) ->
  refine lib c st0 = Return st ->
  forallb Np.isfinite (disp (ctx_data c)) = true ->
  (forall kk s s', round lib c kk s = Return s' -> coefficients s' = [1])
  /\ coefficients st = [1]
  /\ (forall p, In p (ctx_parameters c) -> startswith p "continuum." = false)
  /\ map (Np.polyval (coefficients st)) (disp (ctx_data c))
     = ones (List.length (disp (ctx_data c)))
  /\ forall x,
       objective_continuum c
         (map (Np.polyval (coefficients st)) (disp (ctx_data c)))
         (dict_of (combine (ctx_parameters c) x))
       = Return (ones (List.length (disp (ctx_data c)))).
Proof.
  intros Hprep Hrefine Hfinite.
  destruct (prepare_returned _ _ _ _ _ _ _ _ _ _ _ _ Hprep)
    as (Hself & Hkind & Horder & Hpars).
  assert (Hcoef : coefficients st = [1])
    by (eapply refine_unit_coefficients; eauto).
  assert (Hnames : forall p, In p (ctx_parameters c) ->
                             startswith p "continuum." = false).
  { intros p Hp. rewrite Hpars in Hp.
    eapply parameters_without_order; eauto. }
  assert (Hunit : map (Np.polyval (coefficients st)) (disp (ctx_data c))
                  = ones (List.length (disp (ctx_data c))))
    by (rewrite Hcoef; now apply unit_continuum).
  split; [intros kk s s'; now apply round_unit_coefficients|].
  repeat split; try assumption.
  intros x. unfold objective_continuum.
  destruct (dict_mem (dict_of (combine (ctx_parameters c) x)) "continuum.0")
    eqn:E.
  - apply dict_mem_zip_in, Hnames in E. discriminate E.
  - cbn [negb]. now rewrite Hunit.
Qed.

End ContinuumFacts.

Section ObjectiveFacts.

Import Transitions.
Local Open Scope float_scope.

Variable lib : library.
Variable c : fit_context.

Lemma mapM_length {A B : Type} (f : A -> result B) (l : list A) (r : list B) :
  mapM f l = Return r -> List.length r = List.length l.
Proof.
  revert r. induction l as [|a l IH]; cbn; intros r H.
  - injection H as <-. reflexivity.
  - returned H. cbn. f_equal. now apply IH.
Qed.



(** ** The bounds of the user *)




(** ** The sum of the objective *)








End ObjectiveFacts.


Section ResultFacts.

Import Transitions.
Local Open Scope float_scope.

Variable lib : library.

(** What [conclude] has done when it returns. *)
Lemma conclude_returned (c : fit_context) (st : loop_state)
  (p1 : list float) (fopt : float) (num_iter num_funcalls warnflag : Z)
  (full_output : bool) (out : fit_output) (self' : AtomicTransition) :
  conclude lib c st (p1, fopt, num_iter, num_funcalls, warnflag) full_output
  = Return (out, self') ->
  let optimal_theta := dict_of (combine (ctx_parameters c) p1) in
  exists oc orc info line_depth fwhm,
    dict_get optimal_theta "line_depth" = Some line_depth
    /\ dict_get optimal_theta "fwhm" = Some fwhm
    /\ ctx_kind c = "gaussian"%string
    /\ equivalent_width self' = Some (width_of line_depth fwhm)
    /\ _profile self' = Some (optimal_theta, info)
    /\ info_equivalent_width info = width_of line_depth fwhm
    /\ info_profile_kind info = "gaussian"%string
    /\ info_warnflag info = warnflag
    /\ out = (if full_output then Full optimal_theta oc orc info
              else Theta optimal_theta).
Proof.
  unfold conclude, profile_integral. intros H. returned H.
  repeat match goal with
         | E : _ = Return _ |- _ => progress (returned E)
         end.
  match goal with
  | E : String.eqb (ctx_kind c) _ = true |- _ =>
      apply String.eqb_eq in E; rewrite E
  end.
  repeat match goal with
         | E : dict_item _ _ = Return _ |- _ =>
             apply dict_item_returned in E as [E _]
         end.
  eexists _, _, _, _, _. repeat split; try eassumption; try reflexivity.
Qed.

Section Call.

Variables (self : AtomicTransition) (data : pyobj)
  (initial_theta : option (dict float)) (kind : string)
  (continuum_order : option Z) (surrounding : float)
  (detect_nearby_lines : bool) (constrain_parameters : option (dict bounds))
  (synthesise_kwargs : option (dict float))
  (optimise_kwargs : option (dict kwval)) (full_output : bool)
  (kwargs : dict float).

Let call : result (fit_output * AtomicTransition) :=
  fit_profile lib self data initial_theta kind continuum_order surrounding
    detect_nearby_lines constrain_parameters synthesise_kwargs optimise_kwargs
    full_output kwargs.

Let op_kwargs : dict kwval :=
  op_kwargs_of (match optimise_kwargs with Some d => d | None => [] end).

(** C1, as the code has it: a call of [fit_profile] that returns has the
    profile kind [gaussian]; it returns the vector of the optimiser as
    [optimal_theta], and the equivalent width that it stores on the
    transition and in the diagnostics is
    [1000 * (line_depth * abs fwhm * 0.752634332)] for the [line_depth] and
    the [fwhm] of that vector. *)
Theorem equivalent_width_of_fit (out : fit_output) (self' : AtomicTransition) :
  call = Return (out, self') ->
  exists c st p0 p1 fopt num_iter num_funcalls warnflag info line_depth fwhm,
    fmin lib
      (minimisation_function lib c (coefficients st)
         (map (Np.polyval (coefficients st)) (disp (ctx_data c))))
      p0 op_kwargs
    = Return (p1, fopt, num_iter, num_funcalls, warnflag)
    /\ let optimal_theta := dict_of (combine (ctx_parameters c) p1) in
       dict_get optimal_theta "line_depth" = Some line_depth
       /\ dict_get optimal_theta "fwhm" = Some fwhm
       /\ equivalent_width self' = Some (width_of line_depth fwhm)
       /\ _profile self' = Some (optimal_theta, info)
       /\ info_equivalent_width info = width_of line_depth fwhm
       /\ info_profile_kind info = "gaussian"%string
       /\ (out = Theta optimal_theta
           \/ exists oc orc, out = Full optimal_theta oc orc info).
Proof.
  subst call op_kwargs. unfold fit_profile. intros H.
  destruct (prepare lib self data initial_theta kind continuum_order
              surrounding detect_nearby_lines constrain_parameters
              synthesise_kwargs kwargs) as [[c st0]|]; [|discriminate H].
  cbn [bind] in H.
  destruct (refine lib c st0) as [st|]; [|discriminate H]. cbn [bind] in H.
  destruct (seed lib c st) as [p0|]; [|discriminate H]. cbn [bind] in H.
  match type of H with
  | bind ?m _ = _ =>
      destruct m as [[[[[p1 fopt] num_iter] num_funcalls] warnflag]|] eqn:Hfmin;
        [|discriminate H]
  end.
  cbn [bind] in H.
  apply conclude_returned in H
    as (oc & orc & info & line_depth & fwhm & H1 & H2 & H3 & H4 & H5 & H6
        & H7 & H8 & H9).
  exists c, st, p0, p1, fopt, num_iter, num_funcalls, warnflag, info,
    line_depth, fwhm.
  split; [exact Hfmin|]. cbn zeta. repeat split; try assumption.
  destruct full_output; [right; eauto | left; assumption].
Qed.

(** C9: let the call reach the optimiser, and let the optimiser return an
    iterate with any [warnflag], so also with one that says it did not
    converge; let the objective be valid at that iterate, as it is at the
    best vertex of a simplex that started from a valid seed.  Then
    [fit_profile] raises nothing: it returns the iterate as [optimal_theta],
    and the diagnostics it stores, and returns with [full_output], hold the
    [warnflag]. *)
Theorem unconverged_iterate_is_returned
  (c : fit_context) (st0 st : loop_state) (p0 p1 : list float) (fopt : float)
  (num_iter num_funcalls warnflag : Z) (oc orc : chi_value)
  (spectra : return_spectra) :
  prepare lib self data initial_theta kind continuum_order surrounding
    detect_nearby_lines constrain_parameters synthesise_kwargs kwargs
  = Return (c, st0) ->
  refine lib c st0 = Return st ->
  seed lib c st = Return p0 ->
  fmin lib
    (minimisation_function lib c (coefficients st)
       (map (Np.polyval (coefficients st)) (disp (ctx_data c))))
    p0 op_kwargs
  = Return (p1, fopt, num_iter, num_funcalls, warnflag) ->
  chi_sq lib c (coefficients st)
    (map (Np.polyval (coefficients st)) (disp (ctx_data c))) p1 true true
  = Return (Detailed oc orc (Some spectra)) ->
  let optimal_theta := dict_of (combine (ctx_parameters c) p1) in
  exists info self',
    call = Return (if full_output then Full optimal_theta oc orc info
                   else Theta optimal_theta, self')
    /\ info_warnflag info = warnflag
    /\ _profile self' = Some (optimal_theta, info).
Proof.
  intros Hprep Hrefine Hseed Hfmin Hchi optimal_theta.
  destruct (prepare_returned lib _ _ _ _ _ _ _ _ _ _ _ _ Hprep)
    as (_ & Hkind & _).
  subst call op_kwargs. unfold fit_profile.
  rewrite Hprep. cbn [bind]. rewrite Hrefine. cbn [bind].
  rewrite Hseed. cbn [bind]. rewrite Hfmin. cbn [bind].
  unfold conclude. rewrite Hchi. cbn [bind].
  unfold profile_integral. rewrite Hkind. cbn [String.eqb Ascii.eqb Bool.eqb].
  pose proof Hchi as Hitems. unfold chi_sq in Hitems. cbn zeta in Hitems.
  destruct (dict_item (dict_of (combine (ctx_parameters c) p1)) "fwhm")
    as [fwhm|] eqn:Ef; [|discriminate Hitems].
  cbn [bind] in Hitems.
  destruct (Np.gt 0 fwhm); [discriminate Hitems|].
  destruct (dict_item (dict_of (combine (ctx_parameters c) p1)) "line_depth")
    as [line_depth|] eqn:Ed; [|discriminate Hitems].
  cbn [bind]. eexists _, _. repeat split.
Qed.

End Call.

End ResultFacts.

Section BlendingFacts.

Import Transitions.
Local Open Scope float_scope.

Variable lib : library.

Lemma continuum_names_not_blending (l : list Z) :
  str_in "blending_fwhm"
    (map (fun i => String.append "continuum." (string_of_Z i)) l) = false.
Proof.
  induction l as [|i l IH]; [reflexivity|].
  unfold str_in in *. cbn [map existsb]. rewrite IH. reflexivity.
Qed.

Lemma blending_is_no_parameter (self : AtomicTransition)
  (continuum_order : option Z) (constrain : dict bounds) :
  has_blending self = false ->
  str_in "blending_fwhm"
    (build_parameters self "gaussian" continuum_order constrain) = false.
Proof.
  intros H. unfold build_parameters, str_in. rewrite H.
  rewrite !existsb_app.
  assert (C : existsb (String.eqb "blending_fwhm")
                match continuum_order with
                | Some n =>
                    if (regions_size self <? 2)%Z then continuum_names n else []
                | None => []
                end = false).
  { destruct continuum_order as [n|]; [|reflexivity].
    destruct (regions_size self <? 2)%Z; [|reflexivity].
    apply continuum_names_not_blending. }
  rewrite C.
  destruct (dict_mem constrain "wavelength"); reflexivity.
Qed.

(** A transition without blending transitions has no blending spectrum. *)
Lemma prepare_without_blending
  (self : AtomicTransition) (data : pyobj)
  (initial_theta : option (dict float)) (kind : string)
  (continuum_order : option Z) (surrounding : float)
  (detect_nearby_lines : bool) (constrain_parameters : option (dict bounds))
  (synthesise_kwargs : option (dict float)) (kwargs : dict float)
  (c : fit_context) (st : loop_state) :
  has_blending self = false ->
  prepare lib self data initial_theta kind continuum_order surrounding
    detect_nearby_lines constrain_parameters synthesise_kwargs kwargs
  = Return (c, st) ->
  ctx_blending_spectrum c = None.
Proof.
  intros Hb. unfold prepare. intros H. returned H.
  match goal with
  | E : check_kind _ = Return _ |- _ => apply check_kind_returned in E; subst
  end.
  match goal with
  | E : synthesise_blending _ _ _ _ _ _ _ = Return _ |- _ =>
      unfold synthesise_blending in E;
      rewrite (blending_is_no_parameter _ _ _ Hb) in E;
      injection E as <-
  end.
  reflexivity.
Qed.

(** Without a blending spectrum the objective with [full_output] reads
    [blending_spectrum.disp] of [None]: the evaluation at the seed either
    rejects the seed or raises, and [seed] never returns. *)
Lemma seed_needs_blending (c : fit_context) (st : loop_state) :
  ctx_blending_spectrum c = None -> is_return (seed lib c st) = false.
Proof.
  intros Hb. destruct (seed lib c st) as [p0|] eqn:E; [exfalso|reflexivity].
  unfold seed, chi_sq, smoothed_blending in E. rewrite Hb in E. cbn zeta in E.
  returned E;
    repeat match goal with
           | F : _ = Return _ |- _ => progress (returned F)
           end;
    match goal with
    | F : negb (is_finite_value (Scalar nan)) = false |- _ =>
        cbn in F; discriminate F
    end.
Qed.

(** A call of [fit_profile] on a transition without blending transitions
    never returns a fit. *)
Theorem fit_profile_needs_blending
  (self : AtomicTransition) (data : pyobj)
  (initial_theta : option (dict float)) (kind : string)
  (continuum_order : option Z) (surrounding : float)
  (detect_nearby_lines : bool) (constrain_parameters : option (dict bounds))
  (synthesise_kwargs : option (dict float))
  (optimise_kwargs : option (dict kwval)) (full_output : bool)
  (kwargs : dict float) :
  has_blending self = false ->
  is_return
    (fit_profile lib self data initial_theta kind continuum_order surrounding
       detect_nearby_lines constrain_parameters synthesise_kwargs
       optimise_kwargs full_output kwargs) = false.
Proof.
  intros Hb. unfold fit_profile.
  destruct (prepare lib self data initial_theta kind continuum_order
              surrounding detect_nearby_lines constrain_parameters
              synthesise_kwargs kwargs) as [[c st0]|] eqn:Hp; [|reflexivity].
  cbn [bind].
  destruct (refine lib c st0) as [st|]; [|reflexivity]. cbn [bind].
  pose proof (seed_needs_blending c st
                (prepare_without_blending _ _ _ _ _ _ _ _ _ _ _ _ Hb Hp)) as Hs.
  destruct (seed lib c st); [discriminate Hs | reflexivity].
Qed.

End BlendingFacts.

Section SolverFacts.

Import Transitions Solvers.

(** The entry of [ProfileFitter.fit]: without a mask, a wavelength that is not
    strictly inside the pixels of finite flux raises the [ValueError] of the
    spectral range. *)
Theorem solver_wavelength_outside_finite_range (kwargs : list string)
  (spectrum : Spectrum1D) (wavelength : float) :
  List.length (disp spectrum) = List.length (flux spectrum) ->
  Np.select (disp spectrum) (map Np.isfinite (flux spectrum)) <> [] ->
  strictly_inside wavelength
    (Np.select (disp spectrum) (map Np.isfinite (flux spectrum))) = false ->
  fit_entry kwargs None spectrum wavelength = Raise outside_finite_range.
Proof.
  intros L Hne Hout. unfold fit_entry, Np.take. cbn [bind].
  rewrite length_map, L, Nat.eqb_refl. cbn [bind].
  destruct (Np.select (disp spectrum) (map Np.isfinite (flux spectrum)))
    as [|first rest]; [congruence|].
  rewrite item_last, item_first. cbn [bind].
  unfold strictly_inside, Np.gt, Np.lt in *.
  destruct (PrimFloat.ltb wavelength (List.last (first :: rest) first));
    destruct (PrimFloat.ltb first wavelength); try reflexivity.
  discriminate Hout.
Qed.

End SolverFacts.

Section RoundExamples.

Import Transitions.
Local Open Scope float_scope.

(** C4 as the claim states it fails for a call on a spectrum without a line:
    the call reaches the loop, the first round cannot estimate a width and
    raises, and no second or third round runs. *)
Lemma refine_ends_in_first_round :
  exists c st,
    prepare Bench.library (Bench.line 5000 []) (Spectrum Bench.flat)
      (Some Bench.stellar) "gaussian" None 2 true None None []
    = Return (c, st)
    /\ round Bench.library c 0 st = Raise cannot_estimate
    /\ refine Bench.library c st = Raise cannot_estimate
    /\ fit_profile Bench.library (Bench.line 5000 []) (Spectrum Bench.flat)
         (Some Bench.stellar) "gaussian" None 2 true None None None false []
       = Raise cannot_estimate.
Proof.
  eexists. eexists.
  split; [vm_compute; reflexivity|].
  repeat split; vm_compute; reflexivity.
Qed.

Lemma refine_runs_three_rounds_witness :
  refine Bench.library Bench.estimated_context Bench.estimated_start
  = Return Bench.estimated_state
  /\ map fst (printed Bench.estimated_state)
     = (map fst (printed Bench.estimated_start) ++ [0; 1; 2])%Z%list.
Proof.
  split; [vm_compute; reflexivity|].
  apply (proj1 (proj2 (refine_runs_three_rounds Bench.library
                         Bench.estimated_context Bench.estimated_start))).
  vm_compute; reflexivity.
Defined.

Lemma no_continuum_order_unit_continuum_witness :
  (forall kk s s',
      round Bench.library Bench.seeded_context kk s = Return s' ->
      coefficients s' = [1])
  /\ coefficients Bench.seeded_state = [1]
  /\ (forall p, In p (ctx_parameters Bench.seeded_context) ->
                startswith p "continuum." = false)
  /\ map (Np.polyval (coefficients Bench.seeded_state))
       (disp (ctx_data Bench.seeded_context))
     = ones (List.length (disp (ctx_data Bench.seeded_context)))
  /\ forall x,
       objective_continuum Bench.seeded_context
         (map (Np.polyval (coefficients Bench.seeded_state))
            (disp (ctx_data Bench.seeded_context)))
         (dict_of (combine (ctx_parameters Bench.seeded_context) x))
       = Return (ones (List.length (disp (ctx_data Bench.seeded_context)))).
Proof.
  apply (no_continuum_order_unit_continuum Bench.library
           (Bench.line 5000 []) (Spectrum Bench.spectrum) (Some Bench.seeded)
           "gaussian" 2 true None None [] Bench.seeded_context
           Bench.seeded_start Bench.seeded_state);
    vm_compute; reflexivity.
Defined.

End RoundExamples.

Section ResultExamples.

Import Transitions.
Local Open Scope float_scope.

Lemma equivalent_width_of_fit_witness :
  fit_profile Bench.library (Bench.line 5000 []) (Spectrum Bench.spectrum)
    (Some Bench.seeded) "gaussian" None 2 true None None None false []
  = Return Bench.fitted
  /\ exists line_depth fwhm optimal_theta info,
       fst Bench.fitted = Theta optimal_theta
       /\ dict_get optimal_theta "line_depth" = Some line_depth
       /\ dict_get optimal_theta "fwhm" = Some fwhm
       /\ equivalent_width (snd Bench.fitted) = Some (width_of line_depth fwhm)
       /\ _profile (snd Bench.fitted) = Some (optimal_theta, info)
       /\ info_equivalent_width info = width_of line_depth fwhm.
Proof.
  assert (H : fit_profile Bench.library (Bench.line 5000 [])
                (Spectrum Bench.spectrum) (Some Bench.seeded) "gaussian" None
                2 true None None None false []
              = Return (fst Bench.fitted, snd Bench.fitted))
    by (vm_compute; reflexivity).
  split; [vm_compute; reflexivity|].
  destruct (equivalent_width_of_fit _ _ _ _ _ _ _ _ _ _ _ _ _ _ _ H)
    as (c & st & p0 & p1 & fopt & ni & nf & wf & info & line_depth & fwhm
        & _ & H1 & H2 & H3 & H4 & H5 & _ & [H6|(oc & orc & H6)]).
  - exists line_depth, fwhm, (dict_of (combine (ctx_parameters c) p1)), info.
    repeat split; assumption.
  - vm_compute in H6. discriminate H6.
Defined.

Lemma unconverged_iterate_is_returned_witness :
  let optimal_theta :=
    dict_of (combine (ctx_parameters Bench.seeded_context) [0.5; 1; 1]) in
  exists oc orc info self',
    fit_profile Bench.library (Bench.line 5000 []) (Spectrum Bench.spectrum)
      (Some Bench.seeded) "gaussian" None 2 true None None None true []
    = Return (Full optimal_theta oc orc info, self')
    /\ info_warnflag info = 2%Z
    /\ _profile self' = Some (optimal_theta, info).
Proof.
  cbv zeta. eexists. eexists.
  eapply (unconverged_iterate_is_returned Bench.library (Bench.line 5000 [])
            (Spectrum Bench.spectrum) (Some Bench.seeded) "gaussian" None 2
            true None None None true [] Bench.seeded_context
            Bench.seeded_start Bench.seeded_state [0.5; 1; 1] [0.5; 1; 1]
            _ 0%Z 1%Z 2%Z);
    vm_compute; reflexivity.
Defined.


Section ClosedForm.

Import Reals Lra Exact.
Local Open Scope R_scope.

Lemma two_pow_44 : powerRZ 2 (-44) = / 17592186044416.
Proof.
  unfold powerRZ. f_equal.
  change (Pos.to_nat 44) with 44%nat.
  rewrite pow_IZR. reflexivity.
Qed.

Lemma real_half : real 0.5 = 1 / 2.
Proof.
  unfold real.
  replace (Prim2SF 0.5) with (S754_finite false 4503599627370496 (-53))
    by (vm_compute; reflexivity).
  unfold powerRZ. change (Pos.to_nat 53) with 53%nat.
  rewrite pow_IZR. change (2 ^ Z.of_nat 53)%Z with 9007199254740992%Z.
  lra.
Qed.

Lemma real_one : real 1 = 1.
Proof.
  unfold real.
  replace (Prim2SF 1) with (S754_finite false 4503599627370496 (-52))
    by (vm_compute; reflexivity).
  unfold powerRZ. change (Pos.to_nat 52) with 52%nat.
  rewrite pow_IZR. change (2 ^ Z.of_nat 52)%Z with 4503599627370496%Z.
  lra.
Qed.

Lemma width_of_half_one : real (width_of 0.5 1) < 400.
Proof.
  unfold real.
  replace (Prim2SF (width_of 0.5 1))
    with (S754_finite false 6620241595979379 (-44))
    by (vm_compute; reflexivity).
  rewrite two_pow_44. lra.
Qed.

Lemma ln_2_bounds : 0 < ln 2 < 1.
Proof.
  split.
  - rewrite <- ln_1. apply ln_increasing; lra.
  - rewrite <- (ln_exp 1). apply ln_increasing; [lra|].
    pose proof (exp_ineq1 1 ltac:(lra)). lra.
Qed.

(** The factor of the closed form is above 0.8, and so well above
    0.752634332. *)
Lemma closed_form_factor : 4 / 5 < sqrt (PI / (4 * ln 2)).
Proof.
  pose proof ln_2_bounds as [L0 L1]. pose proof PI2_3_2 as P.
  rewrite <- (sqrt_square (4 / 5)) by lra.
  apply sqrt_lt_1_alt. split; [lra|].
  apply (Rmult_lt_reg_r (4 * ln 2)); [lra|].
  replace (PI / (4 * ln 2) * (4 * ln 2)) with PI by (field; lra).
  lra.
Qed.

(** C1 as the claim states it fails for the fit of [Bench.fitted], whose
    optimal line depth is 0.5 and whose optimal width is 1: the equivalent
    width that the code stores is below 400 milli-Angstroms, and the closed
    form [line_depth * |fwhm| * sqrt(pi / (4 ln 2))], in the same unit, is
    above 400. *)
Lemma equivalent_width_is_not_the_closed_form :
  fst Bench.fitted
  = Theta [("line_depth", 0.5%float); ("fwhm", 1%float);
           ("blending_fwhm", 1%float)]%string
  /\ equivalent_width (snd Bench.fitted) = Some (width_of 0.5 1)
  /\ real (width_of 0.5 1) < 400
  /\ 400 < 1000 * closed_form (real 0.5) (real 1).
Proof.
  split; [vm_compute; reflexivity|].
  split; [vm_compute; reflexivity|].
  split; [exact width_of_half_one|].
  unfold closed_form. rewrite real_half, real_one.
  rewrite Rabs_R1. pose proof closed_form_factor. lra.
Qed.

End ClosedForm.

Lemma fit_profile_needs_blending_witness :
  is_return
    (fit_profile Bench.library
       (mk_transition 5000 None None None None 0 [] None None None)
       (Spectrum Bench.spectrum)
       (Some [("line_depth", 0.5); ("fwhm", 1)]%string) "gaussian" None 2 true
       None None None false []) = false.
Proof.
  apply fit_profile_needs_blending. reflexivity.
Defined.

Lemma solver_wavelength_outside_finite_range_witness :
  Solvers.fit_entry [] None Bench.spectrum 6000 = Raise Solvers.outside_finite_range.
Proof.
  apply solver_wavelength_outside_finite_range;
    [reflexivity | vm_compute; discriminate | vm_compute; reflexivity].
Defined.

End ResultExamples.

(* ================================================================== *)
(** * The periodic table                                                *)
(* ================================================================== *)

Section TableFacts.

Import Utils Species.

Lemma in_range (n z : Z) : 0 <= z < n -> In z (range n).
Proof.
  intros H. unfold range.
  replace z with (Z.of_nat (Z.to_nat z)) by lia.
  apply in_map, in_seq. lia.
Qed.

(** Every atomic number from 1 to 113 has a symbol, and the symbol has that
    atomic number. *)
Theorem element_then_atomic_number (z : Z) :
  1 <= z <= 113 ->
  exists symbol,
    element (PyInt z) = Return symbol
    /\ atomic_number (PyStr symbol) = Return (PyInt z).
Proof.
  intros H.
  assert (A : forallb
                (fun i =>
                   match element (PyInt (i + 1)) with
                   | Return s =>
                       match atomic_number (PyStr s) with
                       | Return (PyInt z') => (z' =? i + 1)%Z
                       | _ => false
                       end
                   | Raise _ => false
                   end) (range 113) = true)
    by (vm_compute; reflexivity).
  rewrite forallb_forall in A.
  specialize (A (z - 1) (in_range 113 (z - 1) ltac:(lia))).
  replace (z - 1 + 1) with z in A by lia.
  destruct (element (PyInt z)) as [s|]; [|discriminate A].
  exists s. split; [reflexivity|].
  destruct (atomic_number (PyStr s)) as [[| z' | | |]|]; try discriminate A.
  apply Z.eqb_eq in A. now subst.
Qed.

(** [element] takes the atomic numbers from -112 to 113 and no others: a
    number that is zero or negative counts from the end of the table. *)
Theorem element_domain (z : Z) :
  is_return (element (PyInt z)) = ((-112 <=? z) && (z <=? 113))%bool
  /\ (-112 <= z <= 0 -> element (PyInt z) = element (PyInt (z + 113))).
Proof.
  unfold element, py_int. cbn [bind].
  assert (L : List.length periodic_table = 113%nat) by reflexivity.
  split.
  - unfold getitem. rewrite L. change (Z.of_nat 113) with 113.
    destruct (Z.ltb_spec (z - 1) 0);
      [destruct (Z.ltb_spec (z - 1 + 113) 0);
       destruct (Z.leb_spec 113 (z - 1 + 113))
      |destruct (Z.ltb_spec (z - 1) 0); destruct (Z.leb_spec 113 (z - 1))];
      destruct (Z.leb_spec (-112) z); destruct (Z.leb_spec z 113);
      cbn [orb andb is_return]; try lia; try reflexivity;
      match goal with
      | |- context [nth_error ?l ?n] =>
          let E := fresh "E" in
          destruct (nth_error l n) eqn:E;
            [reflexivity | apply nth_error_None in E; rewrite L in E; lia]
      end.
  - intros H. unfold getitem. rewrite L. change (Z.of_nat 113) with 113.
    destruct (Z.ltb_spec (z - 1) 0); [|lia].
    destruct (Z.ltb_spec (z + 113 - 1) 0); [lia|].
    replace (z - 1 + 113) with (z + 113 - 1) by lia.
    reflexivity.
Qed.

Lemma element_domain_witness :
  element (PyInt 0) = element (PyInt 113)
  /\ element (PyInt 113) = Return "UUt"%string.
Proof.
  split; [|reflexivity].
  apply (proj2 (element_domain 0)). lia.
Defined.

Lemma element_then_atomic_number_witness :
  exists symbol,
    element (PyInt 26) = Return symbol
    /\ atomic_number (PyStr symbol) = Return (PyInt 26).
Proof. apply element_then_atomic_number. lia. Defined.

(** Every symbol of the table has an atomic number between 1 and 113 whose
    element it is, and the symbol and the number, as an integer or a float,
    are parsed to the same element, atomic number and ionisation level 1. *)
Theorem symbol_and_number_agree (symbol : string) :
  str_in symbol periodic_table = true ->
  exists z,
    1 <= z <= 113
    /\ atomic_number (PyStr symbol) = Return (PyInt z)
    /\ element (PyInt z) = Return symbol
    /\ identity (_parse_species (PyStr symbol)) = Return (Some (symbol, z, 1))
    /\ identity (_parse_species (PyInt z)) = Return (Some (symbol, z, 1))
    /\ identity (_parse_species (PyFloat (of_Z z)))
       = Return (Some (symbol, z, 1)).
Proof.
  intros H. apply str_in_spec in H.
  pose (same := fun (s : string) (z : Z) (r : result (option (string * Z * Z))) =>
                  match r with
                  | Return (Some (e, a, l)) =>
                      (String.eqb e s && (a =? z) && (l =? 1))%bool
                  | _ => false
                  end).
  assert (S : forall s z r, same s z r = true -> r = Return (Some (s, z, 1))).
  { intros s z [[[[e a] l]|]|]; cbn; try discriminate.
    intros E. apply andb_prop in E as [E E3]. apply andb_prop in E as [E1 E2].
    apply String.eqb_eq in E1. apply Z.eqb_eq in E2, E3. now subst. }
  assert (A : forallb
                (fun s =>
                   match atomic_number (PyStr s) with
                   | Return (PyInt z) =>
                       ((1 <=? z) && (z <=? 113)
                        && match element (PyInt z) with
                           | Return s' => String.eqb s' s
                           | Raise _ => false
                           end
                        && same s z (identity (_parse_species (PyStr s)))
                        && same s z (identity (_parse_species (PyInt z)))
                        && same s z (identity (_parse_species (PyFloat (of_Z z)))))%bool
                   | _ => false
                   end) periodic_table = true)
    by (vm_compute; reflexivity).
  rewrite forallb_forall in A. specialize (A symbol H). cbv beta in A.
  destruct (atomic_number (PyStr symbol)) as [[| z | | |]|]; try discriminate A.
  repeat match type of A with
         | (_ && _)%bool = true => apply andb_prop in A as [A ?]
         end.
  exists z.
  destruct (element (PyInt z)) as [s'|]; [|discriminate].
  match goal with E : String.eqb s' symbol = true |- _ =>
    apply String.eqb_eq in E; subst s' end.
  repeat split; try reflexivity; try lia; now apply S.
Qed.

Lemma symbol_and_number_agree_witness :
  exists z,
    1 <= z <= 113
    /\ atomic_number (PyStr "Ca") = Return (PyInt z)
    /\ element (PyInt z) = Return "Ca"%string
    /\ identity (_parse_species (PyStr "Ca")) = Return (Some ("Ca"%string, z, 1))
    /\ identity (_parse_species (PyInt z)) = Return (Some ("Ca"%string, z, 1))
    /\ identity (_parse_species (PyFloat (of_Z z)))
       = Return (Some ("Ca"%string, z, 1)).
Proof. apply symbol_and_number_agree. reflexivity. Defined.

End TableFacts.

(* ================================================================== *)
(** * Ionisation levels and the printed species                         *)
(* ================================================================== *)

Section PrintingFacts.

Import Utils Species Printing.
Local Open Scope string_scope.

Lemma str_repeat_units (n : Z) : str_repeat "I" n = units (Z.to_nat n).
Proof.
  unfold str_repeat. induction (Z.to_nat n) as [|k IH]; [reflexivity|].
  cbn [repeat]. destruct k as [|k]; [reflexivity|].
  cbn [repeat String.concat units] in *. rewrite IH. reflexivity.
Qed.

Lemma units_upper (n : nat) : upper (units n) = units n.
Proof. induction n as [|n IH]; [reflexivity|]. cbn. now rewrite IH. Qed.

Lemma units_count (n : nat) : count_char (units n) "I" = Z.of_nat n.
Proof.
  induction n as [|n IH]; [reflexivity|].
  cbn [units count_char]. rewrite IH.
  change (Ascii.eqb "I" "I") with true. cbv iota. lia.
Qed.

(** The ionisation level that is printed as [level] letters [I] is read back
    as [level]; a level that is zero or negative is printed as the empty
    string, which is not read back. *)
Theorem printed_level_is_read_back (level : Z) :
  (1 <= level ->
   _parse_ionisation_level (PyStr (str_repeat "I" level)) = Return level)
  /\ (level <= 0 ->
      _parse_ionisation_level (PyStr (str_repeat "I" level))
      = Raise (ValueError "invalid literal for int() with base 10")).
Proof.
  rewrite str_repeat_units. split; intros H.
  - unfold _parse_ionisation_level. rewrite units_upper.
    destruct (Z.to_nat level) as [|k] eqn:E; [lia|].
    assert (C : contains (units (S k)) "I" = true).
    { cbn [units contains String.prefix].
      destruct (ascii_dec "I" "I") as [_|N]; [|congruence].
      destruct (units k); reflexivity. }
    rewrite C, units_count. f_equal. lia.
  - replace (Z.to_nat level) with 0%nat by lia. reflexivity.
Qed.

Lemma printed_level_is_read_back_witness :
  _parse_ionisation_level (PyStr (str_repeat "I" 3)) = Return 3%Z.
Proof. apply (proj1 (printed_level_is_read_back 3)). lia. Defined.

(** ** Strings that [float] does not read *)

Lemma split_sign_letter (c : ascii) (r : string) :
  Ascii.eqb c "-" = false -> Ascii.eqb c "+" = false ->
  split_sign (String c r) = (false, String c r).
Proof.
  destruct c as [[] [] [] [] [] [] [] []]; cbn; intros; try reflexivity;
    discriminate.
Qed.

Lemma lower_char_blank (c : ascii) :
  Ascii.eqb (lower_char c) " " = Ascii.eqb c " ".
Proof. destruct c as [[] [] [] [] [] [] [] []]; reflexivity. Qed.

Lemma prefix_blank (c : ascii) (r : string) :
  String.prefix " " (String c r) = Ascii.eqb c " ".
Proof.
  cbn [String.prefix]. destruct (ascii_dec " " c) as [<-|N].
  - destruct r; reflexivity.
  - symmetry. apply Ascii.eqb_neq. congruence.
Qed.

Lemma contains_blank_lower (s : string) :
  contains (lower s) " " = contains s " ".
Proof.
  induction s as [|c s IH]; [reflexivity|].
  change (lower (String c s)) with (String (lower_char c) (lower s)).
  cbn [contains]. rewrite !prefix_blank, lower_char_blank, IH. reflexivity.
Qed.

Lemma contains_blank_append (a b : string) :
  contains (String.append a (String.append " " b)) " " = true.
Proof.
  induction a as [|c a IH].
  - change (String.append EmptyString (String.append " " b))
      with (String " " b).
    cbn [contains]. rewrite prefix_blank. reflexivity.
  - change (String.append (String c a) (String.append " " b))
      with (String c (String.append a (String.append " " b))).
    cbn [contains]. rewrite IH. apply orb_true_r.
Qed.

Lemma not_special (s t : string) :
  contains s " " = true -> contains t " " = false ->
  String.eqb (lower s) t = false.
Proof.
  intros Hs Ht. destruct (String.eqb_spec (lower s) t) as [E|]; [|reflexivity].
  rewrite <- contains_blank_lower, E in Hs. congruence.
Qed.

Lemma rstrip_ends (a : string) (c : ascii) :
  is_space c = false ->
  rstrip (String.append a (String c EmptyString))
  = String.append a (String c EmptyString).
Proof.
  intros H. induction a as [|x a IH].
  - cbn. now rewrite H.
  - change (String.append (String x a) (String c EmptyString))
      with (String x (String.append a (String c EmptyString))).
    cbn [rstrip]. rewrite IH. destruct a; reflexivity.
Qed.

(** A string that starts with a letter, has a blank inside and does not end
    in white space is not a number for [float]. *)
Lemma float_of_words (c d : ascii) (r : string) :
  let s := String c (String.append r (String d EmptyString)) in
  is_space c = false -> is_digit c = false ->
  Ascii.eqb c "-" = false -> Ascii.eqb c "+" = false ->
  Ascii.eqb c "." = false ->
  is_space d = false ->
  contains s " " = true ->
  float_of_string s = None.
Proof.
  intros s Hs Hd Hm Hp Hdot Hend Hblank.
  unfold float_of_string, strip.
  assert (L : lstrip s = s) by (subst s; cbn [lstrip]; now rewrite Hs).
  rewrite L.
  assert (R : rstrip s = s).
  { subst s. change (String c (String.append r (String d EmptyString)))
      with (String.append (String c r) (String d EmptyString)).
    now apply rstrip_ends. }
  rewrite R. subst s. rewrite (split_sign_letter c _ Hm Hp).
  rewrite !(not_special _ _ Hblank) by reflexivity. cbn [orb].
  set (body := String c (String.append r (String d EmptyString))) in *.
  unfold body at 1. cbn [break].
  destruct (Ascii.eqb (lower_char c) "e").
  - reflexivity.
  - destruct (break (fun c0 => Ascii.eqb (lower_char c0) "e")
                (String.append r (String d EmptyString))) as [m ex].
    cbn [break]. rewrite Hdot.
    destruct (break (fun c0 => Ascii.eqb c0 ".") m) as [ip fp0].
    cbn [digits_value]. rewrite Hd. reflexivity.
Qed.

Lemma units_snoc (n : nat) :
  units (S n) = String.append (units n) (String "I" EmptyString).
Proof. induction n as [|n IH]; [reflexivity|]. cbn in *. now rewrite <- IH. Qed.

Lemma append_assoc (a b c : string) :
  String.append (String.append a b) c = String.append a (String.append b c).
Proof. induction a as [|x a IH]; [reflexivity|]. cbn. now rewrite IH. Qed.

(** The species that [__unicode__] and [__repr__] print, an element of the
    table and an ionisation level of at least 1, such as [Fe II], is not read
    back by [_parse_species]: the call raises the [TypeError] of [int]. *)
Theorem printed_species_is_not_read_back (t : species_tuple) :
  str_in (sp_element t) periodic_table = true ->
  1 <= sp_ionisation_level t ->
  _parse_species (PyStr (species_repr (Some t))) = Raise int_of_exception.
Proof.
  intros Hin Hlevel. unfold species_repr.
  apply blank_is_not_looked_up;
    [apply contains_blank_append|].
  rewrite str_repeat_units.
  destruct (Z.to_nat (sp_ionisation_level t)) as [|n] eqn:E; [lia|].
  rewrite units_snoc.
  assert (A : forallb
                (fun s =>
                   match s with
                   | String c _ =>
                       (negb (is_space c) && negb (is_digit c)
                        && negb (Ascii.eqb c "-") && negb (Ascii.eqb c "+")
                        && negb (Ascii.eqb c "."))%bool
                   | EmptyString => false
                   end) periodic_table = true)
    by (vm_compute; reflexivity).
  rewrite forallb_forall in A. specialize (A _ (str_in_spec _ _ Hin)).
  destruct (sp_element t) as [|c r]; [discriminate A|].
  repeat match type of A with
         | (_ && _)%bool = true => apply andb_prop in A as [A ?]
         end.
  repeat match goal with
         | H : negb _ = true |- _ => apply negb_true_iff in H
         end.
  rewrite <- !append_assoc.
  change (String.append
            (String.append (String.append (String c r) " ") (units n))
            (String "I" EmptyString))
    with (String c
            (String.append (String.append (String.append r " ") (units n))
               (String "I" EmptyString))).
  apply float_of_words; try assumption; try reflexivity.
  change (String c
            (String.append (String.append (String.append r " ") (units n))
               (String "I" EmptyString)))
    with (String.append (String.append (String.append (String c r) " ") (units n))
            (String "I" EmptyString)).
  rewrite !append_assoc. apply contains_blank_append.
Qed.

Lemma printed_species_is_not_read_back_witness :
  _parse_species (PyStr (species_repr (Some (mk_species "Fe" 26 2 26.1))))
  = Raise int_of_exception.
Proof.
  apply printed_species_is_not_read_back; [reflexivity | cbn; lia].
Defined.

End PrintingFacts.

(* ================================================================== *)
(** * [unpack_atomic_transition]                                        *)
(* ================================================================== *)

Section LinesFacts.

Import Lines.
Local Open Scope string_scope.

(** The four defaults are there whatever the keyword arguments are. *)
Lemma default_present (defaults : dict float) (k : string) :
  In k (keys builtin_defaults) ->
  exists v, dict_item (dict_update builtin_defaults defaults) k = Return v.
Proof.
  intros H.
  assert (M : dict_mem (dict_update builtin_defaults defaults) k = true).
  { apply dict_mem_keys, keys_dict_update. now left. }
  apply dict_item_mem in M as (v & -> & _). eauto.
Qed.

Ltac with_defaults defaults :=
  let v := fresh "v" in let E := fresh "E" in
  destruct (default_present defaults "van_der_waals_broadening")
    as [v E]; [cbn; tauto|]; rewrite E; clear E;
  let v := fresh "v" in let E := fresh "E" in
  destruct (default_present defaults "damp2")
    as [v E]; [cbn; tauto|]; rewrite E; clear E;
  let v := fresh "v" in let E := fresh "E" in
  destruct (default_present defaults "opacity_contribution")
    as [v E]; [cbn; tauto|]; rewrite E; clear E;
  let v := fresh "v" in let E := fresh "E" in
  destruct (default_present defaults "synthesise_surrounding")
    as [v E]; [cbn; tauto|]; rewrite E; clear E;
  cbn [bind].

(** A list or tuple with fewer than four entries cannot be unpacked. *)
Theorem unpack_short_sequence (l : list float) (defaults : dict float) :
  (List.length l < 4)%nat ->
  unpack_atomic_transition (TSeq l) defaults
  = Raise (ValueError "need more than this many values to unpack").
Proof.
  intros H. unfold unpack_atomic_transition. with_defaults defaults.
  destruct l as [|a [|b [|c [|d l]]]]; cbn in H; try lia; reflexivity.
Qed.

Lemma unpack_short_sequence_witness :
  unpack_atomic_transition (TSeq [4720.1489; 26.1; 3.197]%float) []
  = Raise (ValueError "need more than this many values to unpack").
Proof. apply unpack_short_sequence. cbn. lia. Defined.

(** A list or tuple with at least four entries is unpacked; its opacity
    contribution is the default whatever the list holds, and from eight
    entries on its eighth entry is taken as [synthesise_surrounding], the
    seventh being dropped. *)
Theorem unpack_sequence (l : list float) (defaults : dict float) :
  (4 <= List.length l)%nat ->
  exists t opacity,
    unpack_atomic_transition (TSeq l) defaults = Return t
    /\ dict_item (dict_update builtin_defaults defaults) "opacity_contribution"
       = Return opacity
    /\ u_opacity_contribution t = opacity
    /\ u_wavelength t = nth 0 l 0%float
    /\ u_species t = nth 1 l 0%float
    /\ u_excitation_potential t = nth 2 l 0%float
    /\ u_loggf t = nth 3 l 0%float
    /\ ((8 <= List.length l)%nat ->
        u_synthesise_surrounding t = nth 7 l 0%float).
Proof.
  intros H. unfold unpack_atomic_transition. with_defaults defaults.
  destruct l as [|a [|b [|c [|d l]]]]; cbn in H; try lia.
  cbn [first_four firstn bind].
  eexists _, _. split; [reflexivity|]. split; [reflexivity|].
  cbn [u_opacity_contribution u_wavelength u_species u_excitation_potential
       u_loggf u_synthesise_surrounding nth].
  repeat split.
  intros H8. unfold entry_or.
  destruct (Nat.ltb_spec 7 (List.length (a :: b :: c :: d :: l)));
    [|cbn in *; lia].
  cbn [nth]. apply nth_indep. cbn in *. lia.
Qed.

Lemma unpack_sequence_witness :
  exists t opacity,
    unpack_atomic_transition
      (TSeq [4720.1489; 26.1; 3.197; -4.48; 0; 0; 1.5; 0.25]%float) []
    = Return t
    /\ dict_item (dict_update builtin_defaults []) "opacity_contribution"
       = Return opacity
    /\ u_opacity_contribution t = opacity
    /\ u_wavelength t = 4720.1489%float
    /\ u_species t = 26.1%float
    /\ u_excitation_potential t = 3.197%float
    /\ u_loggf t = (-4.48)%float
    /\ ((8 <= 8)%nat -> u_synthesise_surrounding t = 0.25%float).
Proof.
  apply (unpack_sequence
           [4720.1489; 26.1; 3.197; -4.48; 0; 0; 1.5; 0.25]%float []).
  cbn. lia.
Defined.

(** A list or tuple of four to seven entries and the dictionary that holds
    the same entries under their names unpack to the same tuple. *)
Theorem unpack_sequence_as_dictionary (l : list float) (defaults : dict float) :
  (4 <= List.length l <= 7)%nat ->
  unpack_atomic_transition (TDict (dict_of (combine entry_names l))) defaults
  = unpack_atomic_transition (TSeq l) defaults.
Proof.
  intros H. unfold unpack_atomic_transition. with_defaults defaults.
  destruct l as [|a [|b [|c [|d l]]]]; cbn in H; try lia.
  destruct l as [|e [|f [|g [|h l]]]]; cbn in H; try lia; reflexivity.
Qed.

Lemma unpack_sequence_as_dictionary_witness :
  unpack_atomic_transition
    (TDict (dict_of (combine entry_names [4731.4531; 26.1; 2.891; -3.1]%float)))
    []
  = unpack_atomic_transition (TSeq [4731.4531; 26.1; 2.891; -3.1]%float) [].
Proof. apply unpack_sequence_as_dictionary. cbn. lia. Defined.

(** A dictionary without one of the four required keys raises [KeyError]. *)
Theorem unpack_dictionary_needs_keys (d : dict float) (defaults : dict float) :
  forallb (dict_mem d) ["wavelength"; "species"; "excitation_potential"; "loggf"]
  = false ->
  exists k,
    In k ["wavelength"; "species"; "excitation_potential"; "loggf"]
    /\ dict_mem d k = false
    /\ unpack_atomic_transition (TDict d) defaults = Raise (KeyError k).
Proof.
  intros H. unfold unpack_atomic_transition. with_defaults defaults.
  cbn [forallb] in H. unfold dict_item, dict_mem in *.
  destruct (dict_get d "wavelength") eqn:E1;
    [|exists "wavelength"; rewrite E1; cbn; auto].
  destruct (dict_get d "species") eqn:E2;
    [|exists "species"; rewrite E2; cbn; auto].
  destruct (dict_get d "excitation_potential") eqn:E3;
    [|exists "excitation_potential"; rewrite E3; cbn; auto 6].
  destruct (dict_get d "loggf") eqn:E4;
    [discriminate H|exists "loggf"; rewrite E4; cbn; auto 6].
Qed.

Lemma unpack_dictionary_needs_keys_witness :
  exists k,
    In k ["wavelength"; "species"; "excitation_potential"; "loggf"]
    /\ dict_mem [("wavelength", 4720.1489%float); ("species", 26.1%float)] k
       = false
    /\ unpack_atomic_transition
         (TDict [("wavelength", 4720.1489%float); ("species", 26.1%float)]) []
       = Raise (KeyError k).
Proof. apply unpack_dictionary_needs_keys. reflexivity. Defined.

End LinesFacts.

(* ================================================================== *)
(** * [update_recursively]                                              *)
(* ================================================================== *)

Section NestedFacts.

Import Nested.
Local Open Scope string_scope.
Local Open Scope list_scope.

Context {A : Type}.

Lemma dict_get_set {V : Type} (d : dict V) (k : string) (v : V) (k' : string) :
  dict_get (dict_set d k v) k'
  = if String.eqb k' k then Some v else dict_get d k'.
Proof.
  induction d as [|[k0 v0] d IH]; cbn.
  - reflexivity.
  - destruct (String.eqb_spec k k0) as [->|N]; cbn.
    + destruct (String.eqb_spec k' k0); reflexivity.
    + rewrite IH. destruct (String.eqb_spec k' k0) as [->|]; [|reflexivity].
      destruct (String.eqb_spec k0 k); [congruence|reflexivity].
Qed.

Lemma keys_set {V : Type} (d : dict V) (k : string) (v : V) :
  keys (dict_set d k v) = if dict_mem d k then keys d else keys d ++ [k].
Proof.
  unfold dict_mem, keys. induction d as [|[k0 v0] d IH]; cbn.
  - reflexivity.
  - destruct (String.eqb_spec k k0) as [->|N]; cbn; [reflexivity|].
    rewrite IH. destruct (dict_get d k); reflexivity.
Qed.

Lemma dict_get_none_keys {V : Type} (d : dict V) (k : string) :
  ~ In k (keys d) -> dict_get d k = None.
Proof.
  intros H. destruct (dict_get d k) eqn:E; [|reflexivity].
  exfalso. apply H. apply dict_get_in_keys in E. exact E.
Qed.

(** The value stored for a mapping over a mapping is the recursive call. *)
Lemma merged_mappings (new original : dict (value A)) :
  merged (Mapping new) (Some (Mapping original))
  = Mapping (update_recursively original new).
Proof.
  cbn. f_equal. revert original.
  induction new as [|[k v] new IH]; intros original; cbn; [reflexivity|].
  apply IH.
Qed.

Lemma update_recursively_get (original new : dict (value A)) (k : string) :
  NoDup (keys new) ->
  dict_get (update_recursively original new) k
  = match dict_get new k with
    | None => dict_get original k
    | Some v => Some (merged v (dict_get original k))
    end.
Proof.
  revert original. induction new as [|[k0 v0] new IH]; intros original D.
  - reflexivity.
  - cbn [update_recursively dict_get]. inversion D as [|? ? N D']; subst.
    rewrite (IH _ D'), dict_get_set.
    destruct (String.eqb_spec k k0) as [->|_]; [|reflexivity].
    rewrite (dict_get_none_keys new k0 N). reflexivity.
Qed.

(** What [update_recursively] leaves under a key: the value of [original]
    for a key that [new] does not have; the value of [new] when it is not a
    mapping, or when [original] has no mapping there; the recursive update of
    the two mappings otherwise. *)
Theorem update_recursively_lookup (original new : dict (value A)) (k : string) :
  NoDup (keys new) ->
  dict_get (update_recursively original new) k
  = match dict_get new k with
    | None => dict_get original k
    | Some (Leaf a) => Some (Leaf a)
    | Some (Mapping n) =>
        match dict_get original k with
        | Some (Mapping o) => Some (Mapping (update_recursively o n))
        | _ => Some (Mapping n)
        end
    end.
Proof.
  intros D. rewrite (update_recursively_get _ _ _ D).
  destruct (dict_get new k) as [[a|n]|]; [reflexivity| |reflexivity].
  destruct (dict_get original k) as [[a|o]|]; try reflexivity.
  now rewrite merged_mappings.
Qed.

(** In the list that stands for the dictionary, a key that [original] lacks
    is put after the keys it has.  (A dictionary of the source has no order
    of its own: the statements about it are on its keys and its size.) *)
Lemma keys_of_update (original new : dict (value A)) :
  NoDup (keys new) ->
  keys (update_recursively original new)
  = keys original
    ++ filter (fun k => negb (dict_mem original k)) (keys new).
Proof.
  revert original. induction new as [|[k0 v0] new IH]; intros original D.
  - cbn. now rewrite app_nil_r.
  - cbn [update_recursively]. inversion D as [|? ? N D']; subst.
    rewrite (IH _ D'), keys_set. cbn [keys map fst filter].
    assert (F : forall v,
      filter (fun k => negb (dict_mem (dict_set original k0 v) k)) (keys new)
      = filter (fun k => negb (dict_mem original k)) (keys new)).
    { intros v. apply filter_ext_in. intros k Hk. unfold dict_mem.
      rewrite dict_get_set.
      destruct (String.eqb_spec k k0) as [->|]; [contradiction|reflexivity]. }
    rewrite F. fold (keys new).
    destruct (dict_mem original k0); cbn [negb]; [reflexivity|].
    now rewrite <- app_assoc.
Qed.

Lemma distinct_append (l m : list string) :
  NoDup l -> NoDup m -> (forall k, In k m -> ~ In k l) -> NoDup (l ++ m).
Proof.
  intros Dl Dm O. induction Dl as [|x l N Dl IH]; cbn; [exact Dm|].
  constructor.
  - intros I. apply in_app_or in I as [I|I]; [contradiction|].
    apply (O x I). now left.
  - apply IH. intros k Hk I. apply (O k Hk). now right.
Qed.

(** [update_recursively] removes no key and adds those of [new]: the result
    has a key exactly when [original] or [new] has it, it has every key once,
    and its size is that of [original] plus the number of keys of [new] that
    [original] lacks.  Nothing is said of the order of the keys. *)
Theorem update_recursively_keys (original new : dict (value A)) :
  NoDup (keys original) ->
  NoDup (keys new) ->
  (forall k,
     dict_mem (update_recursively original new) k
     = (dict_mem original k || dict_mem new k)%bool)
  /\ NoDup (keys (update_recursively original new))
  /\ List.length (update_recursively original new)
     = (List.length original
        + List.length
            (filter (fun k => negb (dict_mem original k)) (keys new)))%nat.
Proof.
  intros Do Dn. pose proof (keys_of_update original new Dn) as K.
  split; [|split].
  - intros k. apply Bool.eq_iff_eq_true.
    rewrite orb_true_iff, !dict_mem_keys, K, in_app_iff, filter_In.
    split.
    + intros [H|[H _]]; auto.
    + intros [H|H]; [now left|].
      destruct (dict_mem original k) eqn:E.
      * left. now apply dict_mem_keys.
      * right. split; [exact H|reflexivity].
  - rewrite K. apply distinct_append; [exact Do| |].
    + now apply NoDup_filter.
    + intros k Hk I. apply filter_In in Hk as [_ Hk].
      apply dict_mem_keys in I. rewrite I in Hk. discriminate.
  - assert (L : forall d : dict (value A),
              List.length d = List.length (keys d)).
    { intros d. unfold keys. now rewrite length_map. }
    rewrite (L (update_recursively original new)), K, length_app, <- L.
    reflexivity.
Qed.

End NestedFacts.

Section NestedExamples.

Import Nested Samples.
Local Open Scope string_scope.

Lemma changes_have_distinct_keys : NoDup (keys changes).
Proof.
  repeat constructor; cbn; intuition discriminate.
Defined.

Lemma update_recursively_lookup_witness :
  dict_get (update_recursively settings changes) "solver"
  = Some (Mapping [("maxiter", Leaf 500); ("xtol", Leaf 1)]).
Proof.
  exact (update_recursively_lookup settings changes "solver"
           changes_have_distinct_keys).
Defined.

Lemma settings_have_distinct_keys : NoDup (keys settings).
Proof.
  repeat constructor; cbn; intuition discriminate.
Defined.

Lemma update_recursively_keys_witness :
  (forall k,
     dict_mem (update_recursively settings changes) k
     = (dict_mem settings k || dict_mem changes k)%bool)
  /\ NoDup (keys (update_recursively settings changes))
  /\ List.length (update_recursively settings changes) = 3%nat.
Proof.
  exact (update_recursively_keys settings changes settings_have_distinct_keys
           changes_have_distinct_keys).
Defined.

End NestedExamples.

(* ================================================================== *)
(** * [latexify]                                                        *)
(* ================================================================== *)

Section LabelsFacts.

Import Labels.
Local Open Scope string_scope.

Lemma dict_get_update {V : Type} (pairs : list (string * V)) (d : dict V)
    (k : string) :
  NoDup (keys pairs) ->
  dict_get (dict_update d pairs) k
  = match dict_get pairs k with
    | Some v => Some v
    | None => dict_get d k
    end.
Proof.
  revert d. induction pairs as [|[k0 v0] pairs IH]; intros d D.
  - reflexivity.
  - change (dict_update d ((k0, v0) :: pairs))
      with (dict_update (dict_set d k0 v0) pairs).
    inversion D as [|? ? N D']; subst.
    rewrite (IH _ D'), dict_get_set. cbn [dict_get].
    destruct (String.eqb_spec k k0) as [->|_]; [|reflexivity].
    now rewrite (dict_get_none_keys pairs k0 N).
Qed.

Lemma mapM_return {X Y : Type} (f : X -> result Y) (g : X -> Y) (l : list X) :
  (forall x, In x l -> f x = Return (g x)) ->
  mapM f l = Return (map g l).
Proof.
  induction l as [|x l IH]; intros H; cbn; [reflexivity|].
  rewrite (H x (or_introl eq_refl)), IH; [reflexivity|].
  intros y Hy. apply H. now right.
Qed.

(** On labels that do not start with [doppler_sigma_], [latexify] returns,
    for one label and for a list alike: the label of [default_latex_labels]
    where it has one, else the common label, else the label itself. *)
Theorem latexify_plain_labels (ls : list string) (d : dict string) :
  NoDup (keys d) ->
  forallb (fun label => negb (startswith label "doppler_sigma_")) ls = true ->
  latexify (Many ls) (Some d) = Return (Many (map (plain_label d) ls))
  /\ forall label, In label ls ->
       latexify (One label) (Some d) = Return (One (plain_label d label)).
Proof.
  intros D H. rewrite forallb_forall in H.
  assert (L : forall label, In label ls ->
            latex_label (dict_update common_labels d) label
            = Return (plain_label d label)).
  { intros label Hl. unfold latex_label.
    destruct (startswith label "doppler_sigma_") eqn:E.
    - apply H in Hl. rewrite E in Hl. discriminate.
    - unfold plain_label, dict_get_default. rewrite (dict_get_update _ _ _ D).
      destruct (dict_get d label); reflexivity. }
  split.
  - unfold latexify. rewrite (mapM_return _ _ _ L). reflexivity.
  - intros label Hl. unfold latexify. rewrite (L _ Hl). reflexivity.
Qed.

End LabelsFacts.

(* ================================================================== *)
(** * [reflect_about]                                                   *)
(* ================================================================== *)

Section ArraysFacts.

Import Arrays.
Local Open Scope float_scope.

(** [reflect_about] keeps the length of the array and changes no entry that
    is within the limits; an entry that is NaN is never changed. *)
Theorem reflect_about_within (a : list float)
    (limits : option float * option float) (i : nat) (x : float) :
  nth_error a i = Some x ->
  within limits x = true ->
  List.length (reflect_about a limits) = List.length a
  /\ nth_error (reflect_about a limits) i = Some x.
Proof.
  destruct limits as [lower upper]. unfold within, reflect_about.
  cbn [fst snd]. intros Hx W. apply andb_prop in W as [Wl Wu].
  split.
  - destruct lower, upper; now rewrite ?length_map.
  - destruct lower as [lower|], upper as [upper|];
      rewrite ?nth_error_map, ?Hx; cbn [option_map];
      try (apply negb_true_iff in Wl; rewrite Wl);
      try (apply negb_true_iff in Wu; rewrite Wu); reflexivity.
Qed.

End ArraysFacts.

(* ================================================================== *)
(** * [_moog_identifier]                                                *)
(* ================================================================== *)

Section AtmosphereFacts.

Import Utils Atmospheres.
Local Open Scope string_scope.

Lemma endswith_append (p t : string) : endswith (String.append p t) t = true.
Proof.
  induction p as [|c p IH]; cbn [String.append].
  - destruct t; cbn [endswith]; now rewrite String.eqb_refl.
  - cbn [endswith]. rewrite IH. apply orb_true_r.
Qed.

Lemma endswith_split (s t : string) :
  endswith s t = true -> exists p, s = String.append p t.
Proof.
  induction s as [|c s IH]; cbn [endswith]; intros H.
  - rewrite orb_false_r in H. apply String.eqb_eq in H. subst.
    now exists EmptyString.
  - apply orb_true_iff in H as [H|H].
    + apply String.eqb_eq in H. subst. now exists EmptyString.
    + destruct (IH H) as [p ->]. now exists (String c p).
Qed.

Lemma lower_append (a b : string) :
  lower (String.append a b) = String.append (lower a) (lower b).
Proof.
  unfold lower. induction a as [|c a IH]; cbn; [reflexivity|]. now rewrite IH.
Qed.

Lemma lower_split (s p t : string) :
  lower s = String.append p t ->
  exists a b, s = String.append a b /\ lower a = p /\ lower b = t.
Proof.
  unfold lower. revert s. induction p as [|c p IH]; intros s H.
  - now exists EmptyString, s.
  - destruct s as [|c' s]; [discriminate|]. cbn in H.
    injection H as Hc H. destruct (IH _ H) as (a & b & -> & <- & <-).
    exists (String c' a), b. cbn. now rewrite Hc.
Qed.

(** [_moog_identifier] accepts a first argument that is a string exactly
    when the string ends in [.moog], read without regard to case; the other
    arguments do not matter. *)
Theorem moog_identifier_accepts (s : string) (rest : list pyval) :
  (forall stem suffix,
     s = String.append stem suffix -> lower suffix = ".moog" ->
     _moog_identifier (PyStr s :: rest) = Return true)
  /\ (_moog_identifier (PyStr s :: rest) = Return true ->
      exists stem suffix, s = String.append stem suffix /\ lower suffix = ".moog").
Proof.
  unfold _moog_identifier. cbn [bind]. split.
  - intros stem suffix -> E. rewrite lower_append, E, endswith_append.
    reflexivity.
  - intros H. injection H as H. apply endswith_split in H as [p H].
    apply lower_split in H as (a & b & -> & _ & E). now exists a, b.
Qed.

End AtmosphereFacts.

Section CoverageExamples.

Import Utils Labels Arrays Atmospheres.
Local Open Scope string_scope.

Lemma latexify_plain_labels_witness :
  latexify (Many ["teff"; "logg"; "vsini"]) (Some [("logg", "log g")])
  = Return (Many ["$T_{\rm eff}$ (K)"; "log g"; "vsini"])
  /\ forall label, In label ["teff"; "logg"; "vsini"] ->
       latexify (One label) (Some [("logg", "log g")])
       = Return (One (plain_label [("logg", "log g")] label)).
Proof.
  apply (latexify_plain_labels ["teff"; "logg"; "vsini"] [("logg", "log g")]).
  - repeat constructor; cbn; intuition discriminate.
  - reflexivity.
Defined.

Lemma reflect_about_within_witness :
  List.length (reflect_about [0.5; 3; nan]%float (Some 1, Some 2)%float) = 3%nat
  /\ nth_error (reflect_about [0.5; 3; nan]%float (Some 1, Some 2)%float) 2
     = Some nan.
Proof.
  apply (reflect_about_within [0.5; 3; nan]%float (Some 1, Some 2)%float 2 nan);
    reflexivity.
Defined.

End CoverageExamples.

(* ================================================================== *)
(** * [fit_profile]: the initial values                                 *)
(* ================================================================== *)

Section InitialFacts.

Import Transitions.
Local Open Scope float_scope.
Local Open Scope string_scope.

Variable lib : library.

Variables (self : AtomicTransition) (data : pyobj) (kind : string)
  (continuum_order : option Z) (surrounding : float)
  (detect_nearby_lines : bool) (constrain_parameters : option (dict bounds))
  (synthesise_kwargs : option (dict float))
  (optimise_kwargs : option (dict kwval)) (full_output : bool)
  (kwargs : dict float).

(** A transition with blending transitions needs the four stellar parameters
    in [initial_theta]: without one of them a call whose arguments pass the
    checks raises [KeyError], before any spectrum is cut or synthesised. *)
Theorem fit_profile_needs_stellar_parameters
    (initial_theta : option (dict float)) (checked : Spectrum1D * string) :
  check_arguments self data kind continuum_order surrounding = Return checked ->
  has_blending self = true ->
  forallb (dict_mem (match initial_theta with Some t => t | None => [] end))
    stellar_parameter_keys = false ->
  fit_profile lib self data initial_theta kind continuum_order surrounding
    detect_nearby_lines constrain_parameters synthesise_kwargs optimise_kwargs
    full_output kwargs
  = Raise (KeyError "stellar parameters are required for synthesis because this transition has blending transitions").
Proof.
  intros C B S. unfold check_arguments in C. returned C.
  unfold fit_profile, prepare.
  repeat (cbn [bind check_data];
          match goal with E : _ = Return _ |- _ => rewrite E; clear E end).
  cbn [bind]. unfold check_stellar_parameters. rewrite B, S. reflexivity.
Qed.

Lemma continuum_step_unbound (c : fit_context) (st st' : loop_state) :
  continuum_step lib c st = Return st' -> caw st' = caw st.
Proof. unfold continuum_step. intros H. framed. Qed.

Lemma missing_spec (parameters : list string) (theta0 : dict float)
    (p : string) :
  str_in p (missing_of parameters theta0)
  = (str_in p parameters && negb (dict_mem theta0 p))%bool.
Proof.
  unfold missing_of, str_in. induction parameters as [|q ps IH]; [reflexivity|].
  cbn [filter existsb].
  destruct (String.eqb_spec p q) as [->|N].
  - destruct (dict_mem theta0 q); cbn [negb existsb].
    + rewrite IH. destruct (existsb (String.eqb q) ps); reflexivity.
    + now rewrite String.eqb_refl.
  - cbn [orb]. destruct (dict_mem theta0 q); cbn [negb existsb]; [exact IH|].
    destruct (String.eqb_spec p q); [contradiction|exact IH].
Qed.

(** With a line depth and without a full width at half maximum in
    [initial_theta], a call that reaches the rounds never returns: the first
    round raises in its continuum step, or else it reads
    [continuum_at_wavelength], which only the estimate of the line depth
    assigns. *)
Theorem line_depth_without_fwhm_is_unbound
    (theta0 : dict float) (c : fit_context) (st : loop_state) :
  dict_mem theta0 "line_depth" = true ->
  dict_mem theta0 "fwhm" = false ->
  prepare lib self data (Some theta0) kind continuum_order surrounding
    detect_nearby_lines constrain_parameters synthesise_kwargs kwargs
  = Return (c, st) ->
  fit_profile lib self data (Some theta0) kind continuum_order surrounding
    detect_nearby_lines constrain_parameters synthesise_kwargs optimise_kwargs
    full_output kwargs
  = match continuum_step lib c (print st 0) with
    | Return _ => Raise (UnboundLocalError "continuum_at_wavelength")
    | Raise e => Raise e
    end.
Proof.
  intros D F P. unfold fit_profile. rewrite P. cbn [bind].
  assert (M : ctx_missing c
              = missing_of (ctx_parameters c) theta0 /\ caw st = None).
  { unfold prepare in P. returned P. cbn. auto. }
  destruct M as [M U].
  destruct (prepare_returned lib _ _ _ _ _ _ _ _ _ _ _ _ P) as (_ & _ & _ & Ps).
  rewrite (refine_unfold lib c). unfold round at 1.
  destruct (continuum_step lib c (print st 0)) as [st1|e] eqn:E; [|reflexivity].
  apply continuum_step_unbound in E. cbn [print caw] in E. cbn [bind].
  unfold line_depth_step, fwhm_step.
  rewrite M, !missing_spec, D, F, Ps. cbn [negb andb].
  rewrite andb_false_r.
  replace (str_in "fwhm" (build_parameters self "gaussian" continuum_order
                            (ctx_constrain c))) with true by reflexivity.
  cbv beta iota delta [bind andb]. rewrite E, U. reflexivity.
Qed.

Lemma dict_get_update_other {V : Type} (pairs : list (string * V))
    (d : dict V) (k : string) :
  ~ In k (keys pairs) -> dict_get (dict_update d pairs) k = dict_get d k.
Proof.
  revert d. induction pairs as [|[k0 v0] pairs IH]; intros d N; [reflexivity|].
  change (dict_update d ((k0, v0) :: pairs))
    with (dict_update (dict_set d k0 v0) pairs).
  rewrite IH, dict_get_set.
  - destruct (String.eqb_spec k k0) as [->|]; [|reflexivity].
    exfalso. apply N. now left.
  - intros H. apply N. now right.
Qed.

Lemma keys_combine {V : Type} (names : list string) (values : list V)
    (k : string) :
  In k (keys (combine names values)) -> In k names.
Proof.
  unfold keys. intros H. apply in_map_iff in H as ([k' v] & <- & H).
  now apply in_combine_l in H.
Qed.

Lemma continuum_names_not_wavelength (n : Z) :
  ~ In "wavelength" (continuum_names n).
Proof.
  unfold continuum_names. intros H.
  apply in_map_iff in H as (i & H & _). discriminate H.
Qed.

Lemma seed_theta_centred (parameters : list string) (theta0 : dict float) :
  dict_get (seed_theta self parameters theta0) "wavelength"
  = Some (wavelength self).
Proof.
  unfold seed_theta.
  assert (G : forall t : dict float,
            dict_get t "wavelength" = Some (wavelength self) ->
            dict_get
              (fold_left
                 (fun theta p =>
                    match dict_get theta0 p with
                    | Some v => dict_setdefault theta p v
                    | None => theta
                    end) parameters t) "wavelength"
            = Some (wavelength self)).
  { induction parameters as [|p ps IH]; intros t Ht; [exact Ht|].
    cbn [fold_left]. apply IH.
    destruct (dict_get theta0 p) as [v|]; [|exact Ht].
    unfold dict_setdefault, dict_mem.
    destruct (dict_get t p) eqn:E; [exact Ht|].
    rewrite dict_get_set.
    destruct (String.eqb_spec "wavelength" p) as [<-|]; [congruence|exact Ht]. }
  apply G. reflexivity.
Qed.

Lemma continuum_update_centred (w : float) (t : dict float) (n : Z)
    (coefficients : list float) :
  dict_get t "wavelength" = Some w ->
  dict_get (dict_update t (combine (continuum_names n) coefficients))
    "wavelength" = Some w.
Proof.
  intros H. rewrite dict_get_update_other; [exact H|].
  intros K. apply keys_combine in K.
  exact (continuum_names_not_wavelength n K).
Qed.

Ltac stepped W :=
  repeat match goal with
         | H : _ = Return _ |- _ => progress (returned H)
         end;
  repeat match goal with
         | |- context [if ?b then _ else _] => destruct b
         end;
  cbn [theta with_theta with_coefficients with_iterate write_mask alias_mask
       with_caw rebind_finite];
  try exact W;
  try (apply continuum_update_centred; exact W);
  try (rewrite dict_get_set; exact W).

Lemma continuum_step_centred (w : float) (c : fit_context)
    (st st' : loop_state) :
  dict_get (theta st) "wavelength" = Some w -> continuum_step lib c st = Return st' -> dict_get (theta st') "wavelength" = Some w.
Proof.
  unfold continuum_step. intros W H. stepped W.
Qed.

Lemma line_depth_step_centred (w : float) (c : fit_context)
    (st st' : loop_state) :
  dict_get (theta st) "wavelength" = Some w -> line_depth_step c st = Return st' -> dict_get (theta st') "wavelength" = Some w.
Proof.
  unfold line_depth_step, dict_pop. intros W H. stepped W.
Qed.

Lemma fwhm_step_centred (w : float) (c : fit_context) (st st' : loop_state) :
  dict_get (theta st) "wavelength" = Some w -> fwhm_step c st = Return st' -> dict_get (theta st') "wavelength" = Some w.
Proof.
  unfold fwhm_step. intros W H. stepped W.
Qed.

Lemma blending_fwhm_step_centred (w : float) (c : fit_context)
    (st st' : loop_state) :
  dict_get (theta st) "wavelength" = Some w -> blending_fwhm_step c st = Return st' -> dict_get (theta st') "wavelength" = Some w.
Proof.
  unfold blending_fwhm_step. intros W H. stepped W.
Qed.

Lemma outlier_step_centred (w : float) (c : fit_context)
    (st st' : loop_state) :
  dict_get (theta st) "wavelength" = Some w -> outlier_step lib c st = Return st' -> dict_get (theta st') "wavelength" = Some w.
Proof.
  unfold outlier_step. intros W H. stepped W.
Qed.

Lemma round_centred (w : float) (c : fit_context) (kk : Z)
    (st st' : loop_state) :
  dict_get (theta st) "wavelength" = Some w -> round lib c kk st = Return st' -> dict_get (theta st') "wavelength" = Some w.
Proof.
  unfold round. intros W H. returned H.
  eapply outlier_step_centred; [|eassumption].
  eapply blending_fwhm_step_centred; [|eassumption].
  eapply fwhm_step_centred; [|eassumption].
  eapply line_depth_step_centred; [|eassumption].
  eapply continuum_step_centred; [|eassumption].
  exact W.
Qed.

(** The vector read from [theta] along the parameters, packed with the
    parameters again, has the entries of [theta]. *)
Lemma packed_lookup (t : dict float) (parameters : list string) (k : string) :
  forall (x : list float) (d : dict float),
    mapM (dict_item t) parameters = Return x ->
    In k parameters ->
    dict_get (dict_update d (combine parameters x)) k = dict_get t k.
Proof.
  induction parameters as [|p ps IH]; intros x d H K; [destruct K|].
  cbn [mapM] in H. returned H. cbn [combine].
  change (dict_update d ((p, a) :: combine ps a0))
    with (dict_update (dict_set d p a) (combine ps a0)).
  destruct (in_dec string_dec k ps) as [I|N].
  - now apply IH.
  - destruct K as [->|K]; [|contradiction].
    rewrite dict_get_update_other, dict_get_set, String.eqb_refl.
    + unfold dict_item in E. destruct (dict_get t k); congruence.
    + intros I. apply N. eapply keys_combine; eassumption.
Qed.

(** The fit starts at the wavelength of the transition: after the rounds
    [theta] holds it under [wavelength], whatever [initial_theta] gave there,
    and the seed vector has it where the wavelength is a parameter. *)
Theorem fit_starts_at_the_transition_wavelength
    (initial_theta : option (dict float)) (c : fit_context)
    (st st' : loop_state) :
  prepare lib self data initial_theta kind continuum_order surrounding
    detect_nearby_lines constrain_parameters synthesise_kwargs kwargs
  = Return (c, st) ->
  refine lib c st = Return st' ->
  dict_get (theta st') "wavelength" = Some (wavelength self)
  /\ forall p0,
       seed lib c st' = Return p0 ->
       In "wavelength" (ctx_parameters c) ->
       dict_get (dict_of (combine (ctx_parameters c) p0)) "wavelength"
       = Some (wavelength self).
Proof.
  intros P R.
  assert (W0 : dict_get (theta st) "wavelength" = Some (wavelength self)).
  { unfold prepare in P. returned P. apply seed_theta_centred. }
  assert (W : dict_get (theta st') "wavelength" = Some (wavelength self)).
  { rewrite (refine_unfold lib c) in R. returned R.
    eapply round_centred; [|eassumption].
    eapply round_centred; [|eassumption].
    eapply round_centred; [|eassumption].
    exact W0. }
  split; [exact W|]. intros p0 S I.
  unfold seed in S. returned S.
  unfold dict_of. erewrite packed_lookup; eauto.
Qed.

End InitialFacts.

(* ================================================================== *)
(** * [fit_profile]: the parameters and the vector of the optimiser     *)
(* ================================================================== *)

Section ParameterFacts.

Import Transitions.
Local Open Scope string_scope.
Local Open Scope list_scope.

Variable lib : library.

Lemma string_of_Z_read (z : Z) :
  DecimalString.NilZero.int_of_string (string_of_Z z) = Some (Z.to_int z).
Proof.
  unfold string_of_Z. apply DecimalString.NilZero.isi; intros H;
    pose proof (f_equal Z.of_int H) as H'; rewrite DecimalZ.of_to in H';
    cbn in H'; subst z; discriminate H.
Qed.

Lemma string_of_Z_injective (z1 z2 : Z) :
  string_of_Z z1 = string_of_Z z2 -> z1 = z2.
Proof.
  intros H. pose proof (string_of_Z_read z1) as H1. rewrite H in H1.
  rewrite string_of_Z_read in H1. injection H1 as H1.
  apply (f_equal Z.of_int) in H1. now rewrite !DecimalZ.of_to in H1.
Qed.

Lemma append_injective (p a b : string) :
  String.append p a = String.append p b -> a = b.
Proof.
  induction p as [|ch p IH]; cbn; intros H; [exact H|].
  injection H as H. now apply IH.
Qed.

Lemma distinct_images {X Y : Type} (f : X -> Y) (l : list X) :
  (forall a b, f a = f b -> a = b) -> NoDup l -> NoDup (map f l).
Proof.
  intros I. induction 1 as [|a l N D IH]; cbn; constructor; [|exact IH].
  intros H. apply in_map_iff in H as (b & E & H). apply I in E. now subst.
Qed.

Lemma continuum_names_distinct (n : Z) : NoDup (continuum_names n).
Proof.
  unfold continuum_names, range.
  apply distinct_images.
  - intros z1 z2 H. apply append_injective in H.
    now apply string_of_Z_injective.
  - apply distinct_images; [|apply seq_NoDup].
    intros a b. apply Nat2Z.inj.
Qed.

Lemma continuum_names_prefix (n : Z) (k : string) :
  In k (continuum_names n) -> startswith k "continuum." = true.
Proof.
  unfold continuum_names. intros H. apply in_map_iff in H as (i & <- & _).
  unfold startswith. cbn. destruct (string_of_Z i); reflexivity.
Qed.

Lemma distinct_between (middle : list string) :
  NoDup middle ->
  (forall k, In k middle -> startswith k "continuum." = true) ->
  forall before after : list string,
    NoDup (before ++ after) ->
    forallb (fun k => negb (startswith k "continuum.")) (before ++ after)
    = true ->
    NoDup (before ++ middle ++ after).
Proof.
  intros D P before after N F. rewrite forallb_forall in F.
  assert (O : forall k, In k middle -> ~ In k (before ++ after)).
  { intros k Hm Ho. apply F in Ho. rewrite (P k Hm) in Ho. discriminate. }
  induction before as [|b before IH]; cbn [List.app] in *.
  - induction middle as [|m middle IHm]; [exact N|]. cbn [List.app].
    inversion D; subst. constructor.
    + intros I. apply in_app_or in I as [I|I]; [contradiction|].
      apply (O m); [now left|exact I].
    + apply IHm; auto.
      * intros k Hk. apply P. now right.
      * intros k Hk. apply O. now right.
  - inversion N as [|? ? Nb N']; subst. constructor.
    + intros I. apply in_app_or in I as [I|I].
      * apply Nb, in_or_app. now left.
      * apply in_app_or in I as [I|I].
        -- apply (O b I). now left.
        -- apply Nb, in_or_app. now right.
    + apply IH; auto.
      * intros k Hk. apply F. now right.
      * intros k Hm Ho. apply (O k Hm). now right.
Qed.

Lemma build_parameters_distinct (self : AtomicTransition)
    (continuum_order : option Z) (constrain : dict bounds) :
  NoDup (build_parameters self "gaussian" continuum_order constrain).
Proof.
  unfold build_parameters.
  change (profile_parameters "gaussian") with ["fwhm"].
  set (middle := match continuum_order with
                 | Some n =>
                     if (regions_size self <? 2)%Z then continuum_names n
                     else []
                 | None => []
                 end).
  assert (D : NoDup middle).
  { subst middle. destruct continuum_order as [n|]; [|constructor].
    destruct (regions_size self <? 2)%Z; [|constructor].
    apply continuum_names_distinct. }
  assert (P : forall k, In k middle -> startswith k "continuum." = true).
  { subst middle. destruct continuum_order as [n|]; [|intros k []].
    destruct (regions_size self <? 2)%Z; [|intros k []].
    apply continuum_names_prefix. }
  rewrite !app_assoc. rewrite <- (app_assoc _ middle).
  apply (distinct_between middle D P).
  - destruct (dict_mem constrain "wavelength"), (has_blending self);
      repeat constructor; cbn; intuition discriminate.
  - destruct (dict_mem constrain "wavelength"), (has_blending self);
      reflexivity.
Qed.

Lemma dict_set_fresh {V : Type} (d : dict V) (k : string) (v : V) :
  ~ In k (keys d) -> dict_set d k v = d ++ [(k, v)].
Proof.
  induction d as [|[k0 v0] d IH]; cbn; intros N; [reflexivity|].
  destruct (String.eqb_spec k k0) as [->|_]; [exfalso; auto|].
  rewrite IH; auto.
Qed.

Lemma dict_update_distinct {V : Type} (pairs : list (string * V)) (d : dict V) :
  NoDup (keys d ++ keys pairs) -> dict_update d pairs = d ++ pairs.
Proof.
  revert d. induction pairs as [|[k v] pairs IH]; intros d N.
  - cbn. now rewrite app_nil_r.
  - change (dict_update d ((k, v) :: pairs))
      with (dict_update (dict_set d k v) pairs).
    cbn [keys map fst] in N. fold (keys pairs) in N.
    assert (F : ~ In k (keys d)).
    { apply NoDup_remove_2 in N. intros I. apply N, in_or_app. now left. }
    rewrite (dict_set_fresh d k v F), IH.
    + now rewrite <- app_assoc.
    + unfold keys in *. rewrite map_app, <- app_assoc. exact N.
Qed.

Lemma items_of_combine (ps : list string) (x : list float) :
  NoDup ps -> List.length x = List.length ps ->
  mapM (dict_item (combine ps x)) ps = Return x.
Proof.
  revert x. induction ps as [|p ps IH]; intros [|v x] D L;
    try discriminate L; [reflexivity|].
  inversion D as [|? ? N D']; subst. injection L as L.
  cbn [combine mapM]. unfold dict_item at 1. cbn [dict_get].
  rewrite String.eqb_refl. cbn [bind].
  assert (M : mapM (dict_item ((p, v) :: combine ps x)) ps
              = mapM (dict_item (combine ps x)) ps).
  { clear IH L D' D. revert N. generalize (combine ps x) as d.
    induction ps as [|q ps IHq]; intros d N; [reflexivity|].
    cbn [mapM].
    assert (Q : dict_item ((p, v) :: d) q = dict_item d q).
    { unfold dict_item. cbn [dict_get].
      destruct (String.eqb_spec q p) as [->|_]; [|reflexivity].
      exfalso. apply N. now left. }
    rewrite Q. destruct (dict_item d q); [|reflexivity]. cbn [bind].
    rewrite IHq; [reflexivity|]. intros I. apply N. now right. }
  rewrite M, (IH x D' L). reflexivity.
Qed.

(** The parameters of a call that reaches the rounds are distinct, so the
    dictionary that the objective makes of a vector, [dict(zip(parameters,
    x))], is the list of the pairs: it has one entry for each parameter, and
    reading the parameters back gives the vector. *)
Theorem parameters_pack_the_vector
    (self : AtomicTransition) (data : pyobj)
    (initial_theta : option (dict float)) (kind : string)
    (continuum_order : option Z) (surrounding : float)
    (detect_nearby_lines : bool) (constrain_parameters : option (dict bounds))
    (synthesise_kwargs : option (dict float)) (kwargs : dict float)
    (c : fit_context) (st : loop_state) (x : list float) :
  prepare lib self data initial_theta kind continuum_order surrounding
    detect_nearby_lines constrain_parameters synthesise_kwargs kwargs
  = Return (c, st) ->
  List.length x = List.length (ctx_parameters c) ->
  NoDup (ctx_parameters c)
  /\ dict_of (combine (ctx_parameters c) x) = combine (ctx_parameters c) x
  /\ mapM (dict_item (dict_of (combine (ctx_parameters c) x)))
       (ctx_parameters c) = Return x.
Proof.
  intros P L.
  destruct (prepare_returned lib _ _ _ _ _ _ _ _ _ _ _ _ P) as (_ & _ & _ & E).
  assert (D : NoDup (ctx_parameters c)).
  { rewrite E. apply build_parameters_distinct. }
  assert (O : dict_of (combine (ctx_parameters c) x)
              = combine (ctx_parameters c) x).
  { unfold dict_of. rewrite dict_update_distinct; [reflexivity|].
    cbn [keys map List.app]. fold (keys (combine (ctx_parameters c) x)).
    unfold keys. rewrite map_fst_combine, L, firstn_all. exact D. }
  repeat split; [exact D|exact O|].
  rewrite O. now apply items_of_combine.
Qed.

End ParameterFacts.

(* ================================================================== *)
(** * [fit_profile]: the keywords of the optimiser                      *)
(* ================================================================== *)

Section KeywordFacts.

Import Transitions.
Local Open Scope float_scope.
Local Open Scope string_scope.

(** The optimiser is always called with [full_output=True], [xtol=1e-5] and
    [ftol=1e-5], whatever [optimise_kwargs] gives for them; [disp] is that of
    [optimise_kwargs], and [False] without one; every other keyword is passed
    as given. *)
Theorem optimiser_keywords (optimise_kwargs : dict kwval) :
  dict_get (op_kwargs_of optimise_kwargs) "full_output" = Some (KBool true)
  /\ dict_get (op_kwargs_of optimise_kwargs) "xtol" = Some (KFloat 1e-5)
  /\ dict_get (op_kwargs_of optimise_kwargs) "ftol" = Some (KFloat 1e-5)
  /\ dict_get (op_kwargs_of optimise_kwargs) "disp"
     = Some (dict_get_default optimise_kwargs "disp" (KBool false))
  /\ forall k,
       str_in k ["full_output"; "xtol"; "ftol"; "disp"] = false ->
       dict_get (op_kwargs_of optimise_kwargs) k = dict_get optimise_kwargs k.
Proof.
  assert (G : forall k,
            dict_get (op_kwargs_of optimise_kwargs) k
            = if String.eqb k "disp"
              then Some (dict_get_default optimise_kwargs "disp" (KBool false))
              else if String.eqb k "ftol" then Some (KFloat 1e-5)
              else if String.eqb k "xtol" then Some (KFloat 1e-5)
              else if String.eqb k "full_output" then Some (KBool true)
              else dict_get optimise_kwargs k).
  { intros k. unfold op_kwargs_of, dict_setdefault, dict_mem, dict_get_default.
    rewrite !dict_get_set. cbn [String.eqb Ascii.eqb Bool.eqb].
    destruct (dict_get optimise_kwargs "disp") as [v|] eqn:E;
      rewrite ?dict_get_set;
      destruct (String.eqb_spec k "disp") as [->|];
      cbn [String.eqb Ascii.eqb Bool.eqb]; rewrite ?E; reflexivity. }
  repeat split; try (rewrite G; reflexivity).
  intros k H. rewrite G. unfold str_in in H. cbn [existsb] in H.
  repeat (apply orb_false_elim in H as [? H]).
  repeat match goal with E : String.eqb k _ = false |- _ => rewrite E; clear E end.
  reflexivity.
Qed.

End KeywordFacts.

(* ================================================================== *)
(** * [reduced_equivalent_width]                                        *)
(* ================================================================== *)

Section WidthFacts.

Import Utils Species Transitions Widths.
Local Open Scope float_scope.
Local Open Scope string_scope.

Variable lib : library.
Variable log : float -> float.

Lemma conclude_keeps_wavelength (c : fit_context) (st : loop_state)
    (opt : list float * float * Z * Z * Z) (full_output : bool)
    (out : fit_output) (self' : AtomicTransition) :
  conclude lib c st opt full_output = Return (out, self') ->
  wavelength self' = wavelength (ctx_self c).
Proof.
  unfold conclude. destruct opt as [[[[p1 fopt] n1] n2] w]. intros H.
  returned H. reflexivity.
Qed.

(** The reduced equivalent width is not there before a fit: on a transition
    as [__init__] leaves it the property raises [AttributeError].  After a
    call of [fit_profile] that returns, it is the logarithm of the stored
    equivalent width over the wavelength of the transition. *)
Theorem reduced_equivalent_width_needs_a_fit
    (self : AtomicTransition) (data : pyobj)
    (initial_theta : option (dict float)) (kind : string)
    (continuum_order : option Z) (surrounding : float)
    (detect_nearby_lines : bool) (constrain_parameters : option (dict bounds))
    (synthesise_kwargs : option (dict float))
    (optimise_kwargs : option (dict kwval)) (full_output : bool)
    (kwargs : dict float) (out : fit_output) (self' : AtomicTransition) :
  fit_profile lib self data initial_theta kind continuum_order surrounding
    detect_nearby_lines constrain_parameters synthesise_kwargs optimise_kwargs
    full_output kwargs = Return (out, self') ->
  (exists equivalent_width,
     Transitions.equivalent_width self' = Some equivalent_width
     /\ reduced_equivalent_width log self'
        = Return (log (equivalent_width / wavelength self)))
  /\ forall w species ep gf blending mask regions vdw fresh,
       init w species ep gf blending mask regions vdw = Return fresh ->
       reduced_equivalent_width log fresh
       = Raise (AttributeError "'AtomicTransition' object has no attribute 'equivalent_width'").
Proof.
  intros H. split.
  - unfold fit_profile in H.
    destruct (prepare lib self data initial_theta kind continuum_order
                surrounding detect_nearby_lines constrain_parameters
                synthesise_kwargs kwargs) as [[c st0]|] eqn:P; [|discriminate H].
    cbn [bind] in H.
    destruct (refine lib c st0) as [st|]; [|discriminate H]. cbn [bind] in H.
    destruct (seed lib c st) as [p0|]; [|discriminate H]. cbn [bind] in H.
    match type of H with
    | bind ?m _ = _ =>
        destruct m as [[[[[p1 fopt] n1] n2] w]|]; [|discriminate H]
    end.
    cbn [bind] in H.
    pose proof (conclude_keeps_wavelength _ _ _ _ _ _ H) as W.
    destruct (prepare_returned lib _ _ _ _ _ _ _ _ _ _ _ _ P) as (S & _).
    apply conclude_returned in H
      as (oc & orc & info & line_depth & fwhm & _ & _ & _ & H & _).
    exists (width_of line_depth fwhm). split; [exact H|].
    unfold reduced_equivalent_width. rewrite H, W, S. reflexivity.
  - intros w species ep gf blending mask regions vdw fresh I.
    unfold init in I. returned I. reflexivity.
Qed.

End WidthFacts.

(* ================================================================== *)
(** * [fit_profile]: the continuum regions and the outliers             *)
(* ================================================================== *)

Section RegionFacts.

Import Transitions.
Local Open Scope float_scope.
Local Open Scope string_scope.

Variable lib : library.
Variable c : fit_context.
Variable order : Z.

Hypothesis has_order : ctx_continuum_order c = Some order.
Hypothesis has_regions : (2 <=? regions_size (ctx_self c))%Z = true.

(** [continuum_mask[indices[0]:indices[1]] = True] for every region. *)
Let paint (m : list bool) : list bool :=
  fold_left
    (fun m r =>
       Np.set_slice m (Np.searchsorted (disp (ctx_data c)) (fst r))
         (Some (Np.searchsorted (disp (ctx_data c)) (snd r))) true)
    (continuum_regions (ctx_self c)) m.

(** The pixel [p] lies in the slice of a continuum region. *)
Let covered (p : nat) : bool :=
  existsb
    (fun r =>
       ((Np.searchsorted (disp (ctx_data c)) (fst r) <=? Z.of_nat p)%Z
        && (Z.of_nat p <? Np.searchsorted (disp (ctx_data c)) (snd r))%Z)%bool)
    (continuum_regions (ctx_self c)).

(** The polynomial fit over the pixels of the mask [m]. *)
Let fit_on (m : list bool) : result (list float) :=
  x <- Np.take (disp (ctx_data c)) m ;;
  y <- Np.take (flux (ctx_data c)) m ;;
  match ctx_blending_spectrum c with
  | None => polyfit lib x y order
  | Some blending_spectrum =>
      polyfit lib x
        (Np.map2 PrimFloat.div y
           (interp lib x (disp blending_spectrum) (flux blending_spectrum)))
        order
  end.

Lemma set_slice_from_nth {X : Type} (a : list X) (k i : Z) (j : option Z)
    (v : X) (p : nat) :
  nth_error (Np.set_slice_from a k i j v) p
  = option_map
      (fun x =>
         if ((i <=? k + Z.of_nat p)%Z
             && match j with
                | Some j => (k + Z.of_nat p <? j)%Z
                | None => true
                end)%bool
         then v else x)
      (nth_error a p).
Proof.
  revert k p. induction a as [|x a IH]; intros k [|p]; cbn [Np.set_slice_from nth_error option_map];
    try reflexivity.
  - now rewrite Z.add_0_r.
  - rewrite IH. replace (k + 1 + Z.of_nat p)%Z with (k + Z.of_nat (S p))%Z by lia.
    reflexivity.
Qed.

Lemma set_slice_from_length {X : Type} (a : list X) (k i : Z) (j : option Z)
    (v : X) :
  List.length (Np.set_slice_from a k i j v) = List.length a.
Proof.
  revert k. induction a as [|x a IH]; intros k; cbn; [reflexivity|].
  now rewrite IH.
Qed.

Lemma painted_nth (regions : list (float * float)) (m : list bool) (p : nat) :
  nth_error
    (fold_left
       (fun m r =>
          Np.set_slice m (Np.searchsorted (disp (ctx_data c)) (fst r))
            (Some (Np.searchsorted (disp (ctx_data c)) (snd r))) true)
       regions m) p
  = option_map
      (fun x =>
         (x || existsb
                 (fun r =>
                    ((Np.searchsorted (disp (ctx_data c)) (fst r) <=? Z.of_nat p)%Z
                     && (Z.of_nat p <? Np.searchsorted (disp (ctx_data c)) (snd r))%Z)%bool)
                 regions)%bool)
      (nth_error m p).
Proof.
  revert m. induction regions as [|r regions IH]; intros m; cbn [fold_left existsb].
  - destruct (nth_error m p); cbn; [now rewrite orb_false_r|reflexivity].
  - rewrite IH. unfold Np.set_slice. rewrite set_slice_from_nth.
    destruct (nth_error m p) as [x|]; cbn [option_map]; [|reflexivity].
    rewrite Z.add_0_l.
    destruct ((Np.searchsorted (disp (ctx_data c)) (fst r) <=? Z.of_nat p)%Z
              && (Z.of_nat p <? Np.searchsorted (disp (ctx_data c)) (snd r))%Z)%bool;
      cbn [orb]; [now rewrite orb_true_r|reflexivity].
Qed.

Lemma painted_length (regions : list (float * float)) (m : list bool) :
  List.length
    (fold_left
       (fun m r =>
          Np.set_slice m (Np.searchsorted (disp (ctx_data c)) (fst r))
            (Some (Np.searchsorted (disp (ctx_data c)) (snd r))) true)
       regions m)
  = List.length m.
Proof.
  revert m. induction regions as [|r regions IH]; intros m; cbn [fold_left];
    [reflexivity|].
  rewrite IH. apply set_slice_from_length.
Qed.

(** The mask has the length of the data and is True in the regions only; the
    name [continuum_mask] is not bound to the array of [finite]. *)
Let within_regions (st : loop_state) : Prop :=
  mask_is_finite st = false
  /\ List.length (continuum_mask st) = List.length (disp (ctx_data c))
  /\ forall p, nth_error (continuum_mask st) p = Some true -> covered p = true.

Lemma paint_within (m m' : list bool) :
  List.length m = List.length m' ->
  (forall p, nth_error m p = Some true -> covered p = true) ->
  (forall p, nth_error m' p = Some true -> covered p = true) ->
  paint m = paint m'.
Proof.
  intros L H H'. apply nth_error_ext. intros p. unfold paint.
  rewrite !painted_nth. fold (covered p).
  destruct (nth_error m p) as [x|] eqn:E, (nth_error m' p) as [x'|] eqn:E';
    cbn [option_map].
  - f_equal. destruct (covered p) eqn:C; [now rewrite !orb_true_r|].
    destruct x; [rewrite (H p E) in C; discriminate|].
    destruct x'; [rewrite (H' p E') in C; discriminate|]. reflexivity.
  - apply nth_error_None in E'. assert (nth_error m p <> None) as N by congruence.
    apply nth_error_Some in N. lia.
  - apply nth_error_None in E. assert (nth_error m' p <> None) as N by congruence.
    apply nth_error_Some in N. lia.
  - reflexivity.
Qed.

Lemma map2_andb_nth (a b : list bool) (p : nat) :
  nth_error (Np.map2 andb a b) p = Some true ->
  nth_error a p = Some true.
Proof.
  revert b p. induction a as [|x a IH]; intros [|y b] [|p]; cbn;
    try discriminate.
  - intros H. injection H as H. apply andb_prop in H as [-> _]. reflexivity.
  - apply IH.
Qed.

Lemma map2_length {X Y W : Type} (f : X -> Y -> W) (a : list X) (b : list Y) :
  List.length a = List.length b ->
  List.length (Np.map2 f a b) = List.length a.
Proof.
  revert b. induction a as [|x a IH]; intros [|y b] L; cbn in *;
    try discriminate; [reflexivity|].
  injection L as L. now rewrite IH.
Qed.

Lemma exclude_runs_below (edges : list Z) (i : Z) (s : bool) (m : list bool) :
  List.length (exclude_runs edges i s m) = List.length m
  /\ forall p, nth_error (exclude_runs edges i s m) p = Some true ->
               nth_error m p = Some true.
Proof.
  revert i m. induction edges as [|index rest IH]; intros i m;
    cbn [exclude_runs]; [auto|].
  match goal with
  | |- context [exclude_runs rest _ s ?m'] => destruct (IH (i + 1)%Z m') as [L B]
  end.
  split.
  - rewrite L. destruct (_ || _)%bool; [|reflexivity].
    apply set_slice_from_length.
  - intros p H. apply B in H. destruct (_ || _)%bool; [|exact H].
    unfold Np.set_slice in H. rewrite set_slice_from_nth in H.
    destruct (nth_error m p) as [x|]; [|discriminate H]. cbn [option_map] in H.
    destruct (_ && _)%bool; [discriminate H|exact H].
Qed.

Lemma continuum_step_regions (st st' : loop_state) :
  within_regions st ->
  continuum_step lib c st = Return st' ->
  exists m,
    Np.imul (paint (continuum_mask st)) (finite st) = Return m
    /\ fit_on m = Return (coefficients st')
    /\ continuum_mask st' = m
    /\ finite st' = finite st
    /\ mask_is_finite st' = false.
Proof.
  intros (F & _ & _). unfold continuum_step. rewrite has_order.
  assert (R : (regions_size (ctx_self c) <? 2)%Z = false).
  { apply Z.ltb_ge. apply Z.leb_le in has_regions. exact has_regions. }
  rewrite R, has_regions. cbn [andb]. fold (paint (continuum_mask st)).
  destruct (Np.imul (paint (continuum_mask st)) (finite st)) as [m|] eqn:M;
    [|discriminate]. cbn [bind].
  assert (W : write_mask st m
              = mk_state (theta st) (coefficients st) m (finite st) false
                  (iterate_on_continuum st) (caw st) (kwargs st) (printed st)).
  { unfold write_mask. now rewrite F. }
  rewrite W. cbn [continuum_mask]. intros H. exists m.
  split; [reflexivity|]. unfold fit_on.
  destruct (Np.take (disp (ctx_data c)) m) as [x|]; [|discriminate H].
  cbn [bind] in *.
  destruct (Np.take (flux (ctx_data c)) m) as [y|]; [|discriminate H].
  cbn [bind] in *.
  match type of H with
  | bind ?f _ = _ => destruct f as [k|] eqn:K; [|discriminate H]
  end.
  cbn [bind] in H. injection H as <-.
  split.
  - destruct (ctx_detect_nearby_lines c), (str_in "continuum.0" (ctx_parameters c));
      reflexivity.
  - destruct (ctx_detect_nearby_lines c), (str_in "continuum.0" (ctx_parameters c));
      cbn; auto.
Qed.

Lemma line_depth_step_mask (st st' : loop_state) :
  line_depth_step c st = Return st' ->
  continuum_mask st' = continuum_mask st /\ finite st' = finite st
  /\ mask_is_finite st' = mask_is_finite st.
Proof. unfold line_depth_step, dict_pop. intros H. framed; auto. Qed.

Lemma fwhm_step_mask (st st' : loop_state) :
  fwhm_step c st = Return st' ->
  continuum_mask st' = continuum_mask st
  /\ (mask_is_finite st = false -> mask_is_finite st' = false)
  /\ (finite st' = finite st \/ List.length (finite st') = 2%nat).
Proof. unfold fwhm_step. intros H. framed; auto. Qed.

Lemma blending_fwhm_step_mask (st st' : loop_state) :
  blending_fwhm_step c st = Return st' ->
  continuum_mask st' = continuum_mask st /\ finite st' = finite st
  /\ mask_is_finite st' = mask_is_finite st.
Proof. unfold blending_fwhm_step. intros H. framed; auto. Qed.

Lemma outlier_step_mask (st st' : loop_state) :
  mask_is_finite st = false ->
  outlier_step lib c st = Return st' ->
  List.length (continuum_mask st') = List.length (continuum_mask st)
  /\ (forall p, nth_error (continuum_mask st') p = Some true ->
                nth_error (continuum_mask st) p = Some true)
  /\ finite st' = finite st
  /\ mask_is_finite st' = false.
Proof.
  intros F. unfold outlier_step. intros H.
  destruct (iterate_on_continuum st); [|injection H as <-; auto].
  returned H. unfold write_mask. rewrite F. cbn [continuum_mask finite mask_is_finite].
  match goal with
  | |- context [exclude_runs ?e ?i ?s ?m] =>
      destruct (exclude_runs_below e i s m) as [L B]
  end.
  auto.
Qed.

(** One round with continuum regions: the continuum is fitted over the
    finite pixels of the regions, whatever the mask had lost before. *)
Lemma round_regions (kk : Z) (st st' : loop_state) :
  within_regions st ->
  round lib c kk st = Return st' ->
  exists m,
    Np.imul (paint (continuum_mask st)) (finite st) = Return m
    /\ fit_on m = Return (coefficients st')
    /\ within_regions st'
    /\ (finite st' = finite st \/ List.length (finite st') = 2%nat).
Proof.
  intros G H. unfold round in H.
  destruct (continuum_step lib c (print st kk)) as [s1|] eqn:E1; [|discriminate H].
  cbn [bind] in H.
  destruct (line_depth_step c s1) as [s2|] eqn:E2; [|discriminate H].
  cbn [bind] in H.
  destruct (fwhm_step c s2) as [s3|] eqn:E3; [|discriminate H].
  cbn [bind] in H.
  destruct (blending_fwhm_step c s3) as [s4|] eqn:E4; [|discriminate H].
  cbn [bind] in H.
  assert (G' : within_regions (print st kk)) by exact G.
  destruct (continuum_step_regions _ _ G' E1) as (m & M & K & C1 & F1 & A1).
  cbn [print continuum_mask finite] in M, F1.
  pose proof (line_depth_step_coefficients c _ _ E2) as K2.
  pose proof (fwhm_step_coefficients c _ _ E3) as K3.
  pose proof (blending_fwhm_step_coefficients c _ _ E4) as K4.
  pose proof (outlier_step_coefficients lib c _ _ H) as K5.
  destruct (line_depth_step_mask _ _ E2) as (C2 & F2 & A2).
  destruct (fwhm_step_mask _ _ E3) as (C3 & A3 & F3).
  destruct (blending_fwhm_step_mask _ _ E4) as (C4 & F4 & A4).
  assert (A : mask_is_finite s4 = false).
  { rewrite A4. apply A3. now rewrite A2. }
  destruct (outlier_step_mask _ _ A H) as (L5 & B5 & F5 & A5).
  exists m. split; [exact M|]. split; [now rewrite K5, K4, K3, K2|].
  assert (S4 : continuum_mask s4 = m) by now rewrite C4, C3, C2.
  destruct G as (_ & L & _).
  assert (Lm : List.length m = List.length (disp (ctx_data c))).
  { unfold Np.imul in M.
    destruct (Nat.eqb_spec (List.length (paint (continuum_mask st)))
                (List.length (finite st))) as [Q|]; [|discriminate M].
    injection M as <-. rewrite map2_length by exact Q.
    unfold paint. now rewrite painted_length. }
  split.
  - split; [exact A5|]. split; [now rewrite L5, S4|].
    intros p Hp. apply B5 in Hp. rewrite S4 in Hp.
    unfold Np.imul in M.
    destruct (Nat.eqb (List.length (paint (continuum_mask st)))
                (List.length (finite st))); [|discriminate M].
    injection M as <-. apply map2_andb_nth in Hp.
    unfold paint in Hp. rewrite painted_nth in Hp. fold (covered p) in Hp.
    destruct (nth_error (continuum_mask st) p) as [x|] eqn:X; [|discriminate Hp].
    cbn [option_map] in Hp. injection Hp as Hp.
    destruct x; [|exact Hp].
    destruct G' as (_ & _ & B). apply B. exact X.
  - rewrite F5, F4. destruct F3 as [F3|F3]; [left|now right].
    now rewrite F3, F2, F1.
Qed.

(** Two rounds in a row fit the same continuum. *)
Lemma rounds_agree (kk kk' : Z) (st0 st1 st2 : loop_state) :
  Nat.eqb (List.length (disp (ctx_data c))) 2 = false ->
  within_regions st0 ->
  round lib c kk st0 = Return st1 ->
  round lib c kk' st1 = Return st2 ->
  coefficients st2 = coefficients st1 /\ within_regions st1.
Proof.
  intros N G0 R0 R1.
  destruct (round_regions _ _ _ G0 R0) as (m0 & M0 & K0 & G1 & F1).
  destruct (round_regions _ _ _ G1 R1) as (m1 & M1 & K1 & _ & _).
  split; [|exact G1].
  assert (Q : finite st1 = finite st0).
  { destruct F1 as [F1|F1]; [exact F1|]. exfalso.
    unfold Np.imul in M1.
    destruct (Nat.eqb_spec (List.length (paint (continuum_mask st1)))
                (List.length (finite st1))) as [Q|]; [|discriminate M1].
    unfold paint in Q. rewrite painted_length in Q.
    destruct G1 as (_ & L1 & _). rewrite L1, F1 in Q. rewrite Q in N.
    discriminate N. }
  assert (P : paint (continuum_mask st1) = paint (continuum_mask st0)).
  { destruct G0 as (_ & L0 & B0), G1 as (_ & L1 & B1).
    apply paint_within; [congruence|exact B1|exact B0]. }
  rewrite P, Q, M0 in M1. injection M1 as <-. congruence.
Qed.

(** After a round that has bound [finite] to an array of two entries, the
    next round cannot multiply the mask by it. *)
Lemma round_then_broadcast (kk kk' : Z) (st st1 : loop_state) :
  Nat.eqb (List.length (disp (ctx_data c))) 2 = false ->
  within_regions st ->
  round lib c kk st = Return st1 ->
  List.length (finite st1) = 2%nat ->
  round lib c kk' st1
  = Raise (ValueError "operands could not be broadcast together").
Proof.
  intros N G R0 F.
  destruct (round_regions _ _ _ G R0) as (_ & _ & _ & (_ & L & _) & _).
  unfold round, continuum_step. rewrite has_order.
  assert (R : (regions_size (ctx_self c) <? 2)%Z = false).
  { apply Z.ltb_ge. apply Z.leb_le in has_regions. exact has_regions. }
  rewrite R, has_regions. cbn [andb print continuum_mask finite].
  fold (paint (continuum_mask st1)). unfold Np.imul.
  unfold paint at 1. rewrite painted_length, L, F, N. reflexivity.
Qed.

End RegionFacts.

Section RegionCall.

Import Transitions.
Local Open Scope float_scope.
Local Open Scope string_scope.

Variable lib : library.

(** With continuum regions and a continuum order, the pixels that the
    detection of nearby lines takes out of the continuum mask are put back
    by the next round: every round fits the continuum over the same pixels,
    and the coefficients after the three rounds are those of the first
    round. *)
Theorem regions_put_the_outliers_back
    (self : AtomicTransition) (data : pyobj)
    (initial_theta : option (dict float)) (kind : string)
    (order : Z) (surrounding : float)
    (detect_nearby_lines : bool) (constrain_parameters : option (dict bounds))
    (synthesise_kwargs : option (dict float)) (kwargs : dict float)
    (c : fit_context) (st st3 : loop_state) :
  prepare lib self data initial_theta kind (Some order) surrounding
    detect_nearby_lines constrain_parameters synthesise_kwargs kwargs
  = Return (c, st) ->
  (2 <=? regions_size self)%Z = true ->
  Nat.eqb (List.length (disp (ctx_data c))) 2 = false ->
  refine lib c st = Return st3 ->
  exists st1,
    round lib c 0 st = Return st1 /\ coefficients st3 = coefficients st1.
Proof.
  intros P R N H.
  destruct (prepare_returned lib _ _ _ _ _ _ _ _ _ _ _ _ P) as (S & _ & O & _).
  rewrite <- S in R.
  assert (G : mask_is_finite st = false
              /\ List.length (continuum_mask st) = List.length (disp (ctx_data c))
              /\ forall p, nth_error (continuum_mask st) p = Some true -> False).
  { unfold prepare in P. returned P. cbn. split; [reflexivity|].
    split; [apply length_map|]. intros p Hp.
    rewrite nth_error_map in Hp.
    destruct (nth_error _ p); discriminate Hp. }
  rewrite (refine_unfold lib c) in H.
  destruct (round lib c 0 st) as [st1|] eqn:R0; [|discriminate H].
  cbn [bind] in H.
  destruct (round lib c 1 st1) as [st2|] eqn:R1; [|discriminate H].
  cbn [bind] in H.
  exists st1. split; [reflexivity|].
  destruct G as (G1 & G2 & G3).
  destruct (rounds_agree lib c order O R 0 1 st st1 st2 N) as [K1 W1];
    auto.
  { split; [exact G1|]. split; [exact G2|]. intros p Hp.
    destruct (G3 p Hp). }
  destruct (rounds_agree lib c order O R 1 2 st1 st2 st3 N) as [K2 W2]; auto.
  congruence.
Qed.

(** With continuum regions and a continuum order, a width that the first
    round can only estimate from one side of the line ends the call: the
    estimate binds [finite] to the two entries of
    [np.isfinite(initial_fwhm)], and the second round raises when it
    multiplies the continuum mask by it. *)
Theorem one_sided_width_stops_the_fit
    (self : AtomicTransition) (data : pyobj)
    (initial_theta : option (dict float)) (kind : string)
    (order : Z) (surrounding : float)
    (detect_nearby_lines : bool) (constrain_parameters : option (dict bounds))
    (synthesise_kwargs : option (dict float))
    (optimise_kwargs : option (dict kwval)) (full_output : bool)
    (kwargs : dict float)
    (c : fit_context) (st st1 : loop_state) :
  prepare lib self data initial_theta kind (Some order) surrounding
    detect_nearby_lines constrain_parameters synthesise_kwargs kwargs
  = Return (c, st) ->
  (2 <=? regions_size self)%Z = true ->
  Nat.eqb (List.length (disp (ctx_data c))) 2 = false ->
  round lib c 0 st = Return st1 ->
  List.length (finite st1) = 2%nat ->
  fit_profile lib self data initial_theta kind (Some order) surrounding
    detect_nearby_lines constrain_parameters synthesise_kwargs optimise_kwargs
    full_output kwargs
  = Raise (ValueError "operands could not be broadcast together").
Proof.
  intros P R N R0 F.
  destruct (prepare_returned lib _ _ _ _ _ _ _ _ _ _ _ _ P) as (S & _ & O & _).
  rewrite <- S in R.
  assert (G : mask_is_finite st = false
              /\ List.length (continuum_mask st) = List.length (disp (ctx_data c))
              /\ forall p, nth_error (continuum_mask st) p = Some true -> False).
  { unfold prepare in P. returned P. cbn. split; [reflexivity|].
    split; [apply length_map|]. intros p Hp.
    rewrite nth_error_map in Hp.
    destruct (nth_error _ p); discriminate Hp. }
  destruct G as (G1 & G2 & G3).
  unfold fit_profile. rewrite P. cbn [bind].
  rewrite (refine_unfold lib c), R0. cbn [bind].
  rewrite (round_then_broadcast lib c order O R 0 1 st st1 N); auto.
  split; [exact G1|]. split; [exact G2|]. intros p Hp. destruct (G3 p Hp).
Qed.

End RegionCall.

Section FitExamples.

Import Utils Species Transitions Widths.
Local Open Scope float_scope.
Local Open Scope string_scope.

Lemma fit_profile_needs_stellar_parameters_witness :
  fit_profile Bench.library (Bench.line 5000 []) (Spectrum Bench.spectrum)
    (Some [("line_depth", 0.5); ("fwhm", 1)]) "gaussian" None 2 true None None
    None false []
  = Raise (KeyError "stellar parameters are required for synthesis because this transition has blending transitions").
Proof.
  apply (fit_profile_needs_stellar_parameters Bench.library
           (Bench.line 5000 []) (Spectrum Bench.spectrum) "gaussian" None 2
           true None None None false []
           (Some [("line_depth", 0.5); ("fwhm", 1)])
           (Bench.spectrum, "gaussian"));
    reflexivity.
Defined.

Lemma line_depth_without_fwhm_is_unbound_witness :
  fit_profile Bench.library (Bench.line 5000 []) (Spectrum Bench.spectrum)
    (Some Samples.depth_only) "gaussian" None 2 true None None None false []
  = Raise (UnboundLocalError "continuum_at_wavelength").
Proof.
  apply (line_depth_without_fwhm_is_unbound Bench.library
           (Bench.line 5000 []) (Spectrum Bench.spectrum) "gaussian" None 2
           true None None None false [] Samples.depth_only
           (fst (Bench.start Samples.depth_only None))
           (snd (Bench.start Samples.depth_only None)));
    vm_compute; reflexivity.
Defined.

Lemma fit_starts_at_the_transition_wavelength_witness :
  dict_get Samples.shifted "wavelength" = Some 5000.5
  /\ dict_get (theta Samples.shifted_state) "wavelength" = Some 5000
  /\ forall p0,
       seed Bench.library (fst Samples.shifted_start) Samples.shifted_state
       = Return p0 ->
       In "wavelength" (ctx_parameters (fst Samples.shifted_start)) ->
       dict_get
         (dict_of (combine (ctx_parameters (fst Samples.shifted_start)) p0))
         "wavelength" = Some 5000.
Proof.
  split; [reflexivity|].
  apply (fit_starts_at_the_transition_wavelength Bench.library
           (Bench.line 5000 []) (Spectrum Bench.spectrum) "gaussian" None 2
           true (Some [("Wavelength", (Some 4999, Some 5001))]) None []
           (Some Samples.shifted) (fst Samples.shifted_start)
           (snd Samples.shifted_start) Samples.shifted_state);
    vm_compute; reflexivity.
Defined.

Lemma parameters_pack_the_vector_witness :
  NoDup (ctx_parameters Bench.seeded_context)
  /\ dict_of (combine (ctx_parameters Bench.seeded_context) [0.25; 1.5; 2])
     = [("line_depth", 0.25); ("fwhm", 1.5); ("blending_fwhm", 2)]
  /\ mapM
       (dict_item
          (dict_of (combine (ctx_parameters Bench.seeded_context) [0.25; 1.5; 2])))
       (ctx_parameters Bench.seeded_context)
     = Return [0.25; 1.5; 2].
Proof.
  apply (parameters_pack_the_vector Bench.library (Bench.line 5000 [])
           (Spectrum Bench.spectrum) (Some Bench.seeded) "gaussian" None 2
           true None None [] Bench.seeded_context Bench.seeded_start
           [0.25; 1.5; 2]);
    vm_compute; reflexivity.
Defined.

Lemma reduced_equivalent_width_needs_a_fit_witness :
  (exists equivalent_width,
     Transitions.equivalent_width (snd Bench.fitted) = Some equivalent_width
     /\ reduced_equivalent_width PrimFloat.sqrt (snd Bench.fitted)
        = Return (PrimFloat.sqrt (equivalent_width / 5000)))
  /\ forall w species ep gf blending mask regions vdw fresh,
       init w species ep gf blending mask regions vdw = Return fresh ->
       reduced_equivalent_width PrimFloat.sqrt fresh
       = Raise (AttributeError "'AtomicTransition' object has no attribute 'equivalent_width'").
Proof.
  apply (reduced_equivalent_width_needs_a_fit Bench.library PrimFloat.sqrt
           (Bench.line 5000 []) (Spectrum Bench.spectrum) (Some Bench.seeded)
           "gaussian" None 2 true None None None false [] (fst Bench.fitted)
           (snd Bench.fitted)).
  vm_compute; reflexivity.
Defined.

Lemma regions_put_the_outliers_back_witness :
  exists st1,
    round Bench.library (fst Samples.banded_start) 0 (snd Samples.banded_start)
    = Return st1
    /\ coefficients Samples.banded_state = coefficients st1.
Proof.
  apply (regions_put_the_outliers_back Bench.library Samples.banded
           (Spectrum Bench.spectrum) (Some Bench.stellar) "gaussian" 0 2 true
           None None [] (fst Samples.banded_start) (snd Samples.banded_start)
           Samples.banded_state);
    vm_compute; reflexivity.
Defined.

End FitExamples.

(* ================================================================== *)
(** * [fit_profile]: the estimate of the line depth                     *)
(* ================================================================== *)

Section DepthFacts.

Import Transitions.
Local Open Scope string_scope.
Local Open Scope float_scope.

(** [np.clip(x, 1e-3, 1 - 1e-3)] is a NaN or lies strictly between 0 and
    1. *)
Lemma clipped_depth (x : float) :
  PrimFloat.is_nan (Np.clip x 1e-3 (1 - 1e-3)) = true
  \/ (Np.gt 1 (Np.clip x 1e-3 (1 - 1e-3))
      && Np.gt (Np.clip x 1e-3 (1 - 1e-3)) 0)%bool = true.
Proof.
  unfold Np.clip, Np.max2, Np.min2, Np.lt, Np.gt.
  destruct (PrimFloat.is_nan x) eqn:Nx.
  - left. rewrite Nx. exact Nx.
  - replace (PrimFloat.is_nan 1e-3) with false by reflexivity.
    replace (PrimFloat.is_nan (1 - 1e-3)) with false by reflexivity.
    destruct (x <? 1e-3) eqn:L1.
    + right. reflexivity.
    + rewrite Nx. destruct (1 - 1e-3 <? x) eqn:L2; [right; reflexivity|].
      right. unfold PrimFloat.is_nan in Nx.
      rewrite FloatAxioms.eqb_spec in Nx.
      rewrite FloatAxioms.ltb_spec in L1, L2. rewrite !FloatAxioms.ltb_spec.
      set (lo := Prim2SF 1e-3) in *. vm_compute in lo. subst lo.
      set (hi := Prim2SF (1 - 1e-3)) in *. vm_compute in hi. subst hi.
      set (one := Prim2SF 1) in *. vm_compute in one. subst one.
      set (zero := Prim2SF 0) in *. vm_compute in zero. subst zero.
      destruct (Prim2SF x) as [s|s| |s m e].
      * destruct s; cbv in L1; discriminate L1.
      * destruct s; [cbv in L1; discriminate L1|cbv in L2; discriminate L2].
      * cbv in Nx. discriminate Nx.
      * destruct s; [cbv in L1; discriminate L1|].
        cbv beta iota delta [SpecFloat.SFltb SpecFloat.SFcompare] in L2 |- *.
        rewrite andb_true_r.
        destruct (Z.compare_spec e (-52)) as [E|E|E]; [| reflexivity |];
          exfalso.
        -- subst e. change (-53 ?= -52)%Z with Lt in L2. discriminate L2.
        -- destruct (Z.compare_spec (-53) e) as [E'|E'|E'];
             try lia; discriminate L2.
Qed.

Variable c : fit_context.

(** The line depth that a round estimates, with the tolerance of the source,
    is never one that the objective rejects for its line depth: it is
    strictly between 0 and 1, or a NaN (which the check of the seed vector
    refuses as not finite). *)
Theorem estimated_line_depth_is_physical (st st' : loop_state) :
  str_in "line_depth" (ctx_missing c) = true ->
  dict_get (kwargs st) "initial_line_depth_tolerance" = None ->
  line_depth_step c st = Return st' ->
  exists line_depth,
    dict_get (theta st') "line_depth" = Some line_depth
    /\ (PrimFloat.is_nan line_depth = true
        \/ (Np.gt 1 line_depth && Np.gt line_depth 0)%bool = true).
Proof.
  intros M K. unfold line_depth_step, dict_pop, dict_get_default.
  rewrite M, K. intros H. returned H.
  cbn [theta with_theta with_caw]. rewrite dict_get_set, String.eqb_refl.
  eexists. split; [reflexivity|]. apply clipped_depth.
Qed.

End DepthFacts.

(* ================================================================== *)
(** * [fit_profile]: every parameter has its initial value              *)
(* ================================================================== *)

Section SeedFacts.

Import Transitions.
Local Open Scope float_scope.
Local Open Scope string_scope.

Variable lib : library.

Lemma mem_set {V : Type} (d : dict V) (k : string) (v : V) (k' : string) :
  dict_mem (dict_set d k v) k' = (String.eqb k' k || dict_mem d k')%bool.
Proof.
  unfold dict_mem. rewrite dict_get_set.
  destruct (String.eqb k' k); reflexivity.
Qed.

Lemma mem_update_keeps {V : Type} (d : dict V) (pairs : list (string * V))
    (k : string) :
  dict_mem d k = true -> dict_mem (dict_update d pairs) k = true.
Proof.
  rewrite !dict_mem_keys, keys_dict_update. auto.
Qed.

Lemma mem_update_adds {V : Type} (d : dict V) (names : list string)
    (values : list V) (k : string) :
  List.length values = List.length names ->
  In k names ->
  dict_mem (dict_update d (combine names values)) k = true.
Proof.
  intros L I. rewrite dict_mem_keys, keys_dict_update. right.
  rewrite map_fst_combine, L, firstn_all. exact I.
Qed.

Lemma seed_theta_has (self : AtomicTransition) (parameters : list string)
    (theta0 : dict float) (p : string) :
  In p parameters -> dict_mem theta0 p = true ->
  dict_mem (seed_theta self parameters theta0) p = true.
Proof.
  intros I M. unfold seed_theta.
  assert (G : forall ps t,
            In p ps \/ dict_mem t p = true ->
            dict_mem
              (fold_left
                 (fun theta q =>
                    match dict_get theta0 q with
                    | Some v => dict_setdefault theta q v
                    | None => theta
                    end) ps t) p = true).
  { induction ps as [|q ps IH]; intros t [H|H]; cbn [fold_left];
      try (destruct H; fail); try exact H.
    - destruct H as [->|H]; [|apply IH; now left].
      apply IH. right. unfold dict_mem in M.
      destruct (dict_get theta0 p) as [v|]; [|discriminate M].
      unfold dict_setdefault. destruct (dict_mem t p) eqn:E; [exact E|].
      now rewrite mem_set, String.eqb_refl.
    - apply IH. right. destruct (dict_get theta0 q) as [v|]; [|exact H].
      unfold dict_setdefault. destruct (dict_mem t q); [exact H|].
      rewrite mem_set, H. apply orb_true_r. }
  apply G. now left.
Qed.

Variable c : fit_context.

Hypothesis parameters_built :
  ctx_parameters c
  = build_parameters (ctx_self c) "gaussian" (ctx_continuum_order c)
      (ctx_constrain c).
Hypothesis missing_built :
  ctx_missing c = missing_of (ctx_parameters c) (ctx_initial_theta c).
Hypothesis order_checked :
  forall n, ctx_continuum_order c = Some n -> (0 <= n)%Z.
Hypothesis polyfit_length :
  forall n x y k,
    ctx_continuum_order c = Some n ->
    polyfit lib x y n = Return k ->
    List.length k = Z.to_nat (n + 1).

Ltac kept W :=
  repeat match goal with
         | H : _ = Return _ |- _ => progress (returned H)
         end;
  repeat match goal with
         | |- context [if ?b then _ else _] => destruct b
         end;
  cbn [theta with_theta with_coefficients with_iterate write_mask alias_mask
       with_caw rebind_finite];
  try exact W;
  try (apply mem_update_keeps; exact W);
  try (rewrite mem_set, W; apply orb_true_r).

Lemma continuum_step_keeps (st st' : loop_state) (k : string) :
  dict_mem (theta st) k = true ->
  continuum_step lib c st = Return st' -> dict_mem (theta st') k = true.
Proof. unfold continuum_step. intros W H. kept W. Qed.

Lemma line_depth_step_keeps (st st' : loop_state) (k : string) :
  dict_mem (theta st) k = true ->
  line_depth_step c st = Return st' -> dict_mem (theta st') k = true.
Proof. unfold line_depth_step, dict_pop. intros W H. kept W. Qed.

Lemma fwhm_step_keeps (st st' : loop_state) (k : string) :
  dict_mem (theta st) k = true ->
  fwhm_step c st = Return st' -> dict_mem (theta st') k = true.
Proof. unfold fwhm_step. intros W H. kept W. Qed.

Lemma blending_fwhm_step_keeps (st st' : loop_state) (k : string) :
  dict_mem (theta st) k = true ->
  blending_fwhm_step c st = Return st' -> dict_mem (theta st') k = true.
Proof. unfold blending_fwhm_step. intros W H. kept W. Qed.

Lemma outlier_step_keeps (st st' : loop_state) (k : string) :
  dict_mem (theta st) k = true ->
  outlier_step lib c st = Return st' -> dict_mem (theta st') k = true.
Proof. unfold outlier_step. intros W H. kept W. Qed.

Lemma line_depth_step_adds (st st' : loop_state) :
  str_in "line_depth" (ctx_missing c) = true ->
  line_depth_step c st = Return st' ->
  dict_mem (theta st') "line_depth" = true.
Proof.
  unfold line_depth_step, dict_pop. intros M H. rewrite M in H. returned H.
  cbn [theta with_theta]. now rewrite mem_set.
Qed.

Lemma fwhm_step_adds (st st' : loop_state) :
  str_in "fwhm" (ctx_missing c) = true ->
  fwhm_step c st = Return st' -> dict_mem (theta st') "fwhm" = true.
Proof.
  unfold fwhm_step. intros M H. rewrite M in H.
  repeat match goal with
         | H : _ = Return _ |- _ => progress (returned H)
         end;
    cbn [theta with_theta]; now rewrite mem_set.
Qed.

Lemma blending_fwhm_step_adds (st st' : loop_state) :
  str_in "blending_fwhm" (ctx_missing c) = true ->
  blending_fwhm_step c st = Return st' ->
  dict_mem (theta st') "blending_fwhm" = true.
Proof.
  unfold blending_fwhm_step. intros M H. rewrite M in H. returned H.
  cbn [theta with_theta]. now rewrite mem_set.
Qed.

Lemma continuum_names_length (n : Z) :
  List.length (continuum_names n) = Z.to_nat (n + 1).
Proof.
  unfold continuum_names, range. now rewrite !length_map, length_seq.
Qed.

Lemma first_name_is_parameter (n : Z) :
  ctx_continuum_order c = Some n ->
  (regions_size (ctx_self c) <? 2)%Z = true ->
  str_in "continuum.0" (ctx_parameters c) = true.
Proof.
  intros O R. unfold str_in. apply existsb_exists. exists "continuum.0".
  split; [|reflexivity].
  rewrite parameters_built. unfold build_parameters. rewrite O, R.
  apply in_or_app. right. apply in_or_app. right. apply in_or_app. right.
  apply in_or_app. left.
  unfold continuum_names. apply in_map_iff. exists 0%Z.
  split; [reflexivity|]. apply in_range. specialize (order_checked n O). lia.
Qed.

Lemma continuum_step_adds (n : Z) (st st' : loop_state) (p : string) :
  ctx_continuum_order c = Some n ->
  (regions_size (ctx_self c) <? 2)%Z = true ->
  In p (continuum_names n) ->
  continuum_step lib c st = Return st' ->
  dict_mem (theta st') p = true.
Proof.
  intros O R I. unfold continuum_step.
  rewrite O, R, (first_name_is_parameter n O R). cbn [andb].
  intros H.
  destruct (negb (existsb (fun q => startswith q "continuum.") (ctx_missing c))).
  - returned H. cbn [theta with_theta]. apply mem_update_adds; [|exact I].
    match goal with
    | E : mapM _ _ = Return _ |- _ => apply mapM_length in E; exact E
    end.
  - repeat match goal with
           | H : _ = Return _ |- _ => progress (returned H)
           end;
      repeat match goal with
             | |- context [if ?b then _ else _] => destruct b
             end;
      cbn [theta with_theta]; apply mem_update_adds; try exact I;
      rewrite continuum_names_length; eapply polyfit_length; eauto.
Qed.

Lemma member_of_parameters (p : string) :
  In p (ctx_parameters c) ->
  p = "line_depth" \/ p = "fwhm" \/ p = "wavelength" \/ p = "blending_fwhm"
  \/ exists n, ctx_continuum_order c = Some n
               /\ (regions_size (ctx_self c) <? 2)%Z = true
               /\ In p (continuum_names n).
Proof.
  rewrite parameters_built. unfold build_parameters.
  change (profile_parameters "gaussian") with ["fwhm"].
  intros H.
  repeat (apply in_app_or in H as [H|H]).
  - destruct H as [<-|[]]. auto.
  - destruct H as [<-|[]]. auto.
  - destruct (dict_mem (ctx_constrain c) "wavelength"); [|destruct H].
    destruct H as [<-|[]]. auto.
  - destruct (ctx_continuum_order c) as [n|]; [|destruct H].
    destruct (regions_size (ctx_self c) <? 2)%Z eqn:R; [|destruct H].
    do 4 right. eauto.
  - destruct (has_blending (ctx_self c)); [|destruct H].
    destruct H as [<-|[]]. auto.
Qed.

Lemma round_keeps (kk : Z) (st st' : loop_state) (k : string) :
  dict_mem (theta st) k = true ->
  round lib c kk st = Return st' -> dict_mem (theta st') k = true.
Proof.
  unfold round. intros W H. returned H.
  eapply outlier_step_keeps; [|eassumption].
  eapply blending_fwhm_step_keeps; [|eassumption].
  eapply fwhm_step_keeps; [|eassumption].
  eapply line_depth_step_keeps; [|eassumption].
  eapply continuum_step_keeps; [|eassumption].
  exact W.
Qed.

(** A round gives a value to every parameter that [initial_theta] lacks. *)
Lemma round_adds (kk : Z) (st st' : loop_state) (p : string) :
  dict_mem (theta st) "wavelength" = true ->
  In p (ctx_parameters c) ->
  str_in p (ctx_missing c) = true ->
  round lib c kk st = Return st' -> dict_mem (theta st') p = true.
Proof.
  intros W I Miss H.
  destruct (member_of_parameters p I)
    as [->|[->|[->|[->|(n & O & R & N)]]]].
  - unfold round in H. returned H.
    eapply outlier_step_keeps; [|eassumption].
    eapply blending_fwhm_step_keeps; [|eassumption].
    eapply fwhm_step_keeps; [|eassumption].
    eapply line_depth_step_adds; eassumption.
  - unfold round in H. returned H.
    eapply outlier_step_keeps; [|eassumption].
    eapply blending_fwhm_step_keeps; [|eassumption].
    eapply fwhm_step_adds; eassumption.
  - eapply round_keeps; eassumption.
  - unfold round in H. returned H.
    eapply outlier_step_keeps; [|eassumption].
    eapply blending_fwhm_step_adds; eassumption.
  - unfold round in H. returned H.
    eapply outlier_step_keeps; [|eassumption].
    eapply blending_fwhm_step_keeps; [|eassumption].
    eapply fwhm_step_keeps; [|eassumption].
    eapply line_depth_step_keeps; [|eassumption].
    eapply continuum_step_adds; eassumption.
Qed.

End SeedFacts.

Section SeedCall.

Import Transitions.
Local Open Scope float_scope.
Local Open Scope string_scope.

Variable lib : library.

(** The assertion before the objective is built never fails: when the
    polynomial fit returns one coefficient more than its order, a call whose
    rounds return has a value in [theta] for every parameter. *)
Theorem seed_has_every_parameter
    (self : AtomicTransition) (data : pyobj)
    (initial_theta : option (dict float)) (kind : string)
    (continuum_order : option Z) (surrounding : float)
    (detect_nearby_lines : bool) (constrain_parameters : option (dict bounds))
    (synthesise_kwargs : option (dict float)) (kwargs : dict float)
    (c : fit_context) (st st' : loop_state) :
  (forall n x y k,
     continuum_order = Some n ->
     polyfit lib x y n = Return k ->
     List.length k = Z.to_nat (n + 1)) ->
  prepare lib self data initial_theta kind continuum_order surrounding
    detect_nearby_lines constrain_parameters synthesise_kwargs kwargs
  = Return (c, st) ->
  refine lib c st = Return st' ->
  forallb (dict_mem (theta st')) (ctx_parameters c) = true.
Proof.
  intros F P R.
  destruct (prepare_returned lib _ _ _ _ _ _ _ _ _ _ _ _ P) as (S & _ & O & B).
  assert (G : ctx_missing c = missing_of (ctx_parameters c) (ctx_initial_theta c)
              /\ theta st
                 = seed_theta self (ctx_parameters c) (ctx_initial_theta c)
              /\ check_continuum_order continuum_order = Return tt).
  { unfold prepare in P. returned P. cbn.
    repeat match goal with u : unit |- _ => destruct u end. auto. }
  destruct G as (M & T & C).
  assert (B' : ctx_parameters c
               = build_parameters (ctx_self c) "gaussian"
                   (ctx_continuum_order c) (ctx_constrain c)).
  { now rewrite S, O. }
  assert (C' : forall n, ctx_continuum_order c = Some n -> (0 <= n)%Z).
  { intros n E. rewrite <- O in C. unfold check_continuum_order in C.
    rewrite E in C.
    destruct (Z.ltb_spec n 0); [discriminate C|assumption]. }
  assert (F' : forall n x y k,
             ctx_continuum_order c = Some n ->
             polyfit lib x y n = Return k ->
             List.length k = Z.to_nat (n + 1)).
  { intros n x y k E. rewrite O in E. now apply F. }
  assert (W : dict_mem (theta st) "wavelength" = true).
  { rewrite T. unfold dict_mem. now rewrite seed_theta_centred. }
  rewrite (refine_unfold lib c) in R. returned R.
  apply forallb_forall. intros p I.
  eapply (round_keeps lib c B' C' F'); [|eassumption].
  eapply (round_keeps lib c B' C' F'); [|eassumption].
  destruct (dict_mem (ctx_initial_theta c) p) eqn:Given.
  - eapply (round_keeps lib c B' C' F'); [|eassumption].
    rewrite T. now apply seed_theta_has.
  - eapply (round_adds lib c B' C' F'); try eassumption.
    rewrite M, missing_spec, Given. unfold str_in. rewrite andb_true_r.
    apply existsb_exists. exists p. split; [exact I|apply String.eqb_refl].
Qed.

End SeedCall.

Section SeedExamples.

Import Transitions.
Local Open Scope string_scope.
Local Open Scope float_scope.

Lemma estimated_line_depth_is_physical_witness :
  exists line_depth,
    dict_get (theta Samples.estimated_depth) "line_depth" = Some line_depth
    /\ (PrimFloat.is_nan line_depth = true
        \/ (Np.gt 1 line_depth && Np.gt line_depth 0)%bool = true).
Proof.
  apply (estimated_line_depth_is_physical Bench.estimated_context
           Samples.estimated_fit Samples.estimated_depth);
    vm_compute; reflexivity.
Defined.

Lemma seed_has_every_parameter_witness :
  forallb (dict_mem (theta Bench.estimated_state))
    (ctx_parameters Bench.estimated_context) = true.
Proof.
  apply (seed_has_every_parameter Bench.library (Bench.line 5000 [])
           (Spectrum Bench.spectrum) (Some Bench.stellar) "gaussian"
           (Some 0%Z) 2 true None None [] Bench.estimated_context
           Bench.estimated_start Bench.estimated_state).
  - intros n x y k E H. injection E as <-.
    cbv beta iota delta [polyfit Bench.library] in H. injection H as <-.
    reflexivity.
  - vm_compute; reflexivity.
  - vm_compute; reflexivity.
Defined.

End SeedExamples.

(* ================================================================== *)
(** * [fit_profile]: the outliers without continuum regions            *)
(* ================================================================== *)

Section AliasFacts.

Import Transitions.
Local Open Scope float_scope.
Local Open Scope string_scope.

Variable lib : library.
Variable c : fit_context.
Variable order : Z.

Hypothesis has_order : ctx_continuum_order c = Some order.
Hypothesis no_regions : (regions_size (ctx_self c) <? 2)%Z = true.
Hypothesis fits :
  existsb (fun p => startswith p "continuum.") (ctx_missing c) = true.
Hypothesis width_given : str_in "fwhm" (ctx_missing c) = false.

(** [continuum_mask = finite]: from here on the two names are one array. *)
Lemma continuum_step_alias (st st' : loop_state) :
  continuum_step lib c st = Return st' ->
  continuum_mask st' = finite st /\ finite st' = finite st
  /\ mask_is_finite st' = true.
Proof.
  unfold continuum_step. rewrite has_order, no_regions, fits. cbn [negb andb].
  assert (R : (2 <=? regions_size (ctx_self c))%Z = false).
  { apply Z.leb_gt. apply Z.ltb_lt in no_regions. exact no_regions. }
  rewrite R. cbn [bind]. intros H.
  repeat match goal with
         | H : _ = Return _ |- _ => progress (returned H)
         end;
    repeat match goal with
           | |- context [if ?b then _ else _] => destruct b
           end;
    cbn; auto.
Qed.

Lemma fwhm_step_given (st st' : loop_state) :
  fwhm_step c st = Return st' -> st' = st.
Proof.
  unfold fwhm_step. rewrite width_given. intros H. now injection H as <-.
Qed.

Lemma line_depth_step_same_mask (st st' : loop_state) :
  line_depth_step c st = Return st' ->
  continuum_mask st' = continuum_mask st /\ finite st' = finite st
  /\ mask_is_finite st' = mask_is_finite st.
Proof.
  unfold line_depth_step, dict_pop. intros H.
  destruct (str_in "line_depth" (ctx_missing c)); [|injection H as <-; auto].
  returned H. cbn. auto.
Qed.

Lemma blending_fwhm_step_same_mask (st st' : loop_state) :
  blending_fwhm_step c st = Return st' ->
  continuum_mask st' = continuum_mask st /\ finite st' = finite st
  /\ mask_is_finite st' = mask_is_finite st.
Proof.
  unfold blending_fwhm_step. intros H.
  destruct (str_in "blending_fwhm" (ctx_missing c)); [|injection H as <-; auto].
  returned H. cbn. auto.
Qed.

(** An assignment to a slice of [continuum_mask] writes [finite] too. *)
Lemma outlier_step_alias (st st' : loop_state) :
  mask_is_finite st = true ->
  finite st = continuum_mask st ->
  outlier_step lib c st = Return st' ->
  mask_is_finite st' = true
  /\ finite st' = continuum_mask st'
  /\ forall p, nth_error (continuum_mask st') p = Some true ->
               nth_error (continuum_mask st) p = Some true.
Proof.
  intros A F. unfold outlier_step. intros H.
  destruct (iterate_on_continuum st); [|injection H as <-; auto].
  returned H. unfold write_mask. rewrite A.
  cbn [continuum_mask finite mask_is_finite].
  repeat split.
  match goal with
  | |- context [exclude_runs ?e ?i ?s ?m] =>
      destruct (exclude_runs_below e i s m) as [_ B]
  end.
  exact B.
Qed.

(** One round without continuum regions: the mask of the round is [finite]
    as the round before has left it, less the outliers of this round. *)
Lemma round_alias (kk : Z) (st st' : loop_state) :
  round lib c kk st = Return st' ->
  mask_is_finite st' = true
  /\ finite st' = continuum_mask st'
  /\ forall p, nth_error (continuum_mask st') p = Some true ->
               nth_error (finite st) p = Some true.
Proof.
  unfold round. intros H.
  destruct (continuum_step lib c (print st kk)) as [s1|] eqn:E1; [|discriminate H].
  cbn [bind] in H.
  destruct (line_depth_step c s1) as [s2|] eqn:E2; [|discriminate H].
  cbn [bind] in H.
  destruct (fwhm_step c s2) as [s3|] eqn:E3; [|discriminate H].
  cbn [bind] in H.
  destruct (blending_fwhm_step c s3) as [s4|] eqn:E4; [|discriminate H].
  cbn [bind] in H.
  destruct (continuum_step_alias _ _ E1) as (C1 & F1 & A1).
  cbn [print finite] in C1, F1.
  destruct (line_depth_step_same_mask _ _ E2) as (C2 & F2 & A2).
  apply fwhm_step_given in E3. subst s3.
  destruct (blending_fwhm_step_same_mask _ _ E4) as (C4 & F4 & A4).
  assert (A : mask_is_finite s4 = true) by congruence.
  assert (F : finite s4 = continuum_mask s4) by congruence.
  destruct (outlier_step_alias _ _ A F H) as (A5 & F5 & B5).
  repeat split; try assumption.
  intros p Hp. apply B5 in Hp. congruence.
Qed.

End AliasFacts.

Section AliasCall.

Import Transitions.
Local Open Scope float_scope.
Local Open Scope string_scope.

Variable lib : library.

(** Without continuum regions, with a continuum to fit and the width given,
    the continuum mask only shrinks from round to round: a pixel taken out as
    an outlier stays out, in [continuum_mask] and in [finite], which are one
    array. *)
Theorem outliers_stay_out_without_regions
    (self : AtomicTransition) (data : pyobj)
    (initial_theta : option (dict float)) (kind : string)
    (order : Z) (surrounding : float)
    (detect_nearby_lines : bool) (constrain_parameters : option (dict bounds))
    (synthesise_kwargs : option (dict float)) (kwargs : dict float)
    (c : fit_context) (st st3 : loop_state) :
  prepare lib self data initial_theta kind (Some order) surrounding
    detect_nearby_lines constrain_parameters synthesise_kwargs kwargs
  = Return (c, st) ->
  (regions_size self <? 2)%Z = true ->
  existsb (fun p => startswith p "continuum.") (ctx_missing c) = true ->
  str_in "fwhm" (ctx_missing c) = false ->
  refine lib c st = Return st3 ->
  exists st1 st2,
    round lib c 0 st = Return st1
    /\ round lib c 1 st1 = Return st2
    /\ round lib c 2 st2 = Return st3
    /\ finite st3 = continuum_mask st3
    /\ (forall p, nth_error (continuum_mask st3) p = Some true ->
                  nth_error (continuum_mask st2) p = Some true)
    /\ (forall p, nth_error (continuum_mask st2) p = Some true ->
                  nth_error (continuum_mask st1) p = Some true)
    /\ (forall p, nth_error (continuum_mask st1) p = Some true ->
                  nth_error (map Np.isfinite (flux (ctx_data c))) p = Some true).
Proof.
  intros P R M W H.
  destruct (prepare_returned lib _ _ _ _ _ _ _ _ _ _ _ _ P) as (S & _ & O & _).
  rewrite <- S in R.
  assert (F0 : finite st = map Np.isfinite (flux (ctx_data c))).
  { unfold prepare in P. returned P. reflexivity. }
  rewrite (refine_unfold lib c) in H.
  destruct (round lib c 0 st) as [st1|] eqn:R0; [|discriminate H].
  cbn [bind] in H.
  destruct (round lib c 1 st1) as [st2|] eqn:R1; [|discriminate H].
  cbn [bind] in H.
  destruct (round_alias lib c order O R M W _ _ _ R0) as (_ & F1 & B1).
  destruct (round_alias lib c order O R M W _ _ _ R1) as (_ & F2 & B2).
  destruct (round_alias lib c order O R M W _ _ _ H) as (_ & F3 & B3).
  exists st1, st2. repeat split; try assumption.
  - intros p Hp. rewrite <- F2. now apply B3.
  - intros p Hp. rewrite <- F1. now apply B2.
  - intros p Hp. rewrite <- F0. now apply B1.
Qed.

End AliasCall.

Section AliasExamples.

Import Transitions.
Local Open Scope float_scope.
Local Open Scope string_scope.

Lemma outliers_stay_out_without_regions_witness :
  exists st1 st2,
    round Bench.library (fst Samples.width_only_start) 0
      (snd Samples.width_only_start) = Return st1
    /\ round Bench.library (fst Samples.width_only_start) 1 st1 = Return st2
    /\ round Bench.library (fst Samples.width_only_start) 2 st2
       = Return Samples.width_only_state
    /\ finite Samples.width_only_state
       = continuum_mask Samples.width_only_state
    /\ (forall p,
          nth_error (continuum_mask Samples.width_only_state) p = Some true ->
          nth_error (continuum_mask st2) p = Some true)
    /\ (forall p, nth_error (continuum_mask st2) p = Some true ->
                  nth_error (continuum_mask st1) p = Some true)
    /\ (forall p,
          nth_error (continuum_mask st1) p = Some true ->
          nth_error
            (map Np.isfinite (flux (ctx_data (fst Samples.width_only_start)))) p
          = Some true).
Proof.
  apply (outliers_stay_out_without_regions Bench.library (Bench.line 5000 [])
           (Spectrum Bench.spectrum) (Some Samples.width_only) "gaussian" 0 2
           true None None [] (fst Samples.width_only_start)
           (snd Samples.width_only_start) Samples.width_only_state);
    vm_compute; reflexivity.
Defined.

Lemma one_sided_width_stops_the_fit_witness :
  fit_profile Bench.library (Bench.line 5000 [(5001.5, 5003.5)])
    (Spectrum Samples.edge_spectrum) (Some Bench.stellar) "gaussian"
    (Some 0%Z) 2 true None None None false []
  = Raise (ValueError "operands could not be broadcast together").
Proof.
  apply (one_sided_width_stops_the_fit Bench.library
           (Bench.line 5000 [(5001.5, 5003.5)])
           (Spectrum Samples.edge_spectrum) (Some Bench.stellar) "gaussian" 0
           2 true None None None false [] (fst Samples.edge_start)
           (snd Samples.edge_start) Samples.edge_round);
    vm_compute; reflexivity.
Defined.

End AliasExamples.

(* ================================================================== *)
(** * [ndarray.sum]                                                     *)
(* ================================================================== *)

Section SumFacts.

Local Open Scope float_scope.

(** The calls of [pairwise_sum] never run out: any two amounts of fuel that
    are at least the length of the array give the same sum. *)
Lemma pairwise_sum_fuel (f1 : nat) :
  forall (f2 : nat) (a : list float),
    (List.length a <= f1)%nat -> (List.length a <= f2)%nat ->
    Np.pairwise_sum f1 a = Np.pairwise_sum f2 a.
Proof.
  induction f1 as [|f1 IH]; intros f2 a L1 L2.
  - destruct a; [|cbn in L1; lia]. destruct f2; reflexivity.
  - destruct f2 as [|f2]; [destruct a; [reflexivity|cbn in L2; lia]|].
    cbn [Np.pairwise_sum].
    destruct (Nat.leb_spec (List.length a) 128) as [_|G]; [reflexivity|].
    assert (B : (1 <= Nat.div (List.length a) 2
                      - Nat.modulo (Nat.div (List.length a) 2) 8
                 < List.length a)%nat).
    { pose proof (Nat.div_mod (List.length a) 2 ltac:(lia)) as D.
      pose proof (Nat.mod_upper_bound (List.length a) 2 ltac:(lia)) as U.
      pose proof (Nat.mod_upper_bound (Nat.div (List.length a) 2) 8
                    ltac:(lia)) as V.
      lia. }
    f_equal; apply IH; rewrite ?length_firstn, ?length_skipn; lia.
Qed.

(** The sum of an array of up to 128 entries. *)
Lemma sum_of_block (a : list float) :
  (List.length a <= 128)%nat -> Np.sum a = 0 + Np.block_sum a.
Proof.
  intros L. unfold Np.sum. destruct (List.length a) as [|n] eqn:E;
    [reflexivity|].
  cbn [Np.pairwise_sum]. rewrite E.
  destruct (Nat.leb_spec (S n) 128); [reflexivity|lia].
Qed.

(** Fewer than eight entries are added from left to right. *)
Lemma sum_of_few (a : list float) :
  (List.length a < 8)%nat -> Np.sum a = 0 + fold_left PrimFloat.add a 0.
Proof.
  intros L. rewrite sum_of_block by lia.
  do 8 (destruct a as [|? a]; [reflexivity|]). cbn in L. lia.
Qed.

(** Eight entries are added in pairs. *)
Lemma sum_of_eight (a0 a1 a2 a3 a4 a5 a6 a7 : float) :
  Np.sum [a0; a1; a2; a3; a4; a5; a6; a7]
  = 0 + (((a0 + a1) + (a2 + a3)) + ((a4 + a5) + (a6 + a7))).
Proof. reflexivity. Qed.

(** A longer array is the sum of its two parts, each summed in the same
    way. *)
Lemma sum_of_parts (a : list float) :
  (128 < List.length a)%nat ->
  let n2 := (Nat.div (List.length a) 2
             - Nat.modulo (Nat.div (List.length a) 2) 8)%nat in
  Np.sum a
  = 0 + (Np.pairwise_sum n2 (firstn n2 a)
         + Np.pairwise_sum (List.length a - n2) (skipn n2 a)).
Proof.
  intros G n2. unfold Np.sum.
  destruct (List.length a) as [|n] eqn:E; [lia|].
  cbn [Np.pairwise_sum]. rewrite E.
  destruct (Nat.leb_spec (S n) 128); [lia|]. fold n2.
  assert (B : (1 <= n2 < S n)%nat).
  { subst n2.
    pose proof (Nat.div_mod (S n) 2 ltac:(lia)) as D.
    pose proof (Nat.mod_upper_bound (S n) 2 ltac:(lia)) as U.
    pose proof (Nat.mod_upper_bound (Nat.div (S n) 2) 8 ltac:(lia)) as V.
    lia. }
  f_equal. f_equal; apply pairwise_sum_fuel;
    rewrite ?length_firstn, ?length_skipn; lia.
Qed.

End SumFacts.
